(** * Position lifecycle and order-management core of the MTF futures bot

    A shallow embedding of the sizing rule ([risk.py]), the position record
    ([position.py]), the signal rule ([strategies/mtf_breakout.py]), the
    backtest ledger ([backtest/backtester_full.py]) and the live per-candle
    decision sequence ([live_runner.py]), followed by the properties of the
    specification that are settled against them.

    Numbers.  Python floats are embedded as exact rationals [Q]; the value
    [nan] is kept apart where the source tests for it (the signal rule and the
    serialised position record).  Python ints are [Z].  Statements about
    arithmetic are stated up to [==] on [Q]. *)

From Stdlib Require Import ZArith QArith Qround Qminmax Qabs Lia Lqa Ascii String.
From stdpp Require Import base option gmap strings list.

Local Open Scope Q_scope.

(** ** Comparisons on rationals, as booleans *)

Definition Qleb (a b : Q) : bool := Qle_bool a b.
Definition Qltb (a b : Q) : bool := negb (Qle_bool b a).

Infix "<=?" := Qleb (at level 70, no associativity) : Q_scope.
Infix "<?" := Qltb (at level 70, no associativity) : Q_scope.

(** ** config.py

    Every value the modelled code reads with [getattr(cfg, NAME, default)].
    [default_config] below holds the values of [config.py], with the
    [getattr] default where [config.py] does not define the name. *)

Record Config := {
  STRATEGY_NAME : string;
  INITIAL_BALANCE_USDT : Q;
  FUTURES_FEE_RATE : Q;
  RISK_PER_TRADE : Q;
  FUTURES_LEVERAGE_DEFAULT : Z;
  MIN_NOTIONAL_USDT : Q;
  QTY_STEP : Q;
  MAX_OPEN_POSITIONS : Z;
  MTF_MAX_OPEN_POSITIONS : Z;
  ATR_SL_MULT : Q;
  ATR_TP_MULT_1 : Q;
  ATR_TS_MULT : Q;
  MTF_MAX_BARS_IN_POSITION : Z;
  HARD_MAX_DRAWDOWN_PCT : Q;
  MAX_TRADES_PER_HOUR : Z;
  MIN_REOPEN_INTERVAL_SEC : Z;
  POSITION_MISMATCH_DISABLE : bool
}.

Definition default_config : Config := {|
  STRATEGY_NAME := "mtf_breakout";
  INITIAL_BALANCE_USDT := 5000;
  FUTURES_FEE_RATE := 4 # 10000;
  RISK_PER_TRADE := 1 # 100;
  FUTURES_LEVERAGE_DEFAULT := 5;
  MIN_NOTIONAL_USDT := 5;
  QTY_STEP := 1 # 10000;
  MAX_OPEN_POSITIONS := 3;
  MTF_MAX_OPEN_POSITIONS := 3;
  ATR_SL_MULT := 5;
  ATR_TP_MULT_1 := 10;
  ATR_TS_MULT := 5;
  MTF_MAX_BARS_IN_POSITION := 96;
  HARD_MAX_DRAWDOWN_PCT := 0;
  MAX_TRADES_PER_HOUR := 20;
  MIN_REOPEN_INTERVAL_SEC := 300;
  POSITION_MISMATCH_DISABLE := true
|}.

(** ** utils.py *)

(** [round_down(value, step)]: [math.floor(value / step) * step], the value
    itself when the step is not positive. *)
Definition round_down (value step : Q) : Q :=
  if step <=? 0 then value
  else inject_Z (Qfloor (value / step)) * step.

(** ** risk.py *)

Module RiskManager.

(** [calc_size(notional, price)]: the normaliser.  The wanted notional is
    first raised to the exchange minimum, the quantity is floored to the
    step, and the pair is dropped when the floored notional ends below the
    minimum. *)
Definition calc_size (cfg : Config) (notional price : Q) : Q * Q :=
  if (price <=? 0) || (notional <=? 0) then (0, 0)
  else
    let notional := Qmax notional (MIN_NOTIONAL_USDT cfg) in
    let qty := notional / price in
    let qty := round_down qty (QTY_STEP cfg) in
    if qty <=? 0 then (0, 0)
    else
      let notional := qty * price in
      if notional <? MIN_NOTIONAL_USDT cfg then (0, 0)
      else (notional, qty).

Definition futures_notional_by_leverage (balance_usdt : Q) (leverage : Z) : Q :=
  if (balance_usdt <=? 0) || (leverage <=? 0)%Z then 0
  else balance_usdt * inject_Z leverage.

(** [calc_futures_size_from_risk]; [None] for the two optional arguments
    stands for the caller leaving them out. *)
Definition calc_futures_size_from_risk (cfg : Config)
    (equity price stop_distance_pct : Q)
    (risk_per_trade : option Q) (leverage : option Z) : Q * Q :=
  let risk_per_trade := default (RISK_PER_TRADE cfg) risk_per_trade in
  let leverage := default (FUTURES_LEVERAGE_DEFAULT cfg) leverage in
  if (equity <=? 0) || (price <=? 0) || (stop_distance_pct <=? 0)
     || (risk_per_trade <=? 0) || (leverage <=? 0)%Z
  then (0, 0)
  else
    let risk_amount := equity * risk_per_trade in
    let notional_by_risk := risk_amount * 100 / stop_distance_pct in
    let max_notional_by_lev := futures_notional_by_leverage equity leverage in
    let desired_notional := Qmin notional_by_risk max_notional_by_lev in
    calc_size cfg desired_notional price.

End RiskManager.

(** The desired notional of the specification:
    min(equity × risk_per_trade × 100 / stop_distance_pct, equity × leverage). *)
Definition desired_notional (equity stop_distance_pct risk_per_trade : Q) (leverage : Z) : Q :=
  Qmin (equity * risk_per_trade * 100 / stop_distance_pct) (equity * inject_Z leverage).


(** The realized PnL of the specification for closing [q] at exit [X] from
    entry [E] with fee rate [f]: (X−E)·q·sign(side) − (E·q + X·q)·f. *)
Definition net_pnl (sd : string) (E X q f : Q) : Q :=
  (X - E) * q * (if String.eqb sd "long" then 1 else - (1)) - (E * q + X * q) * f.

(** ** Python helpers *)

(** [int(x)] on a float: truncation toward zero. *)
Definition py_int (x : Q) : Z := Z.quot (Qnum x) (Zpos (Qden x)).

(** [str.lower()], on ASCII letters. *)
Definition lower_ascii (c : ascii) : ascii :=
  let n := nat_of_ascii c in
  if (65 <=? n)%nat && (n <=? 90)%nat then ascii_of_nat (n + 32) else c.

Fixpoint lower (s : string) : string :=
  match s with
  | EmptyString => EmptyString
  | String c s' => String (lower_ascii c) (lower s')
  end.

(** [str(cfg.STRATEGY_NAME).lower() in {"mtf_breakout", "mtf"}] *)
Definition is_mtf_strategy (cfg : Config) : bool :=
  let strategy_name := lower (STRATEGY_NAME cfg) in
  String.eqb strategy_name "mtf_breakout" || String.eqb strategy_name "mtf".

(** ** strategies/base.py: the strategy's answer, ["buy"], ["sell"] or [None] *)

Inductive Signal := buy | sell.

(** ** position.py: the position record as the ledger uses it *)

Record PositionState := mkPositionState {
  symbol : string;
  entry_price : Q;
  qty : Q;
  notional : Q;
  side : string;
  mode : string;
  open_time : option Q;
  stop_loss : option Q;
  tp1 : option Q;
  tp2 : option Q;
  peak_price : option Q;
  trailing_stop : option Q;
  pyramid_level : Z
}.

(** Attribute assignments [pos.f = v]. *)
Definition set_qty (v : Q) (p : PositionState) : PositionState :=
  mkPositionState (symbol p) (entry_price p) v (notional p) (side p) (mode p)
    (open_time p) (stop_loss p) (tp1 p) (tp2 p) (peak_price p) (trailing_stop p)
    (pyramid_level p).

Definition set_notional (v : Q) (p : PositionState) : PositionState :=
  mkPositionState (symbol p) (entry_price p) (qty p) v (side p) (mode p)
    (open_time p) (stop_loss p) (tp1 p) (tp2 p) (peak_price p) (trailing_stop p)
    (pyramid_level p).

Definition set_stop_loss (v : option Q) (p : PositionState) : PositionState :=
  mkPositionState (symbol p) (entry_price p) (qty p) (notional p) (side p) (mode p)
    (open_time p) v (tp1 p) (tp2 p) (peak_price p) (trailing_stop p)
    (pyramid_level p).

Definition set_tp1 (v : option Q) (p : PositionState) : PositionState :=
  mkPositionState (symbol p) (entry_price p) (qty p) (notional p) (side p) (mode p)
    (open_time p) (stop_loss p) v (tp2 p) (peak_price p) (trailing_stop p)
    (pyramid_level p).

Definition set_trailing_stop (v : option Q) (p : PositionState) : PositionState :=
  mkPositionState (symbol p) (entry_price p) (qty p) (notional p) (side p) (mode p)
    (open_time p) (stop_loss p) (tp1 p) (tp2 p) (peak_price p) v
    (pyramid_level p).

(** [pos.side == "long"], [pos.side == "short"] *)
Definition is_long (p : PositionState) : bool := String.eqb (side p) "long".
Definition is_short (p : PositionState) : bool := String.eqb (side p) "short".

(** The position both runners build on an entry at bar [i]. *)
Definition new_position (cfg : Config) (sym : string) (i : Z)
    (price atr notional qty : Q) (sd : string) : PositionState :=
  let stop_loss :=
    if String.eqb sd "long" then price - ATR_SL_MULT cfg * atr
    else price + ATR_SL_MULT cfg * atr in
  let tp1 :=
    if String.eqb sd "long" then price + ATR_TP_MULT_1 cfg * atr
    else price - ATR_TP_MULT_1 cfg * atr in
  {| symbol := sym; entry_price := price; qty := qty; notional := notional;
     side := sd; mode := "futures"; open_time := Some (inject_Z i);
     stop_loss := Some stop_loss; tp1 := Some tp1; tp2 := None;
     peak_price := Some price; trailing_stop := None; pyramid_level := 0 |}.

(** [age_bars = int(i - pos.open_time)], 0 when the subtraction raises
    ([open_time] is [None]). *)
Definition age_bars (i : Z) (pos : PositionState) : Z :=
  match open_time pos with
  | Some t => py_int (inject_Z i - t)
  | None => 0%Z
  end.

(** ** backtest/backtester_full.py *)

(** What the loop reads for one symbol at bar [i]: the close of row [i], its
    ATR and the strategy's signal on the slice up to [i]. *)
Record Bar := {
  bar_price : Q;
  bar_atr : Q;
  bar_signal : option Signal
}.

Module Backtester.

(** The exit branches of the management block.  The source keeps no such
    record; [manage_position] returns the branches it took so that
    properties can name them. *)
Inductive Exit := StopLoss | TP1 | TrailingStop | TimeStop | ReverseSignal.

Definition Exit_eqb (a b : Exit) : bool :=
  match a, b with
  | StopLoss, StopLoss | TP1, TP1 | TrailingStop, TrailingStop
  | TimeStop, TimeStop | ReverseSignal, ReverseSignal => true
  | _, _ => false
  end.

(** [_close_fraction]: returns the new balance; the position object is
    shrunk in place, so the shrunk record is returned with it. *)
Definition _close_fraction (cfg : Config) (balance : Q) (pos : PositionState)
    (price fraction : Q) : Q * PositionState :=
  if (fraction <=? 0) || (1 <=? fraction) || (qty pos <=? 0) then (balance, pos)
  else
    let qty_close := qty pos * fraction in
    if qty_close <=? 0 then (balance, pos)
    else
      let pnl :=
        if is_long pos then (price - entry_price pos) * qty_close
        else (entry_price pos - price) * qty_close in
      let notional_entry := entry_price pos * qty_close in
      let notional_exit := price * qty_close in
      let fee := (notional_entry + notional_exit) * FUTURES_FEE_RATE cfg in
      let pnl_after_fee := pnl - fee in
      let new_balance := balance + pnl_after_fee in
      let q := qty pos - qty_close in
      let q := if q <? 0 then 0 else q in
      (new_balance, set_notional (entry_price pos * q) (set_qty q pos)).

(** [_close_position]: the balance after a full close. *)
Definition _close_position (cfg : Config) (balance : Q) (pos : PositionState)
    (price : Q) : Q :=
  if qty pos <=? 0 then balance
  else
    let pnl :=
      if is_long pos then (price - entry_price pos) * qty pos
      else (entry_price pos - price) * qty pos in
    let notional_entry := entry_price pos * qty pos in
    let notional_exit := price * qty pos in
    let fee := (notional_entry + notional_exit) * FUTURES_FEE_RATE cfg in
    let pnl_after_fee := pnl - fee in
    balance + pnl_after_fee.

(** 1) hard stop *)
Definition stop_loss_hit (pos : PositionState) (price : Q) : bool :=
  match stop_loss pos with
  | Some sl => (is_long pos && (price <=? sl)) || (is_short pos && (sl <=? price))
  | None => false
  end.

(** 2) first target: half out, stop to break-even, trailing switched on,
    [tp1] cleared.  The boolean tells whether the block ran. *)
Definition tp1_block (cfg : Config) (balance : Q) (pos : PositionState)
    (price atr : Q) : Q * PositionState * bool :=
  match tp1 pos with
  | Some t =>
      if is_long pos && (t <=? price) then
        let '(balance, pos) := _close_fraction cfg balance pos price (1 # 2) in
        let pos := set_stop_loss (Some (entry_price pos)) pos in
        let new_ts := price - ATR_TS_MULT cfg * atr in
        let pos :=
          match trailing_stop pos with
          | None => set_trailing_stop (Some new_ts) pos
          | Some ts => if ts <? new_ts then set_trailing_stop (Some new_ts) pos else pos
          end in
        (balance, set_tp1 None pos, true)
      else if is_short pos && (price <=? t) then
        let '(balance, pos) := _close_fraction cfg balance pos price (1 # 2) in
        let pos := set_stop_loss (Some (entry_price pos)) pos in
        let new_ts := price + ATR_TS_MULT cfg * atr in
        let pos :=
          match trailing_stop pos with
          | None => set_trailing_stop (Some new_ts) pos
          | Some ts => if new_ts <? ts then set_trailing_stop (Some new_ts) pos else pos
          end in
        (balance, set_tp1 None pos, true)
      else (balance, pos, false)
  | None => (balance, pos, false)
  end.

(** 3) trailing: the ratchet, then the test against the stored level.  The
    boolean tells whether the position is to be closed. *)
Definition trailing_block (cfg : Config) (pos : PositionState)
    (price atr : Q) : PositionState * bool :=
  match trailing_stop pos with
  | Some ts =>
      if is_long pos then
        let new_ts := price - ATR_TS_MULT cfg * atr in
        if ts <? new_ts then (set_trailing_stop (Some new_ts) pos, price <=? new_ts)
        else (pos, price <=? ts)
      else
        let new_ts := price + ATR_TS_MULT cfg * atr in
        if new_ts <? ts then (set_trailing_stop (Some new_ts) pos, new_ts <=? price)
        else (pos, ts <=? price)
  | None => (pos, false)
  end.

(** 3.5) time stop *)
Definition time_stop_hit (cfg : Config) (i : Z) (pos : PositionState) : bool :=
  let mtf_max_bars := MTF_MAX_BARS_IN_POSITION cfg in
  (0 <? mtf_max_bars)%Z && is_mtf_strategy cfg
  && (mtf_max_bars <=? age_bars i pos)%Z.

(** 4) opposite signal *)
Definition reverse_hit (pos : PositionState) (sig : option Signal) : bool :=
  match sig with
  | Some sell => is_long pos
  | Some buy => is_short pos
  | None => false
  end.

(** One pass of the management block over an open position with a price
    and a positive ATR: the balance, the position when it stays open and
    the branches taken. *)
Definition manage_position (cfg : Config) (i : Z) (b : Bar) (balance : Q)
    (pos : PositionState) : Q * option PositionState * list Exit :=
  let price := bar_price b in
  let atr := bar_atr b in
  if stop_loss_hit pos price then
    (_close_position cfg balance pos price, None, [StopLoss])
  else
    let '(balance, pos, fired) := tp1_block cfg balance pos price atr in
    let ev := if fired then [TP1] else [] in
    let '(pos, out) := trailing_block cfg pos price atr in
    if out then
      (_close_position cfg balance pos price, None, ev ++ [TrailingStop])
    else if time_stop_hit cfg i pos then
      (_close_position cfg balance pos price, None, ev ++ [TimeStop])
    else if reverse_hit pos (bar_signal b) then
      (_close_position cfg balance pos price, None, ev ++ [ReverseSignal])
    else (balance, Some pos, ev).

(** Mark-to-market equity: balance plus the floating PnL of the open
    positions that have a price at this bar. *)
Definition floating_pnl (pos : PositionState) (price : Q) : Q :=
  if is_long pos then (price - entry_price pos) * qty pos
  else (entry_price pos - price) * qty pos.

Definition equity_of (balance : Q) (symbols : list string)
    (positions : gmap string PositionState) (bars : gmap string Bar) : Q :=
  foldl (fun equity sym =>
           match positions !! sym, bars !! sym with
           | Some pos, Some b => equity + floating_pnl pos (bar_price b)
           | _, _ => equity
           end) balance symbols.

(** The management loop over the symbols.  A symbol maps to its open
    position; a symbol that holds [None] in the source is absent here. *)
Definition manage_all (cfg : Config) (i : Z) (bars : gmap string Bar)
    (symbols : list string) (balance : Q) (positions : gmap string PositionState)
    : Q * gmap string PositionState :=
  foldl (fun '(balance, positions) sym =>
           match positions !! sym, bars !! sym with
           | Some pos, Some b =>
               if bar_atr b <=? 0 then (balance, positions)
               else
                 match manage_position cfg i b balance pos with
                 | (balance, Some pos, _) => (balance, <[sym := pos]> positions)
                 | (balance, None, _) => (balance, delete sym positions)
                 end
           | _, _ => (balance, positions)
           end) (balance, positions) symbols.

(** The cap on simultaneous positions used for the gate before the entry
    loop. *)
Definition eff_max_positions (cfg : Config) : Z :=
  let max_positions := MAX_OPEN_POSITIONS cfg in
  let mtf_max_pos := MTF_MAX_OPEN_POSITIONS cfg in
  if is_mtf_strategy cfg then Z.min max_positions mtf_max_pos
  else max_positions.

(** The body of the entry loop for a flat symbol with a bar: the position
    to open, or [None] where the source says [continue].  (A signal comes
    only with a positive close, so the division by the price is by a
    positive number.) *)
Definition entry (cfg : Config) (i : Z) (equity : Q) (sym : string) (b : Bar)
    : option PositionState :=
  let price := bar_price b in
  let atr := bar_atr b in
  if atr <=? 0 then None
  else
    match bar_signal b with
    | None => None
    | Some signal =>
        let sd := match signal with buy => "long" | sell => "short" end in
        let stop_distance_pct := ATR_SL_MULT cfg * atr / price * 100 in
        if stop_distance_pct <=? 0 then None
        else
          let '(notional, qty) :=
            RiskManager.calc_futures_size_from_risk cfg equity price
              stop_distance_pct (Some (RISK_PER_TRADE cfg))
              (Some (FUTURES_LEVERAGE_DEFAULT cfg)) in
          if (notional <=? 0) || (qty <=? 0) then None
          else Some (new_position cfg sym i price atr notional qty sd)
    end.

Record Entries := {
  positions : gmap string PositionState;
  open_count : Z;
  can_open_more : bool
}.

(** The entry loop [for sym in symbols], with its [break] and its update of
    [can_open_more] after each opening. *)
Fixpoint open_loop (cfg : Config) (i : Z) (equity : Q) (bars : gmap string Bar)
    (symbols : list string) (st : Entries) : Entries :=
  match symbols with
  | [] => st
  | sym :: rest =>
      if negb (can_open_more st) then st
      else
        match positions st !! sym, bars !! sym with
        | None, Some b =>
            match entry cfg i equity sym b with
            | Some pos =>
                let open_count := (open_count st + 1)%Z in
                open_loop cfg i equity bars rest
                  {| positions := <[sym := pos]> (positions st);
                     open_count := open_count;
                     can_open_more := (open_count <? MAX_OPEN_POSITIONS cfg)%Z |}
            | None => open_loop cfg i equity bars rest st
            end
        | _, _ => open_loop cfg i equity bars rest st
        end
  end.

(** The state the main loop carries from bar to bar. *)
Record Ledger := {
  balance : Q;
  ledger_positions : gmap string PositionState;
  equity_curve : list Q
}.

(** One iteration of the main loop at index [i]; [bars] holds the symbols
    whose frame reaches [i]. *)
Definition run_bar (cfg : Config) (symbols : list string) (i : Z)
    (bars : gmap string Bar) (st : Ledger) : Ledger :=
  if decide (bars = ∅) then st
  else
    let equity := equity_of (balance st) symbols (ledger_positions st) bars in
    let equity_curve := equity_curve st ++ [equity] in
    let '(balance, positions) :=
      manage_all cfg i bars symbols (balance st) (ledger_positions st) in
    let equity := equity_of balance symbols positions bars in
    let open_count := Z.of_nat (size positions) in
    let can_open_more := (open_count <? eff_max_positions cfg)%Z in
    let e := open_loop cfg i equity bars symbols
               {| positions := positions; open_count := open_count;
                  can_open_more := can_open_more |} in
    {| balance := balance; ledger_positions := Backtester.positions e;
       equity_curve := equity_curve |}.

(** The main loop over the bars [warmup, warmup + 1, ...]. *)
Fixpoint run_bars (cfg : Config) (symbols : list string) (i : Z)
    (frames : list (gmap string Bar)) (st : Ledger) : Ledger :=
  match frames with
  | [] => st
  | bars :: rest => run_bars cfg symbols (i + 1) rest (run_bar cfg symbols i bars st)
  end.

(** The liquidation after the loop: every remaining position is closed at
    the last price of its symbol. *)
Definition close_all (cfg : Config) (symbols : list string)
    (last_prices : gmap string Q) (st : Ledger) : Q :=
  foldl (fun balance sym =>
           match ledger_positions st !! sym, last_prices !! sym with
           | Some pos, Some price => _close_position cfg balance pos price
           | _, _ => balance
           end) (balance st) symbols.

(** The exits of one position over the bars that follow, from bar [i] on,
    until it is closed; a bar without a positive ATR is passed over, as in
    the management loop. *)
Fixpoint follow (cfg : Config) (i : Z) (bars : list Bar) (balance : Q)
    (pos : PositionState) : list Exit :=
  match bars with
  | [] => []
  | b :: rest =>
      if bar_atr b <=? 0 then follow cfg (i + 1) rest balance pos
      else
        match manage_position cfg i b balance pos with
        | (balance, Some pos, ev) => ev ++ follow cfg (i + 1) rest balance pos
        | (_, None, ev) => ev
        end
  end.

(** How often the first-target block ran. *)
Definition tp1_count (ev : list Exit) : nat :=
  length (List.filter (fun e => Exit_eqb e TP1) ev).

End Backtester.

(** ** live_runner.py *)

Module LiveRunner.

(** A market order handed to the broker. *)
Record Order := {
  order_symbol : string;
  order_side : string;
  order_qty : Q;
  reduce_only : bool
}.

(** What reaches the notifier. *)
Inductive Notice :=
| notify_error (kind : string)
| notify_order_error (sym sd : string) (q : Q)
| notify_open_position (sym sd : string) (q entry : Q)
| notify_close_position (sym sd : string) (q entry exit pnl : Q) (reason : string).

(** The log lines of the order paths. *)
Inductive LogLine :=
| log_broker_missing (sym : string)
| log_open (sym sd : string) (q price : Q)
| log_open_failed (sym sd : string)
| log_close (sym sd : string) (q price : Q) (reason : string)
| log_close_failed (sym reason : string)
| log_close_fraction (sym sd : string) (q price : Q) (reason : string)
| log_close_fraction_failed (sym reason : string).

(** The runner object together with what it writes to: the state file
    ([state_positions], [equity_peak], [realized_pnl]), the broker
    ([orders], the accepted orders in order of arrival), the notifier and
    the log.  [exchange] scripts the broker: the outcome of each coming
    [create_market_order] call, [true] for a fill and [false] for a raised
    error; past its end every order is filled. *)
Record Runner := mkRunner {
  broker : bool;
  exchange : list bool;
  positions : gmap string PositionState;
  trading_disabled : bool;
  trade_timestamps : list Q;
  last_open_time : gmap string Q;
  state_positions : gmap string PositionState;
  equity_peak : option Q;
  realized_pnl : Q;
  orders : list Order;
  notices : list Notice;
  log : list LogLine
}.

Definition set_exchange (v : list bool) (r : Runner) : Runner :=
  mkRunner (broker r) v (positions r) (trading_disabled r) (trade_timestamps r)
    (last_open_time r) (state_positions r) (equity_peak r) (realized_pnl r)
    (orders r) (notices r) (log r).

Definition set_positions (v : gmap string PositionState) (r : Runner) : Runner :=
  mkRunner (broker r) (exchange r) v (trading_disabled r) (trade_timestamps r)
    (last_open_time r) (state_positions r) (equity_peak r) (realized_pnl r)
    (orders r) (notices r) (log r).

Definition set_trading_disabled (v : bool) (r : Runner) : Runner :=
  mkRunner (broker r) (exchange r) (positions r) v (trade_timestamps r)
    (last_open_time r) (state_positions r) (equity_peak r) (realized_pnl r)
    (orders r) (notices r) (log r).

Definition set_trade_timestamps (v : list Q) (r : Runner) : Runner :=
  mkRunner (broker r) (exchange r) (positions r) (trading_disabled r) v
    (last_open_time r) (state_positions r) (equity_peak r) (realized_pnl r)
    (orders r) (notices r) (log r).

Definition set_last_open_time (v : gmap string Q) (r : Runner) : Runner :=
  mkRunner (broker r) (exchange r) (positions r) (trading_disabled r)
    (trade_timestamps r) v (state_positions r) (equity_peak r) (realized_pnl r)
    (orders r) (notices r) (log r).

Definition set_state_positions (v : gmap string PositionState) (r : Runner) : Runner :=
  mkRunner (broker r) (exchange r) (positions r) (trading_disabled r)
    (trade_timestamps r) (last_open_time r) v (equity_peak r) (realized_pnl r)
    (orders r) (notices r) (log r).

Definition set_equity_peak (v : option Q) (r : Runner) : Runner :=
  mkRunner (broker r) (exchange r) (positions r) (trading_disabled r)
    (trade_timestamps r) (last_open_time r) (state_positions r) v (realized_pnl r)
    (orders r) (notices r) (log r).

Definition set_realized_pnl (v : Q) (r : Runner) : Runner :=
  mkRunner (broker r) (exchange r) (positions r) (trading_disabled r)
    (trade_timestamps r) (last_open_time r) (state_positions r) (equity_peak r) v
    (orders r) (notices r) (log r).

Definition set_orders (v : list Order) (r : Runner) : Runner :=
  mkRunner (broker r) (exchange r) (positions r) (trading_disabled r)
    (trade_timestamps r) (last_open_time r) (state_positions r) (equity_peak r)
    (realized_pnl r) v (notices r) (log r).

Definition notify (n : Notice) (r : Runner) : Runner :=
  mkRunner (broker r) (exchange r) (positions r) (trading_disabled r)
    (trade_timestamps r) (last_open_time r) (state_positions r) (equity_peak r)
    (realized_pnl r) (orders r) (notices r ++ [n]) (log r).

Definition logged (l : LogLine) (r : Runner) : Runner :=
  mkRunner (broker r) (exchange r) (positions r) (trading_disabled r)
    (trade_timestamps r) (last_open_time r) (state_positions r) (equity_peak r)
    (realized_pnl r) (orders r) (notices r) (log r ++ [l]).

(** [await self._broker.create_market_order(...)]: [true] when the order
    went through, [false] when the call raised. *)
Definition create_market_order (o : Order) (r : Runner) : bool * Runner :=
  match exchange r with
  | [] => (true, set_orders (orders r ++ [o]) r)
  | true :: rest => (true, set_exchange rest (set_orders (orders r ++ [o]) r))
  | false :: rest => (false, set_exchange rest r)
  end.

(** [StateManager.update_equity_peak] *)
Definition update_equity_peak (equity : Q) (r : Runner) : Runner :=
  match equity_peak r with
  | None => set_equity_peak (Some equity) r
  | Some cur_peak =>
      if cur_peak <? equity then set_equity_peak (Some equity) r else r
  end.

(** [StateManager.add_realized_pnl] *)
Definition add_realized_pnl (pnl_delta : Q) (r : Runner) : Runner :=
  set_realized_pnl (realized_pnl r + pnl_delta) r.

(** [_update_position_state]: the cache and the state file together. *)
Definition _update_position_state (sym : string) (pos : option PositionState)
    (r : Runner) : Runner :=
  match pos with
  | None =>
      set_state_positions (delete sym (state_positions r))
        (set_positions (delete sym (positions r)) r)
  | Some pos =>
      set_state_positions (<[sym := pos]> (state_positions r))
        (set_positions (<[sym := pos]> (positions r)) r)
  end.

(** An assignment [pos.f = v] on the position object held by the cache:
    the cache sees it at once, the state file only at the next
    [_update_position_state]. *)
Definition assign (sym : string) (pos : PositionState) (r : Runner) : Runner :=
  set_positions (<[sym := pos]> (positions r)) r.

(** [_close_position_live] *)
Definition _close_position_live (sym : string) (pos : PositionState)
    (price : Q) (reason : string) (r : Runner) : Runner :=
  if negb (broker r) then logged (log_broker_missing sym) r
  else if qty pos <=? 0 then _update_position_state sym None r
  else
    let side_ := if is_long pos then "SELL" else "BUY" in
    let q := qty pos in
    let '(ok, r) :=
      create_market_order
        {| order_symbol := sym; order_side := side_; order_qty := q;
           reduce_only := true |} r in
    if negb ok then
      notify (notify_order_error sym (side pos) q)
        (logged (log_close_failed sym reason) r)
    else
      let r := logged (log_close sym (side pos) q price reason) r in
      let entry := entry_price pos in
      let exit_price := price in
      let sign := if is_long pos then 1 else - (1) in
      let pnl := (exit_price - entry) * q * sign in
      let r := add_realized_pnl pnl r in
      let r := notify (notify_close_position sym (side pos) q entry exit_price pnl reason) r in
      _update_position_state sym None r.

(** [_close_fraction_live]: the position object is shrunk in place when
    the order goes through, so the record is returned with the runner. *)
Definition _close_fraction_live (sym : string) (pos : PositionState)
    (price fraction : Q) (reason : string) (r : Runner) : PositionState * Runner :=
  if negb (broker r) then (pos, logged (log_broker_missing sym) r)
  else if (qty pos <=? 0) || (fraction <=? 0) || (1 <=? fraction) then (pos, r)
  else
    let qty_close := qty pos * fraction in
    if qty_close <=? 0 then (pos, r)
    else
      let side_ := if is_long pos then "SELL" else "BUY" in
      let '(ok, r) :=
        create_market_order
          {| order_symbol := sym; order_side := side_; order_qty := qty_close;
             reduce_only := true |} r in
      if negb ok then (pos, logged (log_close_fraction_failed sym reason) r)
      else
        let q := qty pos - qty_close in
        let q := if q <? 0 then 0 else q in
        let pos := set_notional (entry_price pos * q) (set_qty q pos) in
        let r := _update_position_state sym (Some pos) r in
        (pos, logged (log_close_fraction sym (side pos) qty_close price reason) r).

(** What one closed 15m candle brings to [_run_strategy_if_ready]: the
    last close and ATR of the merged frame, the strategy's signal on it,
    the index [len(df_mtf) - 1], the balance the broker reports ([None]
    when the call raises) and the two clock readings. *)
Record Candle := {
  price : Q;
  atr : Q;
  signal : option Signal;
  bar_index : Z;
  balance_usdt : option Q;
  now_ts : Q;
  open_ts : Q
}.

(** The hard drawdown guard. *)
Definition drawdown_pct (cfg : Config) (equity : Q) (r : Runner) : Q :=
  let hard_dd := HARD_MAX_DRAWDOWN_PCT cfg in
  match equity_peak r with
  | Some peak_val =>
      if (0 <? hard_dd) && (0 <? equity) then
        if 0 <? peak_val then Qmax 0 ((peak_val - equity) / peak_val * 100)
        else 0
      else 0
  | None => 0
  end.

Definition drawdown_guard (cfg : Config) (equity : Q) (r : Runner) : Runner :=
  let hard_dd := HARD_MAX_DRAWDOWN_PCT cfg in
  let dd_pct := drawdown_pct cfg equity r in
  if (0 <? hard_dd) && (hard_dd <=? dd_pct) then
    let r := if negb (trading_disabled r) then notify (notify_error "risk_guard") r
             else r in
    set_trading_disabled true r
  else r.

(** 1. management of the open position *)
Definition stop_loss_hit (pos : PositionState) (price : Q) : bool :=
  match stop_loss pos with
  | Some sl => (is_long pos && (price <=? sl)) || (is_short pos && (sl <=? price))
  | None => false
  end.

Definition tp1_block (cfg : Config) (sym : string) (c : Candle)
    (pos : PositionState) (r : Runner) : PositionState * Runner :=
  match tp1 pos with
  | Some t =>
      if 0 <? qty pos then
        if is_long pos && (t <=? price c) then
          let '(pos, r) := _close_fraction_live sym pos (price c) (1 # 2) "tp1" r in
          let pos := set_stop_loss (Some (entry_price pos)) pos in
          let new_ts := price c - ATR_TS_MULT cfg * atr c in
          let pos :=
            match trailing_stop pos with
            | None => set_trailing_stop (Some new_ts) pos
            | Some ts => if ts <? new_ts then set_trailing_stop (Some new_ts) pos else pos
            end in
          let pos := set_tp1 None pos in
          (pos, _update_position_state sym (Some pos) r)
        else if is_short pos && (price c <=? t) then
          let '(pos, r) := _close_fraction_live sym pos (price c) (1 # 2) "tp1" r in
          let pos := set_stop_loss (Some (entry_price pos)) pos in
          let new_ts := price c + ATR_TS_MULT cfg * atr c in
          let pos :=
            match trailing_stop pos with
            | None => set_trailing_stop (Some new_ts) pos
            | Some ts => if new_ts <? ts then set_trailing_stop (Some new_ts) pos else pos
            end in
          let pos := set_tp1 None pos in
          (pos, _update_position_state sym (Some pos) r)
        else (pos, r)
      else (pos, r)
  | None => (pos, r)
  end.

(** The trailing block; the boolean tells whether the tick ends here (a
    close was attempted). *)
Definition trailing_block (cfg : Config) (sym : string) (c : Candle)
    (pos : PositionState) (r : Runner) : PositionState * Runner * bool :=
  match trailing_stop pos with
  | Some ts =>
      if 0 <? qty pos then
        if is_long pos then
          let new_ts := price c - ATR_TS_MULT cfg * atr c in
          let '(pos, ts, r) :=
            if ts <? new_ts then
              let pos := set_trailing_stop (Some new_ts) pos in
              (pos, new_ts, assign sym pos r)
            else (pos, ts, r) in
          if price c <=? ts then
            (pos, _close_position_live sym pos (price c) "trailing_stop" r, true)
          else (pos, _update_position_state sym (Some pos) r, false)
        else
          let new_ts := price c + ATR_TS_MULT cfg * atr c in
          let '(pos, ts, r) :=
            if new_ts <? ts then
              let pos := set_trailing_stop (Some new_ts) pos in
              (pos, new_ts, assign sym pos r)
            else (pos, ts, r) in
          if ts <=? price c then
            (pos, _close_position_live sym pos (price c) "trailing_stop" r, true)
          else (pos, _update_position_state sym (Some pos) r, false)
      else (pos, r, false)
  | None => (pos, r, false)
  end.

Definition time_stop_hit (cfg : Config) (c : Candle) (pos : PositionState) : bool :=
  let mtf_max_bars := MTF_MAX_BARS_IN_POSITION cfg in
  (0 <? mtf_max_bars)%Z && (mtf_max_bars <=? age_bars (bar_index c) pos)%Z.

Definition reverse_hit (pos : PositionState) (sig : option Signal) : bool :=
  match sig with
  | Some sell => is_long pos
  | Some buy => is_short pos
  | None => false
  end.

Definition manage_position (cfg : Config) (sym : string) (c : Candle)
    (pos : PositionState) (r : Runner) : Runner :=
  if stop_loss_hit pos (price c) then
    _close_position_live sym pos (price c) "stop_loss" r
  else
    let '(pos, r) := tp1_block cfg sym c pos r in
    let '(pos, r, done) := trailing_block cfg sym c pos r in
    if done then r
    else if time_stop_hit cfg c pos then
      _close_position_live sym pos (price c) "time_stop" r
    else if reverse_hit pos (signal c) then
      _close_position_live sym pos (price c) "reverse_signal" r
    else r.

(** 2. opening of a new position *)
Definition eff_max_positions (cfg : Config) : Z :=
  let max_positions := MAX_OPEN_POSITIONS cfg in
  let mtf_max_pos := MTF_MAX_OPEN_POSITIONS cfg in
  if is_mtf_strategy cfg then Z.min max_positions mtf_max_pos
  else max_positions.

Definition open_position (cfg : Config) (sym : string) (c : Candle)
    (equity : Q) (r : Runner) : Runner :=
  match signal c with
  | None => r
  | Some sig =>
      if trading_disabled r then r
      else
        let max_trades_per_hour := MAX_TRADES_PER_HOUR cfg in
        let r :=
          if (0 <? max_trades_per_hour)%Z then
            set_trade_timestamps
              (filter (fun t => Is_true (now_ts c - t <? 3600)) (trade_timestamps r)) r
          else r in
        if (0 <? max_trades_per_hour)%Z
           && (max_trades_per_hour <=? Z.of_nat (length (trade_timestamps r)))%Z
        then r
        else
          let min_reopen := MIN_REOPEN_INTERVAL_SEC cfg in
          let too_soon :=
            (0 <? min_reopen)%Z &&
            match last_open_time r !! sym with
            | Some last_open => now_ts c - last_open <? inject_Z min_reopen
            | None => false
            end in
          if too_soon then r
          else
            let open_count := Z.of_nat (size (positions r)) in
            if (eff_max_positions cfg <=? open_count)%Z then r
            else if equity <=? 0 then r
            else
              let stop_distance_abs := ATR_SL_MULT cfg * atr c in
              let stop_distance_pct := stop_distance_abs / price c * 100 in
              let '(notional, q) :=
                RiskManager.calc_futures_size_from_risk cfg equity (price c)
                  stop_distance_pct (Some (RISK_PER_TRADE cfg))
                  (Some (FUTURES_LEVERAGE_DEFAULT cfg)) in
              if (notional <=? 0) || (q <=? 0) then r
              else
                let sd := match sig with buy => "long" | sell => "short" end in
                if negb (broker r) then logged (log_broker_missing sym) r
                else
                  let side_ := if String.eqb sd "long" then "BUY" else "SELL" in
                  let '(ok, r) :=
                    create_market_order
                      {| order_symbol := sym; order_side := side_; order_qty := q;
                         reduce_only := false |} r in
                  if negb ok then
                    notify (notify_order_error sym sd q)
                      (logged (log_open_failed sym sd) r)
                  else
                    let pos :=
                      new_position cfg sym (bar_index c) (price c) (atr c) notional q sd in
                    let r := _update_position_state sym (Some pos) r in
                    let r := logged (log_open sym sd q (price c)) r in
                    let r := notify (notify_open_position sym sd q (price c)) r in
                    let r := set_last_open_time (<[sym := open_ts c]> (last_open_time r)) r in
                    set_trade_timestamps (trade_timestamps r ++ [open_ts c]) r
  end.

(** [_run_strategy_if_ready], from the point where the merged frame is
    built and its last row read.  The write of the balance to the state
    file ([update_balance]) is left out: nothing reads it back. *)
Definition _run_strategy_if_ready (cfg : Config) (sym : string) (c : Candle)
    (r : Runner) : Runner :=
  if (price c <=? 0) || (atr c <=? 0) then r
  else
    let equity :=
      if broker r then default 0 (balance_usdt c) else 0 in
    let r := if 0 <? equity then update_equity_peak equity r else r in
    let r := drawdown_guard cfg equity r in
    match positions r !! sym with
    | Some pos => manage_position cfg sym c pos r
    | None => open_position cfg sym c equity r
    end.

(** The position check of the heartbeat: the symbols the exchange reports
    as open against the local ones. *)
Definition heartbeat (cfg : Config) (exch_positions_syms : gset string)
    (r : Runner) : Runner :=
  let local_syms : gset string :=
    dom (filter (fun kv => Is_true (0 <? qty kv.2)) (positions r)) in
  if decide (exch_positions_syms = local_syms) then r
  else if POSITION_MISMATCH_DISABLE cfg && negb (trading_disabled r) then
    notify (notify_error "position_mismatch") (set_trading_disabled true r)
  else r.

(** The runner once [start] has set up the broker, with an empty state
    file. *)
Definition started : Runner := {|
  broker := true; exchange := []; positions := ∅; trading_disabled := false;
  trade_timestamps := []; last_open_time := ∅; state_positions := ∅;
  equity_peak := None; realized_pnl := 0; orders := []; notices := []; log := []
|}.

(** What drives the runner: closed 15m candles and heartbeats. *)
Inductive Event :=
| kline_15m (sym : string) (c : Candle)
| beat (exch_positions_syms : gset string).

Definition handle (cfg : Config) (e : Event) (r : Runner) : Runner :=
  match e with
  | kline_15m sym c => _run_strategy_if_ready cfg sym c r
  | beat syms => heartbeat cfg syms r
  end.

Definition run (cfg : Config) (events : list Event) (r : Runner) : Runner :=
  foldl (fun r e => handle cfg e r) r events.

(** The events fed to the runner for as long as it holds a position in
    [sym]: the life of that position. *)
Fixpoint follow (cfg : Config) (sym : string) (events : list Event)
    (r : Runner) : Runner :=
  match events with
  | [] => r
  | e :: rest =>
      match positions r !! sym with
      | Some _ => follow cfg sym rest (handle cfg e r)
      | None => r
      end
  end.

(** The log lines of a partial close of [sym] for the first target, filled
    or refused. *)
Definition is_tp1_line (sym : string) (l : LogLine) : bool :=
  match l with
  | log_close_fraction s _ _ _ reason => String.eqb s sym && String.eqb reason "tp1"
  | log_close_fraction_failed s reason => String.eqb s sym && String.eqb reason "tp1"
  | _ => false
  end.

Definition tp1_attempts (sym : string) (r : Runner) : nat :=
  length (List.filter (is_tp1_line sym) (log r)).

End LiveRunner.

(** ** strategies/mtf_breakout.py *)

Module MTFBreakoutStrategy.

(** The part of [config.py] the strategy reads. *)
Record Params := {
  ANTI_CHOP_MIN_ATR_PCT : Q;
  BREAKOUT_ADX_MIN : Q;
  HTF_VOLATILE_ATR_PCT : Q;
  HTF_VOLATILE_DRIFT_PCT : Q;
  HTF_VOLATILE_ADX_MAX : Q;
  HTF_DRIFT_LOOKBACK_BARS : Z;
  MTF_ATR_SUPER_HIGH_PCT : Q;
  MTF_DISABLE_VOLATILE_FLAT : bool;
  MTF_DRIFT_LOOKBACK_BARS : Z;
  MTF_DRIFT_MIN_PCT : Q;
  MTF_DRIFT_STRONG_TREND_PCT : Q;
  MTF_DRIFT_ADAPTIVE_ENABLED : bool;
  MTF_DRIFT_MIN_LOOSEN_FACTOR : Q;
  MTF_STRONG_TREND_ADX_MARGIN : Q;
  MTF_LTF_LOOKBACK : Z;
  MTF_ATR_LOW_VOL_PCT : Q;
  MTF_ATR_HIGH_VOL_PCT : Q;
  MTF_LOOKBACK_MIN : Z;
  MTF_LOOKBACK_MAX : Z;
  BREAKOUT_BUFFER_PCT : Q;
  BREAKOUT_VOLUME_MULT : Q;
  LTF_ATR_MIN_PCT : Q;
  LTF_MICRO_ATR_PCT : Q;
  LTF_SLOPE_LOOKBACK : Z;
  LTF_SLOPE_MIN_ABS : Q;
  LTF_VOLATILE_SLOPE_FACTOR : Q;
  MTF_RSI_LONG_MIN : Q;
  MTF_RSI_LONG_MAX : Q;
  MTF_RSI_SHORT_MIN : Q;
  MTF_RSI_SHORT_MAX : Q;
  MTF_RSI_LONG_TIGHTEN : Q;
  MTF_RSI_SHORT_TIGHTEN : Q
}.

Definition default_params : Params := {|
  ANTI_CHOP_MIN_ATR_PCT := 5 # 10000;
  BREAKOUT_ADX_MIN := 20;
  HTF_VOLATILE_ATR_PCT := 4 # 1000;
  HTF_VOLATILE_DRIFT_PCT := 6 # 1000;
  HTF_VOLATILE_ADX_MAX := 22;
  HTF_DRIFT_LOOKBACK_BARS := 16;
  MTF_ATR_SUPER_HIGH_PCT := 2 # 100;
  MTF_DISABLE_VOLATILE_FLAT := true;
  MTF_DRIFT_LOOKBACK_BARS := 96;
  MTF_DRIFT_MIN_PCT := 6 # 1000;
  MTF_DRIFT_STRONG_TREND_PCT := 1 # 100;
  MTF_DRIFT_ADAPTIVE_ENABLED := true;
  MTF_DRIFT_MIN_LOOSEN_FACTOR := 7 # 10;
  MTF_STRONG_TREND_ADX_MARGIN := 5;
  MTF_LTF_LOOKBACK := 60;
  MTF_ATR_LOW_VOL_PCT := 3 # 1000;
  MTF_ATR_HIGH_VOL_PCT := 15 # 1000;
  MTF_LOOKBACK_MIN := 40;
  MTF_LOOKBACK_MAX := 80;
  BREAKOUT_BUFFER_PCT := 1 # 1000;
  BREAKOUT_VOLUME_MULT := 3 # 2;
  LTF_ATR_MIN_PCT := 2 # 10000;
  LTF_MICRO_ATR_PCT := 15 # 10000;
  LTF_SLOPE_LOOKBACK := 30;
  LTF_SLOPE_MIN_ABS := 1 # 1000;
  LTF_VOLATILE_SLOPE_FACTOR := 5;
  MTF_RSI_LONG_MIN := 50;
  MTF_RSI_LONG_MAX := 85;
  MTF_RSI_SHORT_MIN := 15;
  MTF_RSI_SHORT_MAX := 55;
  MTF_RSI_LONG_TIGHTEN := 5;
  MTF_RSI_SHORT_TIGHTEN := 5
|}.

(** A float that may be [nan]: [None] is [nan].  Comparisons with [nan] are
    false, arithmetic with [nan] is [nan]. *)
Definition float := option Q.

Definition flt (a b : float) : bool :=
  match a, b with Some x, Some y => x <? y | _, _ => false end.

Definition fle (a b : float) : bool :=
  match a, b with Some x, Some y => x <=? y | _, _ => false end.

Definition fmul (a b : float) : float :=
  match a, b with Some x, Some y => Some (x * y) | _, _ => None end.

(** Division by a number already known to be positive. *)
Definition fdiv (a : float) (b : Q) : float :=
  match a with Some x => Some (x / b) | None => None end.

(** One row of the frame; a cell is read only when its column is there. *)
Record Row := {
  close : float;
  high : float;
  low : float;
  volume : float;
  RSI : float;
  ATR : float;
  HTF_EMA20 : float;
  HTF_EMA50 : float;
  HTF_EMA200 : float;
  HTF_ATR : float;
  HTF_ADX : float;
  HTF_RSI : float;
  HTF_SMA_TREND : float
}.

Record DataFrame := {
  columns : list string;
  rows : list Row
}.

Definition len (df : DataFrame) : Z := Z.of_nat (length (rows df)).

(** [series.iloc[i]] with Python's negative indices; [None] for IndexError. *)
Definition iloc {A : Type} (l : list A) (i : Z) : option A :=
  let n := Z.of_nat (length l) in
  let j := if (i <? 0)%Z then (n + i)%Z else i in
  if (j <? 0)%Z || (n <=? j)%Z then None else l !! Z.to_nat j.

(** [l[start:stop]] with Python's clamping of the two bounds. *)
Definition slice {A : Type} (l : list A) (start stop : Z) : list A :=
  let n := Z.of_nat (length l) in
  let norm k := if (k <? 0)%Z then Z.max 0 (n + k) else Z.min n k in
  let a := norm start in
  let b := norm stop in
  take (Z.to_nat (b - a)) (drop (Z.to_nat a) l).

(** [float(last.get(col))]: [None] when the column is missing (the
    conversion of Python's [None] raises, and the strategy returns). *)
Definition get (df : DataFrame) (col : string) (cell : float) : option float :=
  if bool_decide (col ∈ columns df) then Some cell else None.

(** [series.max()], [series.min()] and [series.mean()] of pandas: [nan]
    cells are skipped, and the answer is [nan] when nothing is left. *)
Definition series_max (l : list float) : float :=
  foldl (fun acc x =>
           match acc, x with
           | Some a, Some b => Some (Qmax a b)
           | None, _ => x
           | _, None => acc
           end) None l.

Definition series_min (l : list float) : float :=
  foldl (fun acc x =>
           match acc, x with
           | Some a, Some b => Some (Qmin a b)
           | None, _ => x
           | _, None => acc
           end) None l.

Definition series_mean (l : list float) : float :=
  let vals := omap id l in
  match vals with
  | [] => None
  | _ => Some (foldl Qplus 0 vals / inject_Z (Z.of_nat (length vals)))
  end.

(** The drift over [lookback] bars, |close_now - close_then| / close_now; 0
    when the frame is too short, the lookup raises, or a close is [nan] or
    not positive. *)
Definition drift_over (df : DataFrame) (lookback : Z) : Q :=
  if (lookback + 1 <? len df)%Z then
    let close_series := close <$> rows df in
    match iloc close_series (-1), iloc close_series (- lookback - 1) with
    | Some (Some last_price), Some (Some prev_price) =>
        if (0 <? last_price) && (0 <? prev_price)
        then Qabs (last_price - prev_price) / last_price
        else 0
    | _, _ => 0
    end
  else 0.

Inductive Regime := bull | bear.

(** 1) the HTF trend *)
Definition htf_regime (ema20_h ema50_h ema200_h : Q) : option Regime :=
  if (ema50_h <? ema20_h) && (ema200_h <? ema50_h) then Some bull
  else if (ema20_h <? ema50_h) && (ema50_h <? ema200_h) then Some bear
  else None.

(** The adaptive drift floor. *)
Definition drift_min_eff (cfg : Params) (adx_h atr_pct_h : Q) : Q :=
  let drift_min_pct := MTF_DRIFT_MIN_PCT cfg in
  if MTF_DRIFT_ADAPTIVE_ENABLED cfg then
    let strong_trend :=
      (BREAKOUT_ADX_MIN cfg + MTF_STRONG_TREND_ADX_MARGIN cfg <=? adx_h)
      && (ANTI_CHOP_MIN_ATR_PCT cfg * (3 # 2) <=? atr_pct_h)
      && (atr_pct_h <=? HTF_VOLATILE_ATR_PCT cfg) in
    if strong_trend then drift_min_pct * MTF_DRIFT_MIN_LOOSEN_FACTOR cfg
    else drift_min_pct
  else drift_min_pct.

(** The dynamic LTF lookback. *)
Definition lookback_ltf (cfg : Params) (atr_pct_h drift : Q) : Z :=
  let base_lookback := MTF_LTF_LOOKBACK cfg in
  let lb_min := MTF_LOOKBACK_MIN cfg in
  let lb_max := MTF_LOOKBACK_MAX cfg in
  let lookback :=
    if atr_pct_h <? MTF_ATR_LOW_VOL_PCT cfg then
      Z.min lb_max (py_int (inject_Z base_lookback * (13 # 10)))
    else if MTF_ATR_HIGH_VOL_PCT cfg <? atr_pct_h then
      Z.max lb_min (py_int (inject_Z base_lookback * (7 # 10)))
    else base_lookback in
  if (MTF_DRIFT_MIN_PCT cfg <? drift) && (drift <? MTF_DRIFT_STRONG_TREND_PCT cfg) then
    Z.min lb_max (py_int (inject_Z lookback * (12 # 10)))
  else if MTF_DRIFT_STRONG_TREND_PCT cfg <=? drift then
    Z.max lb_min (py_int (inject_Z lookback * (85 # 100)))
  else lookback.

(** The slope over [LTF_SLOPE_LOOKBACK] bars: the outer [None] is Python's
    [None], the inner one is [nan]. *)
Definition slope_abs (cfg : Params) (df : DataFrame) : option float :=
  let slope_lookback := LTF_SLOPE_LOOKBACK cfg in
  let close_series := close <$> rows df in
  match iloc close_series (-1) with
  | Some last_price_ltf =>
      if (slope_lookback + 1 <? len df)%Z then
        match iloc close_series (- slope_lookback - 1) with
        | Some prev_price_ltf =>
            match last_price_ltf with
            | Some l =>
                if 0 <? l then
                  Some (match prev_price_ltf with
                        | Some p => Some (Qabs (l - p) / l)
                        | None => None
                        end)
                else None
            | None => None
            end
        | None => None
        end
      else None
  | None => None
  end.

(** The adaptive RSI bands: (long_min, short_max). *)
Definition rsi_bands (cfg : Params) (drift : Q) : Q * Q :=
  let rsi_long_min := MTF_RSI_LONG_MIN cfg in
  let rsi_short_max := MTF_RSI_SHORT_MAX cfg in
  if (MTF_DRIFT_MIN_PCT cfg <? drift) && (drift <? MTF_DRIFT_STRONG_TREND_PCT cfg) then
    (rsi_long_min + MTF_RSI_LONG_TIGHTEN cfg, rsi_short_max - MTF_RSI_SHORT_TIGHTEN cfg)
  else if MTF_DRIFT_STRONG_TREND_PCT cfg <=? drift then
    (Qmax 40 (rsi_long_min - MTF_RSI_LONG_TIGHTEN cfg * (1 # 2)),
     Qmin 60 (rsi_short_max + MTF_RSI_SHORT_TIGHTEN cfg * (1 # 2)))
  else (rsi_long_min, rsi_short_max).

(** What the last step of [signal] decides on. *)
Record Setup := {
  regime : Regime;
  last_close : Q;
  long_trigger : float;
  short_trigger : float;
  rsi_ltf : float;
  rsi_long_min : Q;
  rsi_long_max : Q;
  rsi_short_min : Q;
  rsi_short_max : Q
}.

Definition long_ok (s : Setup) : bool :=
  flt (long_trigger s) (Some (last_close s))
  && fle (Some (rsi_long_min s)) (rsi_ltf s) && fle (rsi_ltf s) (Some (rsi_long_max s)).

Definition short_ok (s : Setup) : bool :=
  flt (Some (last_close s)) (short_trigger s)
  && fle (Some (rsi_short_min s)) (rsi_ltf s) && fle (rsi_ltf s) (Some (rsi_short_max s)).

(** 4) the final signals *)
Definition emit (s : Setup) : option Signal :=
  match regime s with
  | bull => if long_ok s then Some buy else None
  | bear => if short_ok s then Some sell else None
  end.

(** [return None] when the condition holds. *)
Definition reject_if (b : bool) : option unit := if b then None else Some tt.

(** Everything [signal] does before its last step: [None] wherever the
    source returns [None]. *)
Definition setup (cfg : Params) (df : DataFrame) : option Setup :=
  _ ← reject_if (len df <? 100)%Z;
  last ← iloc (rows df) (-1);
  close_ ← get df "close" (close last);
  _ ← get df "high" (high last);
  _ ← get df "low" (low last);
  volume_ ← get df "volume" (volume last);
  rsi ← get df "RSI" (RSI last);
  atr_ltf ← get df "ATR" (ATR last);
  _ ← reject_if (negb (forallb (fun c => bool_decide (c ∈ columns df))
         ["HTF_EMA20"; "HTF_EMA50"; "HTF_EMA200"; "HTF_ATR"; "HTF_ADX";
          "HTF_RSI"; "HTF_SMA_TREND"]));
  close_ ← close_;
  ema20_h ← HTF_EMA20 last;
  ema50_h ← HTF_EMA50 last;
  ema200_h ← HTF_EMA200 last;
  atr_h ← HTF_ATR last;
  adx_h ← HTF_ADX last;
  _ ← HTF_RSI last;
  _ ← HTF_SMA_TREND last;
  regime_ ← htf_regime ema20_h ema50_h ema200_h;
  _ ← reject_if ((close_ <=? 0) || (atr_h <=? 0));
  let atr_pct_h := atr_h / close_ in
  _ ← reject_if (atr_pct_h <? ANTI_CHOP_MIN_ATR_PCT cfg);
  _ ← reject_if (adx_h <? BREAKOUT_ADX_MIN cfg);
  let drift_h := drift_over df (HTF_DRIFT_LOOKBACK_BARS cfg) in
  _ ← reject_if ((HTF_VOLATILE_ATR_PCT cfg <? atr_pct_h)
                 && (drift_h <? HTF_VOLATILE_DRIFT_PCT cfg)
                 && (adx_h <? HTF_VOLATILE_ADX_MAX cfg));
  _ ← reject_if (MTF_DISABLE_VOLATILE_FLAT cfg
                 && (MTF_ATR_SUPER_HIGH_PCT cfg <? atr_pct_h));
  let drift := drift_over df (MTF_DRIFT_LOOKBACK_BARS cfg) in
  _ ← reject_if (drift <? drift_min_eff cfg adx_h atr_pct_h);
  let lookback := lookback_ltf cfg atr_pct_h drift in
  _ ← reject_if (len df <? lookback + 2)%Z;
  let recent := slice (rows df) (- lookback - 1) (-1) in
  let range_high := series_max (high <$> recent) in
  let range_low := series_min (low <$> recent) in
  let buf := BREAKOUT_BUFFER_PCT cfg in
  let long_trigger_ := fmul range_high (Some (1 + buf)) in
  let short_trigger_ := fmul range_low (Some (1 - buf)) in
  let vol_ma := series_mean (volume <$> recent) in
  _ ← reject_if (flt (Some 0) vol_ma
                 && flt volume_ (fmul vol_ma (Some (BREAKOUT_VOLUME_MULT cfg))));
  _ ← reject_if ((close_ <=? 0) || fle atr_ltf (Some 0));
  let atr_pct_ltf := fdiv atr_ltf close_ in
  _ ← reject_if (flt atr_pct_ltf (Some (LTF_ATR_MIN_PCT cfg)));
  _ ← reject_if
        match slope_abs cfg df with
        | Some slope =>
            flt (Some (LTF_MICRO_ATR_PCT cfg)) atr_pct_ltf
            && flt slope (Some (LTF_SLOPE_MIN_ABS cfg * LTF_VOLATILE_SLOPE_FACTOR cfg))
        | None => false
        end;
  let '(long_min, short_max) := rsi_bands cfg drift in
  Some {| regime := regime_; last_close := close_;
          long_trigger := long_trigger_; short_trigger := short_trigger_;
          rsi_ltf := rsi;
          rsi_long_min := long_min; rsi_long_max := MTF_RSI_LONG_MAX cfg;
          rsi_short_min := MTF_RSI_SHORT_MIN cfg; rsi_short_max := short_max |}.

(** [MTFBreakoutStrategy.signal] *)
Definition signal (cfg : Params) (df : DataFrame) : option Signal :=
  setup cfg df ≫= emit.


End MTFBreakoutStrategy.

(** ** position.py: [to_dict] and [from_dict] on Python values

    The dataclass does not enforce its annotations, and [from_dict] reads a
    dictionary that comes from a JSON file, so this part works on Python
    values as they are. *)

Module Persistence.

Inductive pyfloat := finite (q : Q) | pos_inf | neg_inf | nan.

Inductive pyval :=
| PyNone
| PyBool (b : bool)
| PyInt (z : Z)
| PyFloat (f : pyfloat)
| PyStr (s : string).

Inductive exn := KeyError | TypeError | ValueError | OverflowError.

Inductive result (A : Type) :=
| ok (a : A)
| raised (e : exn).
Arguments ok {A} a.
Arguments raised {A} e.

Definition bind {A B : Type} (m : result A) (k : A -> result B) : result B :=
  match m with
  | ok a => k a
  | raised e => raised e
  end.

Notation "'let*' x ':=' m 'in' k" := (bind m (fun x => k))
  (at level 10, x name, m at level 100, k at level 200).

(** A [PositionState] instance as Python holds it. *)
Record Object := {
  symbol : pyval;
  entry_price : pyval;
  qty : pyval;
  notional : pyval;
  side : pyval;
  mode : pyval;
  open_time : pyval;
  stop_loss : pyval;
  tp1 : pyval;
  tp2 : pyval;
  peak_price : pyval;
  trailing_stop : pyval;
  pyramid_level : pyval
}.

Definition of_float (x : Q) : pyval := PyFloat (finite x).

Definition of_optional (x : option Q) : pyval :=
  match x with
  | Some v => of_float v
  | None => PyNone
  end.

Section Builtins.

(** Python's parsers of float and int literals, for [float(s)] and [int(s)]
    on a string. *)
Variable parse_float : string -> option pyfloat.
Variable parse_int : string -> option Z.

(** [float(v)] *)
Definition py_float (v : pyval) : result pyfloat :=
  match v with
  | PyFloat f => ok f
  | PyInt z => ok (finite (inject_Z z))
  | PyBool b => ok (finite (if b then 1 else 0))
  | PyStr s =>
      match parse_float s with
      | Some f => ok f
      | None => raised ValueError
      end
  | PyNone => raised TypeError
  end.

(** [int(v)] *)
Definition py_int_of (v : pyval) : result Z :=
  match v with
  | PyInt z => ok z
  | PyBool b => ok (if b then 1 else 0)%Z
  | PyFloat (finite q) => ok (py_int q)
  | PyFloat nan => raised ValueError
  | PyFloat _ => raised OverflowError
  | PyStr s =>
      match parse_int s with
      | Some z => ok z
      | None => raised ValueError
      end
  | PyNone => raised TypeError
  end.

(** The product of two floats. *)
Definition float_mul (a b : pyfloat) : pyfloat :=
  let sign (f : pyfloat) : option bool :=
    match f with
    | finite q => if Qeq_bool q 0 then None else Some (0 <? q)
    | pos_inf => Some true
    | neg_inf => Some false
    | nan => None
    end in
  match a, b with
  | finite x, finite y => finite (x * y)
  | nan, _ | _, nan => nan
  | _, _ =>
      match sign a, sign b with
      | Some sa, Some sb => if Bool.eqb sa sb then pos_inf else neg_inf
      | _, _ => nan
      end
  end.

(** [d[key]] *)
Definition getitem (d : gmap string pyval) (key : string) : result pyval :=
  match d !! key with
  | Some v => ok v
  | None => raised KeyError
  end.

(** [d.get(key, dflt)] *)
Definition get (d : gmap string pyval) (key : string) (dflt : pyval) : pyval :=
  default dflt (d !! key).

(** [to_dict], that is [asdict(self)]. *)
Definition to_dict (p : Object) : gmap string pyval :=
  list_to_map
    [("symbol", symbol p); ("entry_price", entry_price p); ("qty", qty p);
     ("notional", notional p); ("side", side p); ("mode", mode p);
     ("open_time", open_time p); ("stop_loss", stop_loss p); ("tp1", tp1 p);
     ("tp2", tp2 p); ("peak_price", peak_price p);
     ("trailing_stop", trailing_stop p); ("pyramid_level", pyramid_level p)].

(** [from_dict]; [now] is the reading of [time.time()].  The defaults are
    computed before the lookups they guard, as Python evaluates arguments. *)
Definition from_dict (now : Q) (d : gmap string pyval) : result Object :=
  let* symbol_ := getitem d "symbol" in
  let* ep := getitem d "entry_price" in
  let* entry_price_ := py_float ep in
  let* q := getitem d "qty" in
  let* qty_ := py_float q in
  let* ep' := getitem d "entry_price" in
  let* e := py_float ep' in
  let* q' := getitem d "qty" in
  let* q'' := py_float q' in
  let* notional_ := py_float (get d "notional" (PyFloat (float_mul e q''))) in
  let* level := py_int_of (get d "pyramid_level" (PyInt 0)) in
  ok {| symbol := symbol_;
        entry_price := PyFloat entry_price_;
        qty := PyFloat qty_;
        notional := PyFloat notional_;
        side := get d "side" (PyStr "short");
        mode := get d "mode" (PyStr "futures");
        open_time := get d "open_time" (of_float now);
        stop_loss := get d "stop_loss" PyNone;
        tp1 := get d "tp1" PyNone;
        tp2 := get d "tp2" PyNone;
        peak_price := get d "peak_price" PyNone;
        trailing_stop := get d "trailing_stop" PyNone;
        pyramid_level := PyInt level |}.

End Builtins.

Definition is_finite_float (v : pyval) : Prop := exists q, v = PyFloat (finite q).
Definition is_float (v : pyval) : Prop := exists f, v = PyFloat f.
Definition is_int (v : pyval) : Prop := exists z, v = PyInt z.

End Persistence.

(** The instance of a ledger position. *)
Definition position_object (p : PositionState) : Persistence.Object := {|
  Persistence.symbol := Persistence.PyStr (symbol p);
  Persistence.entry_price := Persistence.of_float (entry_price p);
  Persistence.qty := Persistence.of_float (qty p);
  Persistence.notional := Persistence.of_float (notional p);
  Persistence.side := Persistence.PyStr (side p);
  Persistence.mode := Persistence.PyStr (mode p);
  Persistence.open_time := Persistence.of_optional (open_time p);
  Persistence.stop_loss := Persistence.of_optional (stop_loss p);
  Persistence.tp1 := Persistence.of_optional (tp1 p);
  Persistence.tp2 := Persistence.of_optional (tp2 p);
  Persistence.peak_price := Persistence.of_optional (peak_price p);
  Persistence.trailing_stop := Persistence.of_optional (trailing_stop p);
  Persistence.pyramid_level := Persistence.PyInt (pyramid_level p)
|}.

(** ** Notions the properties are stated with *)

(** The trailing level a tick proposes: price − ATR × multiplier for a long,
    price + ATR × multiplier otherwise. *)
Definition trail_candidate (cfg : Config) (pos : PositionState) (price atr : Q) : Q :=
  if is_long pos then price - ATR_TS_MULT cfg * atr
  else price + ATR_TS_MULT cfg * atr.

(** [pos'] holds the trailing stop of [pos] or a strictly more favourable
    candidate [cand] in its place; the side is the same. *)
Definition ratcheted (cand : Q) (pos pos' : PositionState) : Prop :=
  side pos' = side pos /\
  forall ts, trailing_stop pos = Some ts ->
    trailing_stop pos' = Some ts \/
    (trailing_stop pos' = Some cand /\ if is_long pos then ts < cand else cand < ts).

(** [r'] is [r] after at most a full close of the position in [sym]. *)
Definition closes (who sym : string) (r r' : LiveRunner.Runner) : Prop :=
  LiveRunner.trading_disabled r' = LiveRunner.trading_disabled r
  /\ LiveRunner.tp1_attempts who r' = LiveRunner.tp1_attempts who r
  /\ (LiveRunner.positions r' = LiveRunner.positions r \/ LiveRunner.positions r' = delete sym (LiveRunner.positions r)).

(** The state a tick hands to its branches: the runner after the update of
    the equity peak and the drawdown guard. *)
Definition guarded (cfg : Config) (c : LiveRunner.Candle) (r : LiveRunner.Runner)
    : LiveRunner.Runner :=
  let equity := if LiveRunner.broker r then default 0 (LiveRunner.balance_usdt c) else 0 in
  LiveRunner.drawdown_guard cfg equity
    (if 0 <? equity then LiveRunner.update_equity_peak equity r else r).


(** ** Sample configurations and states *)

(** [config.py] with the MTF cap on open positions lowered to 1. *)
Definition tight_config : Config := {|
  STRATEGY_NAME := "mtf_breakout";
  INITIAL_BALANCE_USDT := 5000;
  FUTURES_FEE_RATE := 4 # 10000;
  RISK_PER_TRADE := 1 # 100;
  FUTURES_LEVERAGE_DEFAULT := 5;
  MIN_NOTIONAL_USDT := 5;
  QTY_STEP := 1 # 10000;
  MAX_OPEN_POSITIONS := 3;
  MTF_MAX_OPEN_POSITIONS := 1;
  ATR_SL_MULT := 5;
  ATR_TP_MULT_1 := 10;
  ATR_TS_MULT := 5;
  MTF_MAX_BARS_IN_POSITION := 96;
  HARD_MAX_DRAWDOWN_PCT := 0;
  MAX_TRADES_PER_HOUR := 20;
  MIN_REOPEN_INTERVAL_SEC := 300;
  POSITION_MISMATCH_DISABLE := true
|}.

(** [config.py] with another strategy name. *)
Definition htf_config : Config := {|
  STRATEGY_NAME := "htf_breakout";
  INITIAL_BALANCE_USDT := 5000;
  FUTURES_FEE_RATE := 4 # 10000;
  RISK_PER_TRADE := 1 # 100;
  FUTURES_LEVERAGE_DEFAULT := 5;
  MIN_NOTIONAL_USDT := 5;
  QTY_STEP := 1 # 10000;
  MAX_OPEN_POSITIONS := 3;
  MTF_MAX_OPEN_POSITIONS := 3;
  ATR_SL_MULT := 5;
  ATR_TP_MULT_1 := 10;
  ATR_TS_MULT := 5;
  MTF_MAX_BARS_IN_POSITION := 96;
  HARD_MAX_DRAWDOWN_PCT := 0;
  MAX_TRADES_PER_HOUR := 20;
  MIN_REOPEN_INTERVAL_SEC := 300;
  POSITION_MISMATCH_DISABLE := true
|}.


(** A long of 1 unit from 100, with first target 120 and stop 90. *)
Definition sample_long : PositionState := {|
  symbol := "BTCUSDT"; entry_price := 100; qty := 1; notional := 100;
  side := "long"; mode := "futures"; open_time := Some 0;
  stop_loss := Some 90; tp1 := Some 120; tp2 := None;
  peak_price := Some 100; trailing_stop := None; pyramid_level := 0
|}.

(** The sample long after its first target: half closed, stop at the
    entry, trailing stop at 105. *)
Definition trailing_long : PositionState := {|
  symbol := "BTCUSDT"; entry_price := 100; qty := 1 # 2; notional := 50;
  side := "long"; mode := "futures"; open_time := Some 0;
  stop_loss := Some 100; tp1 := None; tp2 := None;
  peak_price := Some 100; trailing_stop := Some 105; pyramid_level := 0
|}.

(** The sample long right after its first target is taken at 125 with
    ATR 2: half closed, stop at the entry, trailing stop at 115. *)
Definition sample_long_after_tp1 : PositionState := {|
  symbol := "BTCUSDT"; entry_price := 100; qty := 1 - 1 * (1 # 2);
  notional := 100 * (1 - 1 * (1 # 2));
  side := "long"; mode := "futures"; open_time := Some 0;
  stop_loss := Some 100; tp1 := None; tp2 := None;
  peak_price := Some 100; trailing_stop := Some (125 - 5 * 2); pyramid_level := 0
|}.

(** A frame of 120 bars: 119 flat bars at 100, then a bar that closes at 102
    on doubled volume while the HTF EMAs stand at 105 > 103 > 100. *)
Definition flat_row : MTFBreakoutStrategy.Row := {|
  MTFBreakoutStrategy.close := Some 100; MTFBreakoutStrategy.high := Some 100;
  MTFBreakoutStrategy.low := Some 99; MTFBreakoutStrategy.volume := Some 10;
  MTFBreakoutStrategy.RSI := Some 50; MTFBreakoutStrategy.ATR := Some 1;
  MTFBreakoutStrategy.HTF_EMA20 := Some 100; MTFBreakoutStrategy.HTF_EMA50 := Some 100;
  MTFBreakoutStrategy.HTF_EMA200 := Some 100; MTFBreakoutStrategy.HTF_ATR := Some 1;
  MTFBreakoutStrategy.HTF_ADX := Some 30; MTFBreakoutStrategy.HTF_RSI := Some 50;
  MTFBreakoutStrategy.HTF_SMA_TREND := Some 100
|}.

Definition breakout_row : MTFBreakoutStrategy.Row := {|
  MTFBreakoutStrategy.close := Some 102; MTFBreakoutStrategy.high := Some 102;
  MTFBreakoutStrategy.low := Some 101; MTFBreakoutStrategy.volume := Some 20;
  MTFBreakoutStrategy.RSI := Some 60; MTFBreakoutStrategy.ATR := Some 1;
  MTFBreakoutStrategy.HTF_EMA20 := Some 105; MTFBreakoutStrategy.HTF_EMA50 := Some 103;
  MTFBreakoutStrategy.HTF_EMA200 := Some 100; MTFBreakoutStrategy.HTF_ATR := Some 1;
  MTFBreakoutStrategy.HTF_ADX := Some 30; MTFBreakoutStrategy.HTF_RSI := Some 60;
  MTFBreakoutStrategy.HTF_SMA_TREND := Some 100
|}.

Definition breakout_frame : MTFBreakoutStrategy.DataFrame := {|
  MTFBreakoutStrategy.columns :=
    ["open"; "high"; "low"; "close"; "volume"; "RSI"; "ATR"; "ADX";
     "HTF_SMA_TREND"; "HTF_EMA20"; "HTF_EMA50"; "HTF_EMA200"; "HTF_ATR";
     "HTF_ADX"; "HTF_RSI"];
  MTFBreakoutStrategy.rows := replicate 119 flat_row ++ [breakout_row]
|}.

(** A bar at 100 with ATR 2 and a buy signal. *)
Definition buy_bar : Bar := {| bar_price := 100; bar_atr := 2; bar_signal := Some buy |}.

(** A quiet bar at [p] with ATR 2 and no signal. *)
Definition quiet_bar (p : Q) : Bar := {| bar_price := p; bar_atr := 2; bar_signal := None |}.

Definition flat_ledger : Backtester.Ledger := {|
  Backtester.balance := 5000;
  Backtester.ledger_positions := ∅;
  Backtester.equity_curve := []
|}.

(** The started runner holding the sample long, with the outcomes [fills] of
    the coming orders. *)
Definition holding_sample (fills : list bool) : LiveRunner.Runner :=
  LiveRunner.set_exchange fills
    (LiveRunner._update_position_state "BTCUSDT" (Some sample_long) LiveRunner.started).

(** A candle at [p] with ATR 2, no signal, at frame index [i], with the
    broker reporting [bal]. *)
Definition quiet_candle (p : Q) (i : Z) (bal : option Q) : LiveRunner.Candle := {|
  LiveRunner.price := p; LiveRunner.atr := 2; LiveRunner.signal := None;
  LiveRunner.bar_index := i; LiveRunner.balance_usdt := bal;
  LiveRunner.now_ts := 1000; LiveRunner.open_ts := 1000
|}.

(** * More of the code *)

(** ** backtest/backtester_full.py: the figures [run] reports *)

Module BacktestReport.

Inductive error := IndexError | ZeroDivisionError.

Inductive outcome (A : Type) :=
| returns (a : A)
| raises (e : error).
Arguments returns {A} a.
Arguments raises {A} e.

(** The loop of [_max_drawdown] over the points that are left, from the
    running [peak] and [max_dd]; the division is the one of Python floats,
    which raises on a zero divisor. *)
Fixpoint _max_drawdown_loop (peak max_dd : Q) (equity : list Q) : outcome Q :=
  match equity with
  | [] => returns max_dd
  | x :: rest =>
      let peak := if peak <? x then x else peak in
      if Qeq_bool peak 0 then raises ZeroDivisionError
      else
        let dd := (peak - x) / peak * 100 in
        let max_dd := if max_dd <? dd then dd else max_dd in
        _max_drawdown_loop peak max_dd rest
  end.

(** [_max_drawdown(equity)]; [equity[0]] raises on an empty array. *)
Definition _max_drawdown (equity : list Q) : outcome Q :=
  match equity with
  | [] => raises IndexError
  | x :: _ => _max_drawdown_loop x 0 equity
  end.

(** The dictionary [run] returns; it has no equity curve when there is no
    data. *)
Record Result := {
  total_pnl : Q;
  roi : Q;
  max_drawdown : Q;
  equity_curve : option (list Q)
}.

(** [run], from the prepared data on: [symbols] are the sorted keys of the
    data, [frames] holds for every index of [range(warmup, max_len)] the bars
    of the symbols whose frame reaches it, and [last_prices] the last close
    of every symbol. *)
Definition run (cfg : Config) (symbols : list string) (warmup : Z)
    (frames : list (gmap string Bar)) (last_prices : gmap string Q) : outcome Result :=
  match symbols with
  | [] => returns {| total_pnl := 0; roi := 0; max_drawdown := 0; equity_curve := None |}
  | _ =>
      let initial_balance := INITIAL_BALANCE_USDT cfg in
      let st :=
        Backtester.run_bars cfg symbols warmup frames
          {| Backtester.balance := initial_balance;
             Backtester.ledger_positions := ∅;
             Backtester.equity_curve := [] |} in
      let balance := Backtester.close_all cfg symbols last_prices st in
      let total_pnl := balance - initial_balance in
      let roi :=
        if 0 <? initial_balance then total_pnl / initial_balance * 100 else 0 in
      let equity_arr := Backtester.equity_curve st in
      match (if (1 <? length equity_arr)%nat then _max_drawdown equity_arr
             else returns 0) with
      | returns max_dd =>
          returns {| total_pnl := total_pnl; roi := roi; max_drawdown := max_dd;
                     equity_curve := Some equity_arr |}
      | raises e => raises e
      end
  end.

End BacktestReport.

(** The fall from a peak [a] to a later value [x], in percent of the peak. *)
Definition decline (a x : Q) : Q := (a - x) / a * 100.

(** [p'] is the position [p] as far as its identity goes: symbol, side,
    entry price and opening time are the same. *)
Definition same_identity (p p' : PositionState) : Prop :=
  symbol p' = symbol p /\ side p' = side p /\ entry_price p' = entry_price p
  /\ mode p' = mode p /\ open_time p' = open_time p.

(** ** broker_futures.py *)

(** [str.upper()], on ASCII letters. *)
Definition upper_ascii (c : ascii) : ascii :=
  let n := nat_of_ascii c in
  if (97 <=? n)%nat && (n <=? 122)%nat then ascii_of_nat (n - 32) else c.

Fixpoint upper (s : string) : string :=
  match s with
  | EmptyString => EmptyString
  | String c s' => String (upper_ascii c) (upper s')
  end.

Module LiveFuturesBroker.

(** An entry of [_symbols_info], as [init] fills it from the LOT_SIZE and
    MIN_NOTIONAL filters. *)
Record SymbolInfo := {
  min_qty : Q;
  step_size : Q;
  min_notional : Q
}.

(** [_adjust_qty]: the quantity cut to the exchange step with [int], the
    quantity itself for an unknown symbol or a step that is not positive. *)
Definition _adjust_qty (_symbols_info : gmap string SymbolInfo) (symbol : string)
    (qty : Q) : Q :=
  match _symbols_info !! symbol with
  | None => qty
  | Some info =>
      let step := step_size info in
      if step <=? 0 then qty
      else
        let steps := py_int (qty / step) in
        inject_Z steps * step
  end.

(** The keyword arguments of [futures_create_order]; a key that is left
    out of the dictionary is [None]. *)
Record Params := {
  symbol : string;
  side : string;
  type : string;
  quantity : Q;
  reduceOnly : option bool;
  positionSide : option string
}.

(** [create_market_order], up to the hand-over of the request to [_call]:
    the request, or the [ValueError] raised before anything is sent. *)
Definition create_market_order (_symbols_info : gmap string SymbolInfo)
    (symbol side : string) (qty : Q) (reduce_only : bool)
    (position_side : option string) : Persistence.result Params :=
  if qty <=? 0 then Persistence.raised Persistence.ValueError
  else
    let adj_qty := _adjust_qty _symbols_info symbol qty in
    if adj_qty <=? 0 then Persistence.raised Persistence.ValueError
    else
      Persistence.ok
        {| symbol := symbol;
           side := upper side;
           type := "MARKET";
           quantity := adj_qty;
           reduceOnly := if reduce_only then Some true else None;
           positionSide :=
             match position_side with
             | Some s => if String.eqb s "" then None else Some (upper s)
             | None => None
             end |}.

Section Call.

Context {A : Type}.

Variable max_retries : Z.
Variables base_delay max_delay : Q.

(** The wrapped call: [func k] is what its [k]-th invocation does, [Some]
    for a returned value and [None] for a raised exception; [random k] is
    the draw of [random.random()] after the [k]-th failure. *)
Variable func : Z -> option A.
Variable random : Z -> Q.

(** How [_call] ends: with the value returned or the last exception
    re-raised ([None]), after [attempt] invocations and the recorded
    sleeps. *)
Record Called := {
  result : option A;
  attempt : Z;
  slept : list Q
}.

(** The [while True] loop of [_call], run for at most [fuel] rounds. *)
Fixpoint _call_loop (fuel : nat) (attempt : Z) (slept : list Q) : option Called :=
  match fuel with
  | O => None
  | S fuel =>
      let attempt := (attempt + 1)%Z in
      match func attempt with
      | Some res => Some {| result := Some res; attempt := attempt; slept := slept |}
      | None =>
          if (max_retries <=? attempt)%Z then
            Some {| result := None; attempt := attempt; slept := slept |}
          else
            let delay := Qmin (base_delay * inject_Z (2 ^ (attempt - 1))) max_delay in
            let jitter := delay * (2 # 10) * random attempt in
            let sleep_for := delay + jitter in
            _call_loop fuel attempt (slept ++ [sleep_for])
      end
  end.

Definition _call (fuel : nat) : option Called := _call_loop fuel 0 [].

End Call.

End LiveFuturesBroker.

(** ** Notions for the live runner *)

(** The alerts of the two guards that disable trading: [notify_error] of
    kind risk_guard (the drawdown guard) or position_mismatch (the position
    check of the heartbeat).  The WebSocket watchdog of the heartbeat sends a
    third kind, which is not one of them. *)
Definition is_guard_alert (n : LiveRunner.Notice) : bool :=
  match n with
  | LiveRunner.notify_error kind =>
      String.eqb kind "risk_guard" || String.eqb kind "position_mismatch"
  | _ => false
  end.

Definition guard_alerts (r : LiveRunner.Runner) : nat :=
  length (List.filter is_guard_alert (LiveRunner.notices r)).

(** What the management of a position leaves alone: the broker, the flag,
    the bookkeeping of the entries, the equity peak and the guard alerts. *)
Definition untouched (r r' : LiveRunner.Runner) : Prop :=
  LiveRunner.broker r' = LiveRunner.broker r
  /\ LiveRunner.trading_disabled r' = LiveRunner.trading_disabled r
  /\ LiveRunner.trade_timestamps r' = LiveRunner.trade_timestamps r
  /\ LiveRunner.last_open_time r' = LiveRunner.last_open_time r
  /\ LiveRunner.equity_peak r' = LiveRunner.equity_peak r
  /\ guard_alerts r' = guard_alerts r.

(** The cache and the state file hold positions for the same symbols. *)
Definition synced (r : LiveRunner.Runner) : Prop :=
  dom (LiveRunner.positions r) = dom (LiveRunner.state_positions r).

(** A reduce-only order that closes (part of) [pos]. *)
Definition closing_order (sym : string) (pos : PositionState) (o : LiveRunner.Order)
    : Prop :=
  LiveRunner.order_symbol o = sym /\ LiveRunner.reduce_only o = true
  /\ LiveRunner.order_side o = (if is_long pos then "SELL" else "BUY")
  /\ 0 < LiveRunner.order_qty o.

Definition total_qty (l : list LiveRunner.Order) : Q :=
  foldr (fun o acc => LiveRunner.order_qty o + acc) 0 l.

(** ** state_manager.py: the positions block of the state *)

Module StateManager.

Section Positions.

Variable parse_float : string -> option Persistence.pyfloat.
Variable parse_int : string -> option Z.

(** The reading of [time.time()] when the entry of a symbol is converted. *)
Variable now : string -> Q.

(** [get_positions]: an entry on which [from_dict] raises is logged and left
    out. *)
Definition get_positions (positions : gmap string (gmap string Persistence.pyval))
    : gmap string Persistence.Object :=
  map_imap (fun sym p =>
              match Persistence.from_dict parse_float parse_int (now sym) p with
              | Persistence.ok pos => Some pos
              | Persistence.raised _ => None
              end) positions.

Definition set_position (symbol : string) (pos : Persistence.Object)
    (positions : gmap string (gmap string Persistence.pyval))
    : gmap string (gmap string Persistence.pyval) :=
  <[symbol := Persistence.to_dict pos]> positions.

Definition del_position (symbol : string)
    (positions : gmap string (gmap string Persistence.pyval))
    : gmap string (gmap string Persistence.pyval) :=
  delete symbol positions.

End Positions.

End StateManager.

(** The keys of a position dictionary that [from_dict] can do without. *)
Definition optional_keys : list string :=
  ["notional"; "side"; "mode"; "open_time"; "stop_loss"; "tp1"; "tp2";
   "peak_price"; "trailing_stop"; "pyramid_level"].

(** The pause of [_call] before the retry that follows the failure number
    [k + 1], without its jitter: min(base_delay · 2^k, max_delay). *)
Definition backoff (base_delay max_delay : Q) (k : nat) : Q :=
  Qmin (base_delay * inject_Z (2 ^ Z.of_nat k)) max_delay.

(** The guard alerts sent, plus one while the flag is still clear. *)
Definition alert_balance (r : LiveRunner.Runner) : nat :=
  (guard_alerts r + if LiveRunner.trading_disabled r then 0 else 1)%nat.

(** The entries recorded less than an hour before [now]. *)
Definition within_hour (now : Q) (stamps : list Q) : list Q :=
  filter (fun t => Is_true (now - t <? 3600)) stamps.

(** The columns [signal] reads from the last row. *)
Definition needed_columns : list string :=
  ["close"; "high"; "low"; "volume"; "RSI"; "ATR"; "HTF_EMA20"; "HTF_EMA50";
   "HTF_EMA200"; "HTF_ATR"; "HTF_ADX"; "HTF_RSI"; "HTF_SMA_TREND"].

(** ** More sample data *)

(** [config.py] with an empty starting balance. *)
Definition empty_balance_config : Config := {|
  STRATEGY_NAME := "mtf_breakout";
  INITIAL_BALANCE_USDT := 0;
  FUTURES_FEE_RATE := 4 # 10000;
  RISK_PER_TRADE := 1 # 100;
  FUTURES_LEVERAGE_DEFAULT := 5;
  MIN_NOTIONAL_USDT := 5;
  QTY_STEP := 1 # 10000;
  MAX_OPEN_POSITIONS := 3;
  MTF_MAX_OPEN_POSITIONS := 3;
  ATR_SL_MULT := 5;
  ATR_TP_MULT_1 := 10;
  ATR_TS_MULT := 5;
  MTF_MAX_BARS_IN_POSITION := 96;
  HARD_MAX_DRAWDOWN_PCT := 0;
  MAX_TRADES_PER_HOUR := 20;
  MIN_REOPEN_INTERVAL_SEC := 300;
  POSITION_MISMATCH_DISABLE := true
|}.

(** A ledger that holds the sample long. *)
Definition holding_ledger : Backtester.Ledger := {|
  Backtester.balance := 5000;
  Backtester.ledger_positions := {["BTCUSDT" := sample_long]};
  Backtester.equity_curve := []
|}.

(** A candle at 100 with ATR 2 and a buy signal, the broker reporting 5000. *)
Definition buy_candle : LiveRunner.Candle := {|
  LiveRunner.price := 100; LiveRunner.atr := 2; LiveRunner.signal := Some buy;
  LiveRunner.bar_index := 200; LiveRunner.balance_usdt := Some 5000;
  LiveRunner.now_ts := 1000; LiveRunner.open_ts := 1000
|}.

(** The exchange filters of one symbol, with a step of 0.001. *)
Definition sample_symbols_info : gmap string LiveFuturesBroker.SymbolInfo :=
  {["BTCUSDT" := {| LiveFuturesBroker.min_qty := 1 # 1000;
                    LiveFuturesBroker.step_size := 1 # 1000;
                    LiveFuturesBroker.min_notional := 5 |}]}.

(** A call that raises twice and then returns. *)
Definition flaky (k : Z) : option unit := if (k <? 3)%Z then None else Some tt.

(** A position dict as an old state file has it, and what it loads as at
    time [now]. *)
Definition legacy_dict : gmap string Persistence.pyval :=
  {[ "symbol" := Persistence.PyStr "BTCUSDT";
     "entry_price" := Persistence.PyInt 100;
     "qty" := Persistence.PyInt 2 ]}.

Definition legacy_position (now : Q) : Persistence.Object := {|
  Persistence.symbol := Persistence.PyStr "BTCUSDT";
  Persistence.entry_price := Persistence.of_float 100;
  Persistence.qty := Persistence.of_float 2;
  Persistence.notional := Persistence.of_float 200;
  Persistence.side := Persistence.PyStr "short";
  Persistence.mode := Persistence.PyStr "futures";
  Persistence.open_time := Persistence.of_float now;
  Persistence.stop_loss := Persistence.PyNone;
  Persistence.tp1 := Persistence.PyNone;
  Persistence.tp2 := Persistence.PyNone;
  Persistence.peak_price := Persistence.PyNone;
  Persistence.trailing_stop := Persistence.PyNone;
  Persistence.pyramid_level := Persistence.PyInt 0
|}.

(** * Properties *)

Section Comparisons.

Lemma Qleb_le (a b : Q) : (a <=? b) = true <-> a <= b.
Proof. apply Qle_bool_iff. Qed.

Lemma Qleb_gt (a b : Q) : (a <=? b) = false <-> b < a.
Proof.
  unfold Qleb. split; intros H.
  - apply Qnot_le_lt. intros Hle. apply Qle_bool_iff in Hle. congruence.
  - apply not_true_is_false. intros Hle. apply Qle_bool_iff in Hle. lra.
Qed.

Lemma Qltb_lt (a b : Q) : (a <? b) = true <-> a < b.
Proof.
  unfold Qltb. rewrite negb_true_iff. apply Qleb_gt.
Qed.

Lemma Qltb_ge (a b : Q) : (a <? b) = false <-> b <= a.
Proof.
  unfold Qltb. rewrite negb_false_iff. apply Qleb_le.
Qed.

End Comparisons.

Section Sizing.



End Sizing.

Section SizingFromRisk.

Variable cfg : Config.
Variables equity price stop_distance_pct risk_per_trade : Q.
Variable leverage : Z.
Hypothesis equity_pos : 0 < equity.
Hypothesis price_pos : 0 < price.
Hypothesis stop_pos : 0 < stop_distance_pct.
Hypothesis risk_pos : 0 < risk_per_trade.
Hypothesis leverage_pos : (0 < leverage)%Z.


End SizingFromRisk.




Section Accounting.

Variable cfg : Config.
Variable pos : PositionState.
Variable price_ : Q.
Hypothesis qty_pos : 0 < qty pos.

Lemma backtest_close_position_pnl (balance : Q) :
  Backtester._close_position cfg balance pos price_ - balance
  == net_pnl (side pos) (entry_price pos) price_ (qty pos) (FUTURES_FEE_RATE cfg).
Proof.
  unfold Backtester._close_position, net_pnl, is_long.
  rewrite (proj2 (Qleb_gt _ _) qty_pos).
  destruct (String.eqb (side pos) "long"); ring.
Qed.

Lemma backtest_close_fraction_pnl (balance fraction : Q) :
  0 < fraction -> fraction < 1 ->
  let r := Backtester._close_fraction cfg balance pos price_ fraction in
  r.1 - balance
  == net_pnl (side pos) (entry_price pos) price_ (qty pos * fraction) (FUTURES_FEE_RATE cfg)
  /\ qty r.2 == qty pos - qty pos * fraction
  /\ notional r.2 == entry_price pos * qty r.2.
Proof.
  intros Hf0 Hf1. unfold Backtester._close_fraction, net_pnl, is_long.
  rewrite (proj2 (Qleb_gt _ _) Hf0), (proj2 (Qleb_gt _ _) Hf1),
    (proj2 (Qleb_gt _ _) qty_pos).
  assert (Hq : 0 < qty pos * fraction) by nra.
  rewrite (proj2 (Qleb_gt _ _) Hq).
  assert (Hrem : 0 <= qty pos - qty pos * fraction) by nra.
  rewrite (proj2 (Qltb_ge _ _) Hrem).
  cbn [fst snd qty notional set_notional set_qty entry_price orb].
  repeat split; try reflexivity.
  destruct (String.eqb (side pos) "long"); ring.
Qed.

Lemma live_close_position_pnl (sym reason : string) (r : LiveRunner.Runner) :
  LiveRunner.broker r = true ->
  head (LiveRunner.exchange r) <> Some false ->
  let r' := LiveRunner._close_position_live sym pos price_ reason r in
  LiveRunner.realized_pnl r' - LiveRunner.realized_pnl r
  == net_pnl (side pos) (entry_price pos) price_ (qty pos) 0
  /\ LiveRunner.positions r' !! sym = None.
Proof.
  intros Hb Hx. unfold LiveRunner._close_position_live, net_pnl, is_long.
  rewrite Hb, (proj2 (Qleb_gt _ _) qty_pos). cbn [negb].
  unfold LiveRunner.create_market_order.
  destruct (LiveRunner.exchange r) as [|[] rest] eqn:Hex; cbn in Hx; try congruence;
    cbn; (split; [destruct (String.eqb (side pos) "long"); ring
                 | apply lookup_delete_eq]).
Qed.

End Accounting.

(** C3, as amended.  In the backtest ledger every close of a quantity q, full
    ([_close_position], q the whole quantity) or partial ([_close_fraction],
    q = quantity × fraction), changes the balance by exactly
    (X−E)·q·sign(side) − (E·q + X·q)·f, and a partial close leaves
    quantity − q with notional entry × remaining quantity.  The live runner
    has no fee model: a filled full close adds the gross (X−E)·q·sign(side)
    to the accumulated realized PnL and drops the position. *)
Theorem close_accounting (cfg : Config) (pos : PositionState)
    (price_ balance fraction : Q) (sym reason : string) (r : LiveRunner.Runner) :
  0 < qty pos -> 0 < fraction -> fraction < 1 ->
  LiveRunner.broker r = true -> head (LiveRunner.exchange r) <> Some false ->
  let f := FUTURES_FEE_RATE cfg in
  let E := entry_price pos in
  Backtester._close_position cfg balance pos price_ - balance
    == net_pnl (side pos) E price_ (qty pos) f
  /\ (let b := Backtester._close_fraction cfg balance pos price_ fraction in
      b.1 - balance == net_pnl (side pos) E price_ (qty pos * fraction) f
      /\ qty b.2 == qty pos - qty pos * fraction
      /\ notional b.2 == E * qty b.2)
  /\ (let r' := LiveRunner._close_position_live sym pos price_ reason r in
      LiveRunner.realized_pnl r' - LiveRunner.realized_pnl r
        == net_pnl (side pos) E price_ (qty pos) 0
      /\ LiveRunner.positions r' !! sym = None).
Proof.
  intros Hq Hf0 Hf1 Hb Hx f E. split; [|split].
  - apply backtest_close_position_pnl; assumption.
  - apply backtest_close_fraction_pnl; assumption.
  - apply live_close_position_pnl; assumption.
Qed.

Lemma close_accounting_witness :
  let f := FUTURES_FEE_RATE default_config in
  Backtester._close_position default_config 5000 sample_long 110 - 5000
    == net_pnl "long" 100 110 1 f
  /\ (let b := Backtester._close_fraction default_config 5000 sample_long 110 (1 # 2) in
      b.1 - 5000 == net_pnl "long" 100 110 (1 * (1 # 2)) f
      /\ qty b.2 == 1 - 1 * (1 # 2)
      /\ notional b.2 == 100 * qty b.2)
  /\ (let r' := LiveRunner._close_position_live "BTCUSDT" sample_long 110 "stop_loss"
                  LiveRunner.started in
      LiveRunner.realized_pnl r' - LiveRunner.realized_pnl LiveRunner.started
        == net_pnl "long" 100 110 1 0
      /\ LiveRunner.positions r' !! "BTCUSDT" = None).
Proof.
  apply (close_accounting default_config sample_long 110 5000 (1 # 2)
           "BTCUSDT" "stop_loss" LiveRunner.started);
    first [reflexivity | discriminate].
Defined.

(** C3 as stated fails for the live runner: closing the sample long at 110
    books 10, the gross profit, where the fee model asks for
    10 − (100 + 110) × 0.0004. *)
Lemma live_close_books_gross_pnl :
  let r' := LiveRunner._close_position_live "BTCUSDT" sample_long 110 "trailing_stop"
              LiveRunner.started in
  LiveRunner.realized_pnl r' - LiveRunner.realized_pnl LiveRunner.started == 10
  /\ ~ (LiveRunner.realized_pnl r' - LiveRunner.realized_pnl LiveRunner.started
        == net_pnl (side sample_long) (entry_price sample_long) 110 (qty sample_long)
             (FUTURES_FEE_RATE default_config)).
Proof.
  vm_compute. split; [reflexivity | discriminate].
Qed.

(** C1, evaluated where it fails.  With MAX_OPEN_POSITIONS = 3 and
    MTF_MAX_OPEN_POSITIONS = 1 under the MTF strategy the effective cap is 1;
    on a bar where two flat symbols both signal a buy the entry loop opens
    both, because after the first opening [can_open_more] is recomputed
    against the global cap: two positions are open under a cap of one. *)
Theorem backtest_entry_loop_exceeds_cap :
  let st := Backtester.run_bar tight_config ["BTCUSDT"; "ETHUSDT"] 200
              (<["BTCUSDT" := buy_bar]> (<["ETHUSDT" := buy_bar]> ∅)) flat_ledger in
  Backtester.eff_max_positions tight_config = 1%Z
  /\ size (Backtester.ledger_positions flat_ledger) = 0%nat
  /\ size (Backtester.ledger_positions st) = 2%nat.
Proof. vm_compute. repeat split. Qed.

(** C4, evaluated where it fails.  The sample long reaches its first target
    at 125 and the broker refuses the partial close.  The quantity stays, but
    the stop is moved to the entry, the trailing stop is set, [tp1] is
    cleared, and the notifier receives nothing: the partial exit is never
    tried again. *)
Theorem live_failed_partial_close_alters_position :
  let r := holding_sample [false] in
  let r' := LiveRunner._run_strategy_if_ready default_config "BTCUSDT"
              (quiet_candle 125 10 (Some 5000)) r in
  LiveRunner.positions r !! "BTCUSDT" = Some sample_long
  /\ LiveRunner.orders r' = []
  /\ LiveRunner.notices r' = []
  /\ LiveRunner.log r' = [LiveRunner.log_close_fraction_failed "BTCUSDT" "tp1"]
  /\ exists pos', LiveRunner.positions r' !! "BTCUSDT" = Some pos'
       /\ qty pos' = qty sample_long
       /\ stop_loss pos' = Some (entry_price sample_long)
       /\ trailing_stop pos' = Some (125 - 5 * 2)
       /\ tp1 pos' = None.
Proof. vm_compute. repeat split. eexists. repeat split. Qed.

(** C8, evaluated where it fails.  Under a strategy name that is not the MTF
    one the backtester keeps a position that is 96 bars old, while the live
    runner closes it with reason ["time_stop"]: its time stop does not look
    at the strategy name. *)
Theorem live_time_stop_ignores_strategy :
  is_mtf_strategy htf_config = false
  /\ Backtester.manage_position htf_config 96 (quiet_bar 105) 5000 sample_long
     = (5000, Some sample_long, [])
  /\ let r' := LiveRunner._run_strategy_if_ready htf_config "BTCUSDT"
                 (quiet_candle 105 96 (Some 5000)) (holding_sample []) in
     LiveRunner.positions r' !! "BTCUSDT" = None
     /\ LiveRunner.log r' = [LiveRunner.log_close "BTCUSDT" "long" 1 105 "time_stop"].
Proof. vm_compute. repeat split. Qed.

(** ** The trailing stop only ratchets *)

Ltac pos_simpl :=
  cbn [symbol entry_price qty notional side mode open_time stop_loss tp1 tp2
       peak_price trailing_stop pyramid_level
       set_qty set_notional set_stop_loss set_tp1 set_trailing_stop] in *.

Section Ratchet.

Variable cfg : Config.

Lemma ratcheted_refl (cand : Q) (pos : PositionState) : ratcheted cand pos pos.
Proof. split; [reflexivity | intros ts H; by left]. Qed.

Lemma ratcheted_trans (cand : Q) (p1 p2 p3 : PositionState) :
  ratcheted cand p1 p2 -> ratcheted cand p2 p3 -> ratcheted cand p1 p3.
Proof.
  intros [Hs1 H1] [Hs2 H2]. split; [congruence|].
  intros ts Hts. destruct (H1 ts Hts) as [H | [H Hlt]].
  - destruct (H2 ts H) as [H' | [H' Hlt']]; [by left | right].
    split; [assumption|]. unfold is_long in *. rewrite <- Hs1. exact Hlt'.
  - destruct (H2 cand H) as [H' | [H' Hlt']]; right; split; assumption.
Qed.

Lemma is_long_same_side (p p' : PositionState) :
  side p' = side p -> is_long p' = is_long p.
Proof. unfold is_long. by intros ->. Qed.

Lemma is_short_not_long (p : PositionState) : is_short p = true -> is_long p = false.
Proof.
  unfold is_short, is_long. intros H. apply String.eqb_eq in H. by rewrite H.
Qed.

Lemma is_long_not_short (p : PositionState) : is_long p = true -> is_short p = false.
Proof.
  unfold is_short, is_long. intros H. apply String.eqb_eq in H. by rewrite H.
Qed.

(** The shrinking of a partial close touches quantity and notional only. *)
Lemma backtest_close_fraction_keeps (balance price fraction : Q) (pos : PositionState) :
  let r := Backtester._close_fraction cfg balance pos price fraction in
  side r.2 = side pos /\ trailing_stop r.2 = trailing_stop pos
  /\ tp1 r.2 = tp1 pos /\ stop_loss r.2 = stop_loss pos
  /\ entry_price r.2 = entry_price pos.
Proof.
  unfold Backtester._close_fraction.
  repeat match goal with |- context [if ?b then _ else _] => destruct b end;
    cbn [fst snd]; pos_simpl; repeat split; reflexivity.
Qed.

Lemma backtest_tp1_block_ratchets (balance price atr : Q) (pos : PositionState) :
  let r := Backtester.tp1_block cfg balance pos price atr in
  ratcheted (trail_candidate cfg pos price atr) pos r.1.2.
Proof.
  unfold Backtester.tp1_block, trail_candidate.
  destruct (tp1 pos) as [t|]; [|apply ratcheted_refl].
  destruct (is_long pos) eqn:Hl; cbn [andb].
  - rewrite (is_long_not_short _ Hl). cbn [andb].
    destruct (t <=? price); [|apply ratcheted_refl].
    + destruct (backtest_close_fraction_keeps balance price (1 # 2) pos)
        as (Hs & Hts & _).
      destruct (Backtester._close_fraction cfg balance pos price (1 # 2)) as [b p1].
      cbn [fst snd] in *. pos_simpl. rewrite Hts.
      split.
      * destruct (trailing_stop pos) as [ts|];
          [destruct (ts <? price - ATR_TS_MULT cfg * atr)|]; pos_simpl; exact Hs.
      * intros ts Heq. rewrite Heq, Hl.
        destruct (ts <? price - ATR_TS_MULT cfg * atr) eqn:Hlt; pos_simpl.
        -- right. split; [reflexivity | by apply Qltb_lt].
        -- left. congruence.
  - destruct (is_short pos && (price <=? t)) eqn:Hsh; [|apply ratcheted_refl].
    destruct (backtest_close_fraction_keeps balance price (1 # 2) pos)
      as (Hs & Hts & _).
    destruct (Backtester._close_fraction cfg balance pos price (1 # 2)) as [b p1].
    cbn [fst snd] in *. pos_simpl. rewrite Hts.
    split.
    + destruct (trailing_stop pos) as [ts|];
        [destruct (price + ATR_TS_MULT cfg * atr <? ts)|]; pos_simpl; exact Hs.
    + intros ts Heq. rewrite Heq, Hl.
      destruct (price + ATR_TS_MULT cfg * atr <? ts) eqn:Hlt; pos_simpl.
      * right. split; [reflexivity | by apply Qltb_lt].
      * left. congruence.
Qed.

Lemma backtest_trailing_block_ratchets (price atr : Q) (pos : PositionState) :
  let r := Backtester.trailing_block cfg pos price atr in
  ratcheted (trail_candidate cfg pos price atr) pos r.1.
Proof.
  unfold Backtester.trailing_block, trail_candidate.
  destruct (trailing_stop pos) as [ts|] eqn:Hts; [|apply ratcheted_refl].
  destruct (is_long pos) eqn:Hl.
  - destruct (ts <? price - ATR_TS_MULT cfg * atr) eqn:Hlt; cbn [fst];
      [|apply ratcheted_refl].
    split; [reflexivity|]. intros ts0 H0. rewrite Hl. pos_simpl. right.
    split; [reflexivity|]. apply Qltb_lt. congruence.
  - destruct (price + ATR_TS_MULT cfg * atr <? ts) eqn:Hlt; cbn [fst];
      [|apply ratcheted_refl].
    split; [reflexivity|]. intros ts0 H0. rewrite Hl. pos_simpl. right.
    split; [reflexivity|]. apply Qltb_lt. congruence.
Qed.

Lemma trail_candidate_same_side (p p' : PositionState) (price atr : Q) :
  side p' = side p -> trail_candidate cfg p' price atr = trail_candidate cfg p price atr.
Proof. intros H. unfold trail_candidate. by rewrite (is_long_same_side _ _ H). Qed.

Lemma backtest_manage_position_ratchets (i : Z) (b : Bar) (balance : Q)
    (pos : PositionState) (balance' : Q) (pos' : PositionState)
    (ev : list Backtester.Exit) :
  Backtester.manage_position cfg i b balance pos = (balance', Some pos', ev) ->
  ratcheted (trail_candidate cfg pos (bar_price b) (bar_atr b)) pos pos'.
Proof.
  unfold Backtester.manage_position. intros H.
  destruct (Backtester.stop_loss_hit pos (bar_price b)); [discriminate|].
  assert (H1 := backtest_tp1_block_ratchets balance (bar_price b) (bar_atr b) pos).
  destruct (Backtester.tp1_block cfg balance pos (bar_price b) (bar_atr b))
    as [[b1 p1] fired].
  cbn [fst snd] in H1.
  assert (H2 := backtest_trailing_block_ratchets (bar_price b) (bar_atr b) p1).
  destruct (Backtester.trailing_block cfg p1 (bar_price b) (bar_atr b)) as [p2 out].
  cbn [fst] in H2.
  rewrite (trail_candidate_same_side pos p1 _ _ (proj1 H1)) in H2.
  destruct out; [discriminate|].
  destruct (Backtester.time_stop_hit cfg i p2); [discriminate|].
  destruct (Backtester.reverse_hit p2 (bar_signal b)); [discriminate|].
  injection H as _ <- _. eapply ratcheted_trans; eassumption.
Qed.

End Ratchet.

(** ** What the steps of the live runner do to the runner *)

Ltac runner_simpl :=
  cbn [LiveRunner.broker LiveRunner.exchange LiveRunner.positions
       LiveRunner.trading_disabled LiveRunner.trade_timestamps
       LiveRunner.last_open_time LiveRunner.state_positions
       LiveRunner.equity_peak LiveRunner.realized_pnl LiveRunner.orders
       LiveRunner.notices LiveRunner.log
       LiveRunner.set_exchange LiveRunner.set_positions
       LiveRunner.set_trading_disabled LiveRunner.set_trade_timestamps
       LiveRunner.set_last_open_time LiveRunner.set_state_positions
       LiveRunner.set_equity_peak LiveRunner.set_realized_pnl
       LiveRunner.set_orders LiveRunner.notify LiveRunner.logged
       LiveRunner.add_realized_pnl LiveRunner._update_position_state
       LiveRunner.assign fst snd negb] in *.

Ltac case_ifs :=
  repeat match goal with
         | |- context [if ?b then _ else _] => destruct b eqn:?
         | |- context [match ?x with Some _ => _ | None => _ end] => destruct x eqn:?
         end.

Section LiveSteps.

Import LiveRunner.

Variable cfg : Config.

(** The symbol whose first-target attempts are counted. *)
Variable who : string.

Lemma tp1_attempts_app (r r' : Runner) (l : list LogLine) :
  log r' = log r ++ l ->
  tp1_attempts who r' = (tp1_attempts who r + length (List.filter (is_tp1_line who) l))%nat.
Proof.
  intros H. unfold tp1_attempts. rewrite H, List.filter_app, length_app. reflexivity.
Qed.

(** A full close: the flag and the count of first-target attempts stay, the
    position stays or goes. *)
Lemma close_position_live_effect (sym : string) (pos : PositionState) (price_ : Q)
    (reason : string) (r : Runner) :
  let r' := _close_position_live sym pos price_ reason r in
  trading_disabled r' = trading_disabled r
  /\ tp1_attempts who r' = tp1_attempts who r
  /\ (positions r' = positions r \/ positions r' = delete sym (positions r)).
Proof.
  unfold _close_position_live.
  destruct (broker r); cbn [negb].
  - destruct (qty pos <=? 0).
    + runner_simpl. unfold tp1_attempts. runner_simpl. auto.
    + unfold create_market_order.
      destruct (exchange r) as [|[] rest]; runner_simpl;
        (split; [reflexivity|]);
        (split; [erewrite tp1_attempts_app by (runner_simpl; reflexivity);
                 cbn; lia | auto]).
  - runner_simpl. split; [reflexivity|].
    split; [|by left].
    erewrite tp1_attempts_app by (runner_simpl; reflexivity). cbn. lia.
Qed.

(** A partial close: the record is the old one or the shrunk one, stored
    under the symbol; at most one attempt is logged, and it is logged for
    that symbol. *)
Lemma close_fraction_live_effect (sym : string) (pos : PositionState)
    (price_ fraction : Q) (reason : string) (r : Runner) :
  let res := _close_fraction_live sym pos price_ fraction reason r in
  trading_disabled res.2 = trading_disabled r
  /\ (tp1_attempts who res.2 <= tp1_attempts who r + 1)%nat
  /\ (who <> sym -> tp1_attempts who res.2 = tp1_attempts who r)
  /\ side res.1 = side pos /\ trailing_stop res.1 = trailing_stop pos
  /\ tp1 res.1 = tp1 pos /\ stop_loss res.1 = stop_loss pos
  /\ entry_price res.1 = entry_price pos
  /\ ((res.1 = pos /\ positions res.2 = positions r)
      \/ positions res.2 = <[sym := res.1]> (positions r)).
Proof.
  unfold _close_fraction_live.
  destruct (broker r); cbn [negb].
  - destruct ((qty pos <=? 0) || (fraction <=? 0) || (1 <=? fraction));
      [cbn [fst snd]; repeat split; auto; lia|].
    destruct (qty pos * fraction <=? 0);
      [cbn [fst snd]; repeat split; auto; lia|].
    unfold create_market_order.
    destruct (exchange r) as [|[] rest]; runner_simpl; pos_simpl;
      (split; [reflexivity|]);
      (split; [erewrite tp1_attempts_app by (runner_simpl; reflexivity);
               cbn; destruct (String.eqb sym who && String.eqb reason "tp1");
               cbn; lia|]);
      (split; [intros Hne; erewrite tp1_attempts_app by (runner_simpl; reflexivity);
               cbn; rewrite (proj2 (String.eqb_neq sym who)) by congruence;
               cbn; lia|]);
      repeat split; auto.
  - runner_simpl. split; [reflexivity|].
    split; [erewrite tp1_attempts_app by (runner_simpl; reflexivity); cbn; lia|].
    split; [intros _; erewrite tp1_attempts_app by (runner_simpl; reflexivity);
            cbn; lia|].
    repeat split; auto.
Qed.

Ltac idle :=
  cbn [fst snd]; repeat split; auto using ratcheted_refl.

(** The first-target block: either nothing happens, or [tp1] is cleared
    after at most one logged attempt; the cache holds the record that comes
    out. *)
Lemma live_tp1_block_effect (sym : string) (c : Candle) (pos : PositionState)
    (r : Runner) :
  positions r !! sym = Some pos ->
  let res := tp1_block cfg sym c pos r in
  trading_disabled res.2 = trading_disabled r
  /\ positions res.2 = <[sym := res.1]> (positions r)
  /\ ratcheted (trail_candidate cfg pos (price c) (atr c)) pos res.1
  /\ ((res.1 = pos /\ res.2 = r)
      \/ (tp1 res.1 = None /\ (tp1_attempts who res.2 <= tp1_attempts who r + 1)%nat
          /\ (who <> sym -> tp1_attempts who res.2 = tp1_attempts who r)
          /\ tp1 pos <> None)).
Proof.
  intros Hpos.
  assert (Hins : positions r = <[sym := pos]> (positions r)) by (by rewrite insert_id).
  unfold tp1_block, trail_candidate.
  destruct (tp1 pos) as [t|] eqn:Ht; [|idle].
  destruct (0 <? qty pos); [|idle].
  destruct (close_fraction_live_effect sym pos (price c) (1 # 2) "tp1" r)
    as (Hd & Hn & Hw & Hs & Hts & _ & _ & _ & Hp).
  destruct (is_long pos) eqn:Hl; cbn [andb].
  - rewrite (is_long_not_short _ Hl). cbn [andb].
    destruct (t <=? price c); [|idle].
    destruct (_close_fraction_live sym pos (price c) (1 # 2) "tp1" r) as [p0 r0].
    cbn [fst snd] in *. runner_simpl. pos_simpl. rewrite Hts.
    split; [exact Hd|]. split; [|split].
    + destruct Hp as [[_ ->] | ->]; [reflexivity | by rewrite insert_insert_eq].
    + split.
      * destruct (trailing_stop pos) as [ts|];
          [destruct (ts <? price c - ATR_TS_MULT cfg * atr c)|]; pos_simpl; exact Hs.
      * intros ts Heq. rewrite Heq, Hl.
        destruct (ts <? price c - ATR_TS_MULT cfg * atr c) eqn:Hlt; pos_simpl.
        -- right. split; [reflexivity | by apply Qltb_lt].
        -- left. congruence.
    + right. split; [|split; [|split; [|congruence]]].
      * destruct (trailing_stop pos) as [ts|];
          [destruct (ts <? price c - ATR_TS_MULT cfg * atr c)|]; reflexivity.
      * unfold tp1_attempts in *. runner_simpl. exact Hn.
      * unfold tp1_attempts in *. runner_simpl. exact Hw.
  - destruct (is_short pos && (price c <=? t)); [|idle].
    destruct (_close_fraction_live sym pos (price c) (1 # 2) "tp1" r) as [p0 r0].
    cbn [fst snd] in *. runner_simpl. pos_simpl. rewrite Hts.
    split; [exact Hd|]. split; [|split].
    + destruct Hp as [[_ ->] | ->]; [reflexivity | by rewrite insert_insert_eq].
    + split.
      * destruct (trailing_stop pos) as [ts|];
          [destruct (price c + ATR_TS_MULT cfg * atr c <? ts)|]; pos_simpl; exact Hs.
      * intros ts Heq. rewrite Heq, Hl.
        destruct (price c + ATR_TS_MULT cfg * atr c <? ts) eqn:Hlt; pos_simpl.
        -- right. split; [reflexivity | by apply Qltb_lt].
        -- left. congruence.
    + right. split; [|split; [|split; [|congruence]]].
      * destruct (trailing_stop pos) as [ts|];
          [destruct (price c + ATR_TS_MULT cfg * atr c <? ts)|]; reflexivity.
      * unfold tp1_attempts in *. runner_simpl. exact Hn.
      * unfold tp1_attempts in *. runner_simpl. exact Hw.
Qed.

(** The trailing block: the stored level ratchets and nothing else of the
    record changes; the cache holds the record, or the position is gone
    after a close. *)
Lemma live_trailing_block_effect (sym : string) (c : Candle) (pos : PositionState)
    (r : Runner) :
  positions r !! sym = Some pos ->
  let res := trailing_block cfg sym c pos r in
  trading_disabled res.1.2 = trading_disabled r
  /\ tp1_attempts who res.1.2 = tp1_attempts who r
  /\ ratcheted (trail_candidate cfg pos (price c) (atr c)) pos res.1.1
  /\ tp1 res.1.1 = tp1 pos /\ qty res.1.1 = qty pos
  /\ stop_loss res.1.1 = stop_loss pos
  /\ (positions res.1.2 = <[sym := res.1.1]> (positions r)
      \/ (res.2 = true /\ positions res.1.2 = delete sym (positions r))).
Proof.
  intros Hpos.
  assert (Hid : positions r = <[sym := pos]> (positions r)) by (by rewrite insert_id).
  unfold trailing_block, trail_candidate.
  destruct (trailing_stop pos) as [ts|] eqn:Hts; [|idle].
  destruct (0 <? qty pos); [|idle].
  destruct (is_long pos) eqn:Hl.
  - destruct (ts <? price c - ATR_TS_MULT cfg * atr c) eqn:Hlt.
    + set (p2 := set_trailing_stop (Some (price c - ATR_TS_MULT cfg * atr c)) pos).
      assert (Hr : ratcheted (price c - ATR_TS_MULT cfg * atr c) pos p2).
      { split; [reflexivity|]. intros ts0 H0. rewrite Hl. right.
        split; [reflexivity|]. apply Qltb_lt. congruence. }
      destruct (price c <=? price c - ATR_TS_MULT cfg * atr c).
      * destruct (close_position_live_effect sym p2 (price c) "trailing_stop"
                    (assign sym p2 r)) as (Hd & Hn & Hp).
        cbn [fst snd].
        refine (conj Hd (conj Hn (conj Hr (conj eq_refl (conj eq_refl (conj eq_refl _)))))).
        destruct Hp as [Hp | Hp]; [left; exact Hp | right].
        split; [reflexivity|]. rewrite Hp. cbn [assign positions set_positions].
        apply delete_insert_eq.
      * cbn [fst snd].
        refine (conj eq_refl (conj eq_refl (conj Hr (conj eq_refl (conj eq_refl (conj eq_refl _)))))).
        left. runner_simpl. by rewrite insert_insert_eq.
    + destruct (price c <=? ts).
      * destruct (close_position_live_effect sym pos (price c) "trailing_stop" r)
          as (Hd & Hn & Hp).
        cbn [fst snd].
        refine (conj Hd (conj Hn (conj (ratcheted_refl _ _)
                  (conj eq_refl (conj eq_refl (conj eq_refl _)))))).
        destruct Hp as [-> | ->]; [by left | by right].
      * cbn [fst snd].
        refine (conj eq_refl (conj eq_refl (conj (ratcheted_refl _ _)
                  (conj eq_refl (conj eq_refl (conj eq_refl _)))))).
        left. runner_simpl. by rewrite <- Hid.
  - destruct (price c + ATR_TS_MULT cfg * atr c <? ts) eqn:Hlt.
    + set (p2 := set_trailing_stop (Some (price c + ATR_TS_MULT cfg * atr c)) pos).
      assert (Hr : ratcheted (price c + ATR_TS_MULT cfg * atr c) pos p2).
      { split; [reflexivity|]. intros ts0 H0. rewrite Hl. right.
        split; [reflexivity|]. apply Qltb_lt. congruence. }
      destruct (price c + ATR_TS_MULT cfg * atr c <=? price c).
      * destruct (close_position_live_effect sym p2 (price c) "trailing_stop"
                    (assign sym p2 r)) as (Hd & Hn & Hp).
        cbn [fst snd].
        refine (conj Hd (conj Hn (conj Hr (conj eq_refl (conj eq_refl (conj eq_refl _)))))).
        destruct Hp as [Hp | Hp]; [left; exact Hp | right].
        split; [reflexivity|]. rewrite Hp. cbn [assign positions set_positions].
        apply delete_insert_eq.
      * cbn [fst snd].
        refine (conj eq_refl (conj eq_refl (conj Hr (conj eq_refl (conj eq_refl (conj eq_refl _)))))).
        left. runner_simpl. by rewrite insert_insert_eq.
    + destruct (ts <=? price c).
      * destruct (close_position_live_effect sym pos (price c) "trailing_stop" r)
          as (Hd & Hn & Hp).
        cbn [fst snd].
        refine (conj Hd (conj Hn (conj (ratcheted_refl _ _)
                  (conj eq_refl (conj eq_refl (conj eq_refl _)))))).
        destruct Hp as [-> | ->]; [by left | by right].
      * cbn [fst snd].
        refine (conj eq_refl (conj eq_refl (conj (ratcheted_refl _ _)
                  (conj eq_refl (conj eq_refl (conj eq_refl _)))))).
        left. runner_simpl. by rewrite <- Hid.
Qed.

Lemma closes_refl (sym : string) (r : Runner) : closes who sym r r.
Proof. repeat split; auto. Qed.

Lemma closes_lookup (sym : string) (r r' : Runner) (pos' : PositionState) :
  closes who sym r r' -> positions r' !! sym = Some pos' -> positions r !! sym = Some pos'.
Proof.
  intros (_ & _ & [Hp | Hp]) H; rewrite Hp in H; [exact H|].
  by rewrite lookup_delete_eq in H.
Qed.

Lemma closes_frame (sym s : string) (r r' : Runner) :
  closes who sym r r' -> s <> sym -> positions r' !! s = positions r !! s.
Proof.
  intros (_ & _ & [Hp | Hp]) H; rewrite Hp; [reflexivity|].
  by rewrite lookup_delete_ne.
Qed.

(** The management of an open position in the live runner. *)
Lemma live_manage_position_effect (sym : string) (c : Candle) (pos : PositionState)
    (r : Runner) :
  positions r !! sym = Some pos ->
  let r' := manage_position cfg sym c pos r in
  trading_disabled r' = trading_disabled r
  /\ (forall s, s <> sym -> positions r' !! s = positions r !! s)
  /\ (tp1_attempts who r' <= tp1_attempts who r + 1)%nat
  /\ (tp1 pos = None -> tp1_attempts who r' = tp1_attempts who r)
  /\ (who <> sym -> tp1_attempts who r' = tp1_attempts who r)
  /\ forall pos', positions r' !! sym = Some pos' ->
       ratcheted (trail_candidate cfg pos (price c) (atr c)) pos pos'
       /\ (tp1 pos = None ->
           tp1 pos' = None /\ qty pos' = qty pos /\ stop_loss pos' = stop_loss pos)
       /\ (tp1_attempts who r' <> tp1_attempts who r -> tp1 pos' = None).
Proof.
  intros Hpos. unfold manage_position.
  destruct (stop_loss_hit pos (price c)).
  { assert (Hc : closes who sym r (_close_position_live sym pos (price c) "stop_loss" r))
      by apply close_position_live_effect.
    destruct (Hc) as (Hd & Hn & Hp).
    split; [exact Hd|]. split; [intros s Hs; exact (closes_frame sym s _ _ Hc Hs)|].
    split; [lia|]. split; [intros _; exact Hn|]. split; [intros _; exact Hn|].
    intros pos' H'.
    assert (pos' = pos) as ->.
    { destruct Hp as [Hp | Hp]; rewrite Hp in H'; [congruence|].
      by rewrite lookup_delete_eq in H'. }
    split; [apply ratcheted_refl|]. split; [auto|]. intros Hne. by destruct Hne. }
  assert (H1 := live_tp1_block_effect sym c pos r Hpos).
  destruct (tp1_block cfg sym c pos r) as [p1 r1]. cbn [fst snd] in H1.
  destruct H1 as (Hd1 & Hp1 & Hr1 & Hf1).
  assert (Hpos1 : positions r1 !! sym = Some p1) by (rewrite Hp1; apply lookup_insert_eq).
  assert (H2 := live_trailing_block_effect sym c p1 r1 Hpos1).
  destruct (trailing_block cfg sym c p1 r1) as [[p2 r2] done]. cbn [fst snd] in H2.
  destruct H2 as (Hd2 & Hn2 & Hr2 & Ht2 & Hq2 & Hs2 & Hp2).
  rewrite (trail_candidate_same_side cfg pos p1 _ _ (proj1 Hr1)) in Hr2.
  match goal with |- trading_disabled ?e = _ /\ _ => remember e as r' eqn:Er' end.
  assert (Hc : closes who sym r2 r').
  { subst r'. destruct done; [apply closes_refl|].
    destruct (time_stop_hit cfg c p2); [apply close_position_live_effect|].
    destruct (reverse_hit p2 (signal c)); [apply close_position_live_effect|].
    apply closes_refl. }
  clear Er'. destruct (Hc) as (Hd & Hn & _).
  split; [congruence|]. split; [|split; [|split; [|split]]].
  - intros s Hs. rewrite (closes_frame _ _ _ _ Hc Hs).
    destruct Hp2 as [Hp2 | [_ Hp2]]; rewrite Hp2, ?lookup_insert_ne, ?lookup_delete_ne,
      Hp1, ?lookup_insert_ne by congruence; reflexivity.
  - rewrite Hn, Hn2. destruct Hf1 as [[_ ->] | (_ & Hle & _)]; lia.
  - intros Ht. rewrite Hn, Hn2. destruct Hf1 as [[_ ->] | (_ & _ & _ & Hne)];
      [reflexivity | contradiction].
  - intros Hw. rewrite Hn, Hn2. destruct Hf1 as [[_ ->] | (_ & _ & Hw1 & _)];
      [reflexivity | by apply Hw1].
  - intros pos' H'. apply (closes_lookup _ _ _ _ Hc) in H'.
    assert (pos' = p2) as ->.
    { destruct Hp2 as [Hp2 | [_ Hp2]]; rewrite Hp2 in H'.
      - rewrite lookup_insert_eq in H'. congruence.
      - by rewrite lookup_delete_eq in H'. }
    split; [eapply ratcheted_trans; eassumption|]. split.
    + intros Ht. destruct Hf1 as [[-> _] | (_ & _ & _ & Hne)]; [|contradiction].
      rewrite Ht2, Hq2, Hs2. auto.
    + intros Hne. rewrite Hn, Hn2 in Hne.
      destruct Hf1 as [[_ ->] | (Ht & _ & _)]; [by destruct Hne|]. congruence.
Qed.

(** What comes before the two branches of a tick: the peak and the guard. *)
Lemma drawdown_guard_effect (equity : Q) (r : Runner) :
  let r' := drawdown_guard cfg equity r in
  positions r' = positions r /\ log r' = log r /\ orders r' = orders r
  /\ exchange r' = exchange r /\ broker r' = broker r
  /\ equity_peak r' = equity_peak r
  /\ (trading_disabled r = true -> trading_disabled r' = true).
Proof.
  unfold drawdown_guard.
  destruct ((0 <? HARD_MAX_DRAWDOWN_PCT cfg)
            && (HARD_MAX_DRAWDOWN_PCT cfg <=? drawdown_pct cfg equity r));
    [|repeat split; auto].
  destruct (trading_disabled r); runner_simpl; repeat split; auto.
Qed.

Lemma update_equity_peak_effect (equity : Q) (r : Runner) :
  let r' := update_equity_peak equity r in
  positions r' = positions r /\ log r' = log r /\ orders r' = orders r
  /\ exchange r' = exchange r /\ broker r' = broker r
  /\ trading_disabled r' = trading_disabled r.
Proof.
  unfold update_equity_peak.
  destruct (equity_peak r) as [cur|]; [destruct (cur <? equity)|];
    runner_simpl; repeat split; auto.
Qed.

Lemma guarded_effect (c : Candle) (r : Runner) :
  positions (guarded cfg c r) = positions r /\ log (guarded cfg c r) = log r
  /\ orders (guarded cfg c r) = orders r
  /\ (trading_disabled r = true -> trading_disabled (guarded cfg c r) = true).
Proof.
  unfold guarded.
  set (equity := if broker r then default 0 (balance_usdt c) else 0).
  destruct (update_equity_peak_effect equity r) as (Hp' & Hl' & Ho' & _ & _ & Hd').
  destruct (0 <? equity).
  - destruct (drawdown_guard_effect equity (update_equity_peak equity r))
      as (Hp & Hl & Ho & _ & _ & _ & Hd).
    rewrite Hp, Hl, Ho, Hp', Hl', Ho'. repeat split. intros H. apply Hd. congruence.
  - destruct (drawdown_guard_effect equity r) as (Hp & Hl & Ho & _ & _ & _ & Hd).
    rewrite Hp, Hl, Ho. repeat split. exact Hd.
Qed.

Lemma run_strategy_if_ready_unfold (sym : string) (c : Candle) (r : Runner) :
  _run_strategy_if_ready cfg sym c r =
  if (price c <=? 0) || (atr c <=? 0) then r
  else match positions (guarded cfg c r) !! sym with
       | Some pos => manage_position cfg sym c pos (guarded cfg c r)
       | None =>
           open_position cfg sym c
             (if broker r then default 0 (balance_usdt c) else 0) (guarded cfg c r)
       end.
Proof. reflexivity. Qed.

(** A tick on a symbol that holds a position. *)
Lemma live_tick_effect (sym : string) (c : Candle) (pos : PositionState) (r : Runner) :
  positions r !! sym = Some pos ->
  let r' := _run_strategy_if_ready cfg sym c r in
  (forall s, s <> sym -> positions r' !! s = positions r !! s)
  /\ (tp1_attempts who r' <= tp1_attempts who r + 1)%nat
  /\ (tp1 pos = None -> tp1_attempts who r' = tp1_attempts who r)
  /\ (who <> sym -> tp1_attempts who r' = tp1_attempts who r)
  /\ forall pos', positions r' !! sym = Some pos' ->
       ratcheted (trail_candidate cfg pos (price c) (atr c)) pos pos'
       /\ (tp1 pos = None ->
           tp1 pos' = None /\ qty pos' = qty pos /\ stop_loss pos' = stop_loss pos)
       /\ (tp1_attempts who r' <> tp1_attempts who r -> tp1 pos' = None).
Proof.
  intros Hpos. cbv zeta. rewrite run_strategy_if_ready_unfold.
  destruct ((price c <=? 0) || (atr c <=? 0)).
  { split; [auto|]. split; [lia|]. split; [auto|]. split; [auto|]. intros pos' H'.
    assert (pos' = pos) as -> by congruence.
    split; [apply ratcheted_refl|]. split; [auto|]. intros Hne. by destruct Hne. }
  destruct (guarded_effect c r) as (Hp & Hl & _ & _).
  assert (Hn : tp1_attempts who (guarded cfg c r) = tp1_attempts who r)
    by (unfold tp1_attempts; by rewrite Hl).
  assert (Hpos' : positions (guarded cfg c r) !! sym = Some pos) by (by rewrite Hp).
  rewrite Hpos'.
  destruct (live_manage_position_effect sym c pos (guarded cfg c r) Hpos')
    as (_ & Hf & Hle & Heq & Hw & Hpos'').
  rewrite Hn in *.
  split; [intros s Hs; rewrite (Hf s Hs), Hp; reflexivity|].
  split; [exact Hle|]. split; [exact Heq|]. split; [exact Hw|]. exact Hpos''.
Qed.

(** An entry leaves the flag alone, logs no partial close, touches no other
    symbol, and does not happen at all while the flag is set. *)
Lemma open_position_effect (sym : string) (c : Candle) (equity : Q) (r : Runner) :
  let r' := open_position cfg sym c equity r in
  trading_disabled r' = trading_disabled r
  /\ (trading_disabled r = true -> r' = r)
  /\ (forall s, s <> sym -> positions r' !! s = positions r !! s)
  /\ tp1_attempts who r' = tp1_attempts who r.
Proof.
  unfold open_position.
  destruct (signal c) as [sig|]; [|by repeat split].
  destruct (trading_disabled r) eqn:Hd; [by repeat split|].
  unfold create_market_order.
  set (sized := RiskManager.calc_futures_size_from_risk _ _ _ _ _ _).
  destruct sized as [n q].
  split; [|split; [discriminate|split]].
  - case_ifs; runner_simpl; try assumption;
      destruct (exchange r) as [|[] rest]; runner_simpl; assumption.
  - intros s Hs.
    case_ifs; runner_simpl; try reflexivity;
      destruct (exchange r) as [|[] rest]; runner_simpl;
        rewrite ?lookup_insert_ne by congruence; reflexivity.
  - unfold tp1_attempts.
    case_ifs; runner_simpl; try reflexivity;
      try (rewrite List.filter_app, length_app; cbn; lia);
      destruct (exchange r) as [|[] rest]; runner_simpl;
        rewrite ?List.filter_app, ?length_app; cbn; lia.
Qed.

Lemma heartbeat_effect (syms : gset string) (r : Runner) :
  positions (heartbeat cfg syms r) = positions r
  /\ (trading_disabled r = true -> trading_disabled (heartbeat cfg syms r) = true)
  /\ tp1_attempts who (heartbeat cfg syms r) = tp1_attempts who r.
Proof.
  unfold heartbeat, tp1_attempts. case_ifs; runner_simpl; auto.
Qed.

(** A tick on another symbol leaves the position and the count alone. *)
Lemma live_tick_other (sym : string) (c : Candle) (r : Runner) :
  who <> sym ->
  let r' := _run_strategy_if_ready cfg sym c r in
  positions r' !! who = positions r !! who
  /\ tp1_attempts who r' = tp1_attempts who r.
Proof.
  intros Hw. cbv zeta. rewrite run_strategy_if_ready_unfold.
  destruct ((price c <=? 0) || (atr c <=? 0)); [auto|].
  destruct (guarded_effect c r) as (Hp & Hl & _ & _).
  assert (Hn : tp1_attempts who (guarded cfg c r) = tp1_attempts who r)
    by (unfold tp1_attempts; by rewrite Hl).
  destruct (positions (guarded cfg c r) !! sym) as [pos|] eqn:Hpos.
  - destruct (live_manage_position_effect sym c pos _ Hpos)
      as (_ & Hf & _ & _ & Hw' & _).
    rewrite (Hf who Hw), (Hw' Hw), Hp, Hn. auto.
  - destruct (open_position_effect sym c
                (if broker r then default 0 (balance_usdt c) else 0) (guarded cfg c r))
      as (_ & _ & Hf & Hn').
    rewrite (Hf who Hw), Hn', Hp, Hn. auto.
Qed.

(** So does every event that is not a candle of the symbol. *)
Lemma handle_other (e : Event) (r : Runner) :
  match e with kline_15m sym _ => who <> sym | beat _ => True end ->
  positions (handle cfg e r) !! who = positions r !! who
  /\ tp1_attempts who (handle cfg e r) = tp1_attempts who r.
Proof.
  destruct e as [sym c | syms]; cbn [handle]; intros Hw.
  - by apply live_tick_other.
  - destruct (heartbeat_effect syms r) as (Hp & _ & Hn). by rewrite Hp, Hn.
Qed.

End LiveSteps.

(** C6.  While a position stays open its stored trailing stop only
    ratchets: after a tick of the backtest ledger or of the live runner the
    stored level is the old one or the tick's candidate,
    price − ATR × multiplier for a long and price + ATR × multiplier
    otherwise, and the candidate is taken only when it is strictly more
    favourable; so the level never falls for a long and never rises for a
    short.  In the live runner the candles of other symbols and the
    heartbeats leave the position as it is. *)
Theorem trailing_stop_ratchet (cfg : Config) (pos pos' : PositionState) (ts : Q) :
  trailing_stop pos = Some ts ->
  (forall i b balance balance' ev,
     Backtester.manage_position cfg i b balance pos = (balance', Some pos', ev) ->
     exists ts', trailing_stop pos' = Some ts'
       /\ (side pos = "long" -> ts <= ts') /\ (side pos <> "long" -> ts' <= ts)
       /\ (ts' = ts \/ ts' = trail_candidate cfg pos (bar_price b) (bar_atr b)))
  /\ (forall sym c r,
     LiveRunner.positions r !! sym = Some pos ->
     LiveRunner.positions (LiveRunner._run_strategy_if_ready cfg sym c r) !! sym
       = Some pos' ->
     exists ts', trailing_stop pos' = Some ts'
       /\ (side pos = "long" -> ts <= ts') /\ (side pos <> "long" -> ts' <= ts)
       /\ (ts' = ts \/
           ts' = trail_candidate cfg pos (LiveRunner.price c) (LiveRunner.atr c)))
  /\ (forall sym e r,
     LiveRunner.positions r !! sym = Some pos ->
     match e with
     | LiveRunner.kline_15m s _ => sym <> s
     | LiveRunner.beat _ => True
     end ->
     LiveRunner.positions (LiveRunner.handle cfg e r) !! sym = Some pos).
Proof.
  intros Hts.
  assert (Hgen : forall cand, ratcheted cand pos pos' ->
    exists ts', trailing_stop pos' = Some ts'
      /\ (side pos = "long" -> ts <= ts') /\ (side pos <> "long" -> ts' <= ts)
      /\ (ts' = ts \/ ts' = cand)).
  { intros cand [_ H]. destruct (H ts Hts) as [H' | [H' Hlt]].
    - exists ts. repeat split; auto; intros _; lra.
    - exists cand. unfold is_long in Hlt. repeat split; auto.
      + intros Hs. rewrite Hs in Hlt. cbn in Hlt. lra.
      + intros Hs. apply String.eqb_neq in Hs. rewrite Hs in Hlt. lra. }
  split; [|split].
  - intros i b balance balance' ev H. apply Hgen.
    eapply backtest_manage_position_ratchets. exact H.
  - intros sym c r Hpos H'. apply Hgen.
    apply (live_tick_effect cfg sym sym c pos r Hpos). exact H'.
  - intros sym e r Hpos He.
    destruct (handle_other cfg sym e r He) as [Hp _]. by rewrite Hp.
Qed.

Lemma trailing_stop_ratchet_witness :
  exists ts',
    trailing_stop (set_trailing_stop (Some (120 - 5 * 2)) trailing_long) = Some ts'
    /\ (side trailing_long = "long" -> 105 <= ts')
    /\ (side trailing_long <> "long" -> ts' <= 105)
    /\ (ts' = 105 \/ ts' = trail_candidate default_config trailing_long 120 2).
Proof.
  apply (proj1 (trailing_stop_ratchet default_config trailing_long
                  (set_trailing_stop (Some (120 - 5 * 2)) trailing_long) 105 eq_refl)
           10%Z (quiet_bar 120) 5000 5000 []).
  vm_compute. reflexivity.
Defined.

(** ** The first target fires once *)

Section FirstTarget.

Variable cfg : Config.

Lemma tp1_count_app (ev ev' : list Backtester.Exit) :
  Backtester.tp1_count (ev ++ ev')
  = (Backtester.tp1_count ev + Backtester.tp1_count ev')%nat.
Proof. unfold Backtester.tp1_count. by rewrite List.filter_app, length_app. Qed.

Lemma tp1_count_in (ev : list Backtester.Exit) :
  In Backtester.TP1 ev -> Backtester.tp1_count ev <> 0%nat.
Proof.
  intros Hin. unfold Backtester.tp1_count.
  assert (H : In Backtester.TP1
                (List.filter (fun e => Backtester.Exit_eqb e Backtester.TP1) ev))
    by (apply List.filter_In; split; [exact Hin | reflexivity]).
  destruct (List.filter _ ev); [destruct H | discriminate].
Qed.

(** The block either does nothing or clears [tp1]. *)
Lemma backtest_tp1_block_fires (balance price atr : Q) (pos : PositionState) :
  let res := Backtester.tp1_block cfg balance pos price atr in
  (res = (balance, pos, false))
  \/ (res.2 = true /\ tp1 res.1.2 = None /\ tp1 pos <> None).
Proof.
  unfold Backtester.tp1_block.
  destruct (tp1 pos) as [t|]; [|by left].
  destruct (is_long pos && (t <=? price)).
  - right. destruct (Backtester._close_fraction cfg balance pos price (1 # 2)) as [b p].
    cbn [fst snd]. split; [reflexivity|]. split; [|discriminate].
    pos_simpl. destruct (trailing_stop p) as [ts|];
      [destruct (ts <? price - ATR_TS_MULT cfg * atr)|]; reflexivity.
  - destruct (is_short pos && (price <=? t)); [right | by left].
    destruct (Backtester._close_fraction cfg balance pos price (1 # 2)) as [b p].
    cbn [fst snd]. split; [reflexivity|]. split; [|discriminate].
    pos_simpl. destruct (trailing_stop p) as [ts|];
      [destruct (price + ATR_TS_MULT cfg * atr <? ts)|]; reflexivity.
Qed.

(** The trailing block leaves target, quantity and stop alone. *)
Lemma backtest_trailing_block_keeps (price atr : Q) (pos : PositionState) :
  let res := Backtester.trailing_block cfg pos price atr in
  tp1 res.1 = tp1 pos /\ qty res.1 = qty pos /\ stop_loss res.1 = stop_loss pos.
Proof.
  unfold Backtester.trailing_block.
  destruct (trailing_stop pos) as [ts|]; [|by repeat split].
  destruct (is_long pos);
    match goal with |- context [if ?b then _ else _] => destruct b end;
    by repeat split.
Qed.

Lemma backtest_manage_position_tp1 (i : Z) (b : Bar) (balance : Q)
    (pos : PositionState) (balance' : Q) (op : option PositionState)
    (ev : list Backtester.Exit) :
  Backtester.manage_position cfg i b balance pos = (balance', op, ev) ->
  (Backtester.tp1_count ev <= 1)%nat
  /\ (tp1 pos = None -> Backtester.tp1_count ev = 0%nat)
  /\ forall pos', op = Some pos' ->
       (Backtester.tp1_count ev <> 0%nat -> tp1 pos' = None)
       /\ (tp1 pos = None ->
           tp1 pos' = None /\ qty pos' = qty pos /\ stop_loss pos' = stop_loss pos).
Proof.
  unfold Backtester.manage_position. intros H.
  destruct (Backtester.stop_loss_hit pos (bar_price b)).
  { injection H as _ <- <-. cbn. repeat split; try lia; discriminate. }
  assert (H1 := backtest_tp1_block_fires balance (bar_price b) (bar_atr b) pos).
  destruct (Backtester.tp1_block cfg balance pos (bar_price b) (bar_atr b))
    as [[b1 p1] fired]. cbn [fst snd] in H1.
  assert (H2 := backtest_trailing_block_keeps (bar_price b) (bar_atr b) p1).
  destruct (Backtester.trailing_block cfg p1 (bar_price b) (bar_atr b)) as [p2 out].
  cbn [fst] in H2. destruct H2 as (Ht2 & Hq2 & Hs2).
  assert (Hev : forall x, x <> Backtester.TP1 ->
            Backtester.tp1_count ((if fired then [Backtester.TP1] else []) ++ [x])
            = Backtester.tp1_count (if fired then [Backtester.TP1] else [])).
  { intros x Hx. rewrite tp1_count_app. destruct x; try (by destruct Hx); cbn; lia. }
  assert (Hc : Backtester.tp1_count ev
               = Backtester.tp1_count (if fired then [Backtester.TP1] else [])
             /\ (op = None \/ op = Some p2)).
  { destruct out; [injection H as _ <- <-; split; [by apply Hev | by left]|].
    destruct (Backtester.time_stop_hit cfg i p2);
      [injection H as _ <- <-; split; [by apply Hev | by left]|].
    destruct (Backtester.reverse_hit p2 (bar_signal b));
      [injection H as _ <- <-; split; [by apply Hev | by left]|].
    injection H as _ <- <-. split; [reflexivity | by right]. }
  destruct Hc as [-> Hop]. clear H Hev.
  destruct H1 as [H1 | (-> & Ht1 & Hne)].
  - injection H1 as -> -> ->. cbn. split; [lia|]. split; [reflexivity|].
    intros pos' Hpos'. split; [intros Hne; by destruct Hne|].
    intros Ht. destruct Hop as [-> | ->]; [discriminate|].
    injection Hpos' as <-. repeat split; congruence.
  - cbn. split; [lia|]. split; [intros; contradiction|].
    intros pos' Hpos'. split; [|intros; contradiction].
    intros _. destruct Hop as [-> | ->]; [discriminate|].
    injection Hpos' as <-. congruence.
Qed.

Lemma backtest_follow_tp1 (bars : list Bar) :
  forall (i : Z) (balance : Q) (pos : PositionState),
    (Backtester.tp1_count (Backtester.follow cfg i bars balance pos) <= 1)%nat
    /\ (tp1 pos = None ->
        Backtester.tp1_count (Backtester.follow cfg i bars balance pos) = 0%nat).
Proof.
  induction bars as [|b rest IH]; intros i balance pos; cbn [Backtester.follow].
  { cbn. split; [lia | reflexivity]. }
  destruct (bar_atr b <=? 0); [apply IH|].
  destruct (Backtester.manage_position cfg i b balance pos) as [[b' op] ev] eqn:Hm.
  destruct (backtest_manage_position_tp1 _ _ _ _ _ _ _ Hm) as (Hle & Hz & Hop).
  destruct op as [pos'|]; [|split; assumption].
  destruct (Hop pos' eq_refl) as [Hfired Hkept].
  destruct (IH (i + 1)%Z b' pos') as [IHle IHz].
  rewrite tp1_count_app. split.
  - destruct (Nat.eq_dec (Backtester.tp1_count ev) 0%nat) as [-> | Hne]; [lia|].
    rewrite (IHz (Hfired Hne)). lia.
  - intros Ht. rewrite (Hz Ht), (IHz (proj1 (Hkept Ht))). reflexivity.
Qed.

Lemma live_follow_none (sym : string) (events : list LiveRunner.Event)
    (r : LiveRunner.Runner) :
  LiveRunner.positions r !! sym = None -> LiveRunner.follow cfg sym events r = r.
Proof. intros H. destruct events; cbn [LiveRunner.follow]; by rewrite ?H. Qed.

(** One event in the life of a position in [sym]. *)
Lemma live_handle_tp1 (sym : string) (e : LiveRunner.Event) (pos : PositionState)
    (r : LiveRunner.Runner) :
  LiveRunner.positions r !! sym = Some pos ->
  let r' := LiveRunner.handle cfg e r in
  (LiveRunner.tp1_attempts sym r' <= LiveRunner.tp1_attempts sym r + 1)%nat
  /\ (tp1 pos = None -> LiveRunner.tp1_attempts sym r' = LiveRunner.tp1_attempts sym r)
  /\ forall pos', LiveRunner.positions r' !! sym = Some pos' ->
       (tp1 pos = None -> tp1 pos' = None)
       /\ (LiveRunner.tp1_attempts sym r' <> LiveRunner.tp1_attempts sym r ->
           tp1 pos' = None).
Proof.
  intros Hpos. cbv zeta.
  assert (Hother :
    match e with LiveRunner.kline_15m s _ => sym <> s | LiveRunner.beat _ => True end ->
    (LiveRunner.tp1_attempts sym (LiveRunner.handle cfg e r)
     <= LiveRunner.tp1_attempts sym r + 1)%nat
    /\ (tp1 pos = None ->
        LiveRunner.tp1_attempts sym (LiveRunner.handle cfg e r)
        = LiveRunner.tp1_attempts sym r)
    /\ forall pos', LiveRunner.positions (LiveRunner.handle cfg e r) !! sym = Some pos' ->
         (tp1 pos = None -> tp1 pos' = None)
         /\ (LiveRunner.tp1_attempts sym (LiveRunner.handle cfg e r)
             <> LiveRunner.tp1_attempts sym r -> tp1 pos' = None)).
  { intros Ho. destruct (handle_other cfg sym e r Ho) as [Hp Hn].
    rewrite Hp, Hn, Hpos. split; [lia|]. split; [reflexivity|].
    intros pos' [= <-]. split; [auto|]. intros Hne. by destruct Hne. }
  destruct e as [s c | syms]; [|by apply Hother].
  destruct (decide (sym = s)) as [<- | Hne]; [|by apply Hother].
  cbn [LiveRunner.handle].
  destruct (live_tick_effect cfg sym sym c pos r Hpos) as (_ & Hle & Hz & _ & Hop).
  split; [exact Hle|]. split; [exact Hz|].
  intros pos' Hpos'. destruct (Hop pos' Hpos') as (_ & Hkept & Hfired).
  split; [intros Ht; by apply Hkept | exact Hfired].
Qed.

Lemma live_follow_tp1 (sym : string) (events : list LiveRunner.Event) :
  forall (r : LiveRunner.Runner) (pos : PositionState),
    LiveRunner.positions r !! sym = Some pos ->
    (LiveRunner.tp1_attempts sym (LiveRunner.follow cfg sym events r)
     <= LiveRunner.tp1_attempts sym r + 1)%nat
    /\ (tp1 pos = None ->
        LiveRunner.tp1_attempts sym (LiveRunner.follow cfg sym events r)
        = LiveRunner.tp1_attempts sym r).
Proof.
  induction events as [|e rest IH]; intros r pos Hpos; cbn [LiveRunner.follow].
  { split; [lia | reflexivity]. }
  rewrite Hpos.
  destruct (live_handle_tp1 sym e pos r Hpos) as (Hle & Hz & Hop).
  set (r' := LiveRunner.handle cfg e r) in *.
  destruct (LiveRunner.positions r' !! sym) as [pos'|] eqn:Hpos'.
  - destruct (Hop pos' eq_refl) as (Hkept & Hfired).
    destruct (IH r' pos' Hpos') as [IHle IHz]. split.
    + destruct (Nat.eq_dec (LiveRunner.tp1_attempts sym r')
                  (LiveRunner.tp1_attempts sym r)) as [He | Hne]; [lia|].
      rewrite (IHz (Hfired Hne)). exact Hle.
    + intros Ht. rewrite (IHz (Hkept Ht)). exact (Hz Ht).
  - rewrite (live_follow_none sym rest r' Hpos'). split; assumption.
Qed.

End FirstTarget.

(** C5.  The first target fires at most once in the life of a position.
    In the backtest ledger the first-target block runs at most once over any
    sequence of bars, and not at all once [tp1] is null; a tick in which it
    ran leaves [tp1] null.  In the live runner, over any sequence of candles
    (of this and of other symbols) and heartbeats, at most one partial close
    for the first target of the symbol is ever attempted while the position
    is held, and none once [tp1] is null; a tick in which one was attempted
    leaves [tp1] null.  In both, a position whose [tp1] is null keeps it
    null, and its quantity and stop loss are never touched again by the
    block, whatever the prices do. *)
Theorem tp1_fires_at_most_once (cfg : Config) (pos : PositionState) :
  (forall i bars balance,
     (Backtester.tp1_count (Backtester.follow cfg i bars balance pos) <= 1)%nat
     /\ (tp1 pos = None ->
         Backtester.tp1_count (Backtester.follow cfg i bars balance pos) = 0%nat))
  /\ (forall i b balance balance' pos' ev,
        Backtester.manage_position cfg i b balance pos = (balance', Some pos', ev) ->
        (In Backtester.TP1 ev -> tp1 pos' = None)
        /\ (tp1 pos = None ->
            ~ In Backtester.TP1 ev /\ tp1 pos' = None /\ qty pos' = qty pos
            /\ stop_loss pos' = stop_loss pos))
  /\ (forall sym events r,
        LiveRunner.positions r !! sym = Some pos ->
        (LiveRunner.tp1_attempts sym (LiveRunner.follow cfg sym events r)
         <= LiveRunner.tp1_attempts sym r + 1)%nat
        /\ (tp1 pos = None ->
            LiveRunner.tp1_attempts sym (LiveRunner.follow cfg sym events r)
            = LiveRunner.tp1_attempts sym r))
  /\ (forall sym c r pos',
        LiveRunner.positions r !! sym = Some pos ->
        LiveRunner.positions (LiveRunner._run_strategy_if_ready cfg sym c r) !! sym
          = Some pos' ->
        (LiveRunner.tp1_attempts sym (LiveRunner._run_strategy_if_ready cfg sym c r)
         <> LiveRunner.tp1_attempts sym r -> tp1 pos' = None)
        /\ (tp1 pos = None ->
            LiveRunner.tp1_attempts sym (LiveRunner._run_strategy_if_ready cfg sym c r)
            = LiveRunner.tp1_attempts sym r
            /\ tp1 pos' = None /\ qty pos' = qty pos
            /\ stop_loss pos' = stop_loss pos)).
Proof.
  split; [|split; [|split]].
  - intros i bars balance. apply backtest_follow_tp1.
  - intros i b balance balance' pos' ev Hm.
    destruct (backtest_manage_position_tp1 cfg _ _ _ _ _ _ _ Hm) as (_ & Hz & Hop).
    destruct (Hop pos' eq_refl) as [Hfired Hkept]. split.
    + intros Hin. apply Hfired. by apply tp1_count_in.
    + intros Ht. split; [|by apply Hkept].
      intros Hin. apply tp1_count_in in Hin. apply Hin. by apply Hz.
  - intros sym events r Hpos. by apply (live_follow_tp1 cfg sym events r pos).
  - intros sym c r pos' Hpos Hpos'.
    destruct (live_tick_effect cfg sym sym c pos r Hpos) as (_ & _ & Hz & _ & Hop).
    destruct (Hop pos' Hpos') as (_ & Hkept & Hfired). split; [exact Hfired|].
    intros Ht. split; [by apply Hz | by apply Hkept].
Qed.

Lemma tp1_fires_at_most_once_witness :
  (In Backtester.TP1 [Backtester.TP1] -> tp1 sample_long_after_tp1 = None)
  /\ (Backtester.tp1_count
        (Backtester.follow default_config 10
           [quiet_bar 125; quiet_bar 119; quiet_bar 125; quiet_bar 119] 5000 sample_long)
      <= 1)%nat.
Proof.
  split.
  - apply (proj1 (proj1 (proj2 (tp1_fires_at_most_once default_config sample_long))
                    10%Z (quiet_bar 125) 5000
                    (5000 + ((125 - 100) * (1 * (1 # 2))
                             - (100 * (1 * (1 # 2)) + 125 * (1 * (1 # 2))) * (4 # 10000)))
                    sample_long_after_tp1 [Backtester.TP1] eq_refl)).
  - apply (proj1 (tp1_fires_at_most_once default_config sample_long)).
Defined.

(** ** The drawdown guard *)

Section Guard.

Import LiveRunner.

Variable cfg : Config.










End Guard.




(** ** The signal rule *)

Section SignalRule.

Import MTFBreakoutStrategy.

Variable cfg : Params.

Ltac bind_inv H :=
  repeat match type of H with
         | mbind _ ?m = Some _ =>
             let E := fresh "E" in
             destruct m eqn:E; cbn [mbind option_bind] in H; [|discriminate H]
         | (let '(_, _) := ?p in _) = Some _ =>
             let E := fresh "E" in destruct p eqn:E
         end.

Lemma reject_if_inv (b : bool) (u : unit) : reject_if b = Some u -> b = false.
Proof. unfold reject_if. by destruct b. Qed.



End SignalRule.



(** ** The position record survives the state file *)

(** C10.  For a position whose entry price, quantity and notional are finite
    floats, whose open time is a float and whose pyramid level is an int,
    [from_dict] applied to [to_dict] gives the position back, field for
    field, the nullable stop loss, targets, peak price and trailing stop
    included. *)
Theorem from_dict_to_dict (parse_float : string -> option Persistence.pyfloat)
    (parse_int : string -> option Z) (now : Q) (p : Persistence.Object) :
  Persistence.is_finite_float (Persistence.entry_price p) ->
  Persistence.is_finite_float (Persistence.qty p) ->
  Persistence.is_finite_float (Persistence.notional p) ->
  Persistence.is_float (Persistence.open_time p) ->
  Persistence.is_int (Persistence.pyramid_level p) ->
  Persistence.from_dict parse_float parse_int now (Persistence.to_dict p)
  = Persistence.ok p.
Proof.
  intros [e He] [q Hq] [n Hn] [t Ht] [l Hl].
  destruct p as [sy ep qt nt sd md ot sl t1 t2 pk ts lv]. cbn in *. subst.
  vm_compute. reflexivity.
Qed.

Lemma from_dict_to_dict_witness :
  Persistence.from_dict (fun _ => None) (fun _ => None) 0
    (Persistence.to_dict (position_object sample_long))
  = Persistence.ok (position_object sample_long).
Proof.
  apply (from_dict_to_dict (fun _ => None) (fun _ => None) 0
           (position_object sample_long)); eexists; reflexivity.
Defined.

(** ** What holds next to the three failures above *)

Section Nearby.

Variable cfg : Config.

(** The entry loop does respect the global cap: the number of open
    positions ends at most at MAX_OPEN_POSITIONS, or where it started. *)
Lemma open_loop_within_global_cap (i : Z) (equity : Q) (bars : gmap string Bar)
    (symbols : list string) :
  forall st : Backtester.Entries,
    Backtester.open_count st = Z.of_nat (size (Backtester.positions st)) ->
    (Backtester.can_open_more st = true ->
     (Backtester.open_count st < MAX_OPEN_POSITIONS cfg)%Z) ->
    (Z.of_nat (size (Backtester.positions
                       (Backtester.open_loop cfg i equity bars symbols st)))
     <= Z.max (Backtester.open_count st) (MAX_OPEN_POSITIONS cfg))%Z.
Proof.
  induction symbols as [|sym rest IH]; intros st Hc Hm; cbn [Backtester.open_loop].
  { lia. }
  destruct (Backtester.can_open_more st) eqn:Hcan; cbn [negb]; [|lia].
  specialize (Hm eq_refl).
  destruct (Backtester.positions st !! sym) as [p|] eqn:Hp;
    [apply IH; [assumption | intros _; assumption]|].
  destruct (bars !! sym) as [b|]; [|apply IH; [assumption | intros _; assumption]].
  destruct (Backtester.entry cfg i equity sym b) as [pos|];
    [|apply IH; [assumption | intros _; assumption]].
  match goal with |- context [Backtester.open_loop _ _ _ _ _ ?st'] =>
    specialize (IH st') end.
  cbn [Backtester.positions Backtester.open_count Backtester.can_open_more] in IH.
  etransitivity; [apply IH|lia].
  - rewrite map_size_insert_None by assumption. lia.
  - intros H. by apply Z.ltb_lt in H.
Qed.

(** In the backtest ledger the time stop is tied to the strategy name. *)
Lemma backtest_time_stop_iff (i : Z) (pos : PositionState) :
  Backtester.time_stop_hit cfg i pos = true <->
  (0 < MTF_MAX_BARS_IN_POSITION cfg)%Z /\ is_mtf_strategy cfg = true
  /\ (MTF_MAX_BARS_IN_POSITION cfg <= age_bars i pos)%Z.
Proof.
  unfold Backtester.time_stop_hit. rewrite !andb_true_iff, Z.ltb_lt, Z.leb_le.
  tauto.
Qed.

(** A refused full close leaves the position as it was and alerts. *)
Lemma live_refused_close_keeps_position (sym : string) (pos : PositionState)
    (price_ : Q) (reason : string) (rest : list bool) (r : LiveRunner.Runner) :
  LiveRunner.broker r = true -> 0 < qty pos ->
  LiveRunner.exchange r = false :: rest ->
  let r' := LiveRunner._close_position_live sym pos price_ reason r in
  LiveRunner.positions r' = LiveRunner.positions r
  /\ LiveRunner.state_positions r' = LiveRunner.state_positions r
  /\ LiveRunner.orders r' = LiveRunner.orders r
  /\ LiveRunner.notices r'
     = LiveRunner.notices r ++ [LiveRunner.notify_order_error sym (side pos) (qty pos)].
Proof.
  intros Hb Hq Hx. unfold LiveRunner._close_position_live.
  rewrite Hb, (proj2 (Qleb_gt _ _) Hq). cbn [negb].
  unfold LiveRunner.create_market_order. rewrite Hx. runner_simpl.
  repeat split.
Qed.

End Nearby.

(** ** The scenarios of the specification, run on the model *)

(** Scenario A: equity 5000, price 100, ATR 2 and a stop multiplier of 5 give
    a stop distance of 10%, a notional of 500 and a quantity of 5; the long
    opens with its stop at 90 and its first target at 120. *)
Example scenario_sizing :
  let r := RiskManager.calc_futures_size_from_risk default_config 5000 100
             (5 * 2 / 100 * 100) None None in
  r.1 == 500 /\ r.2 == 5.
Proof. vm_compute. split; reflexivity. Qed.

Example scenario_entry :
  match Backtester.entry default_config 200 5000 "BTCUSDT" buy_bar with
  | Some pos =>
      side pos = "long" /\ qty pos == 5
      /\ (exists sl t, stop_loss pos = Some sl /\ tp1 pos = Some t /\ sl == 90 /\ t == 120)
      /\ trailing_stop pos = None /\ pyramid_level pos = 0%Z
  | None => False
  end.
Proof. vm_compute. repeat split. do 2 eexists. repeat split. Qed.

(** Scenario B: the sample long sits through 105 and 95 and is stopped at
    89 with a loss. *)
Example scenario_stop_loss :
  Backtester.follow default_config 1 [quiet_bar 105; quiet_bar 95; quiet_bar 89]
    5000 sample_long = [Backtester.StopLoss]
  /\ Backtester._close_position default_config 5000 sample_long 89 < 5000.
Proof. vm_compute. split; reflexivity. Qed.

(** Scenario C: the first target is taken, then a fall to the trailing
    level closes the rest. *)
Example scenario_trailing_exit :
  Backtester.follow default_config 1 [quiet_bar 125; quiet_bar 115]
    5000 sample_long = [Backtester.TP1; Backtester.TrailingStop].
Proof. vm_compute. reflexivity. Qed.

(** A frame with the breakout bar removed gives no signal, and the guard of
    the history length answers [None] on a short frame. *)
Example signal_none_without_breakout :
  MTFBreakoutStrategy.signal MTFBreakoutStrategy.default_params
    {| MTFBreakoutStrategy.columns := MTFBreakoutStrategy.columns breakout_frame;
       MTFBreakoutStrategy.rows := replicate 120 flat_row |} = None
  /\ MTFBreakoutStrategy.signal MTFBreakoutStrategy.default_params
       {| MTFBreakoutStrategy.columns := MTFBreakoutStrategy.columns breakout_frame;
          MTFBreakoutStrategy.rows := replicate 50 flat_row ++ [breakout_row] |} = None.
Proof. vm_compute. split; reflexivity. Qed.

(** Outside the typing assumptions of the round trip the record does not
    come back unchanged: an integer entry price is read back as a float, and
    a missing entry price raises. *)
Example from_dict_converts_int :
  let p := position_object sample_long in
  let d := <["entry_price" := Persistence.PyInt 100]> (Persistence.to_dict p) in
  (exists p', Persistence.from_dict (fun _ => None) (fun _ => None) 0 d = Persistence.ok p'
     /\ Persistence.entry_price p' = Persistence.PyFloat (Persistence.finite 100))
  /\ Persistence.from_dict (fun _ => None) (fun _ => None) 0
       (delete "entry_price" (Persistence.to_dict p))
     = Persistence.raised Persistence.KeyError.
Proof. vm_compute. split; [eexists; split; reflexivity | reflexivity]. Qed.

(** * Further properties of the code *)

(** ** Quantities and sizes *)

Section Quantisation.

Lemma round_down_floor (value step : Q) :
  0 < step -> round_down value step = inject_Z (Qfloor (value / step)) * step.
Proof. intros Hs. unfold round_down. by rewrite (proj2 (Qleb_gt _ _) Hs). Qed.




Lemma calc_size_grid (cfg : Config) (notional price : Q) :
  let r := RiskManager.calc_size cfg notional price in
  r = (0, 0) \/
  (0 < price /\ 0 < notional /\ 0 < r.2 /\ r.1 == r.2 * price
   /\ MIN_NOTIONAL_USDT cfg <= r.1
   /\ (0 < QTY_STEP cfg -> exists k : Z, r.2 == inject_Z k * QTY_STEP cfg)).
Proof.
  unfold RiskManager.calc_size.
  destruct ((price <=? 0) || (notional <=? 0)) eqn:Hg; [by left|].
  apply orb_false_elim in Hg as [Hp Hn]. apply Qleb_gt in Hp, Hn.
  set (n := Qmax notional (MIN_NOTIONAL_USDT cfg)).
  destruct (round_down (n / price) (QTY_STEP cfg) <=? 0) eqn:Hq; [by left|].
  destruct (round_down (n / price) (QTY_STEP cfg) * price <? MIN_NOTIONAL_USDT cfg)
    eqn:Hm; [by left|].
  right. cbn [fst snd]. apply Qleb_gt in Hq. apply Qltb_ge in Hm.
  repeat split; try assumption; try reflexivity.
  intros Hs. exists (Qfloor (n / price / QTY_STEP cfg)).
  by rewrite (round_down_floor _ _ Hs).
Qed.

(** X2.  The sizer fails soft and never answers half-way: whatever it is
    given, the optional arguments left out or not, [calc_futures_size_from_risk]
    returns (0, 0), or else equity, price, stop distance, risk share and
    leverage were all positive and the pair is usable: a positive quantity
    that is a whole multiple of the quantity step, with notional =
    qty × price at or above the exchange minimum. *)
Theorem calc_futures_size_from_risk_total (cfg : Config)
    (equity price stop_distance_pct : Q)
    (risk_per_trade : option Q) (leverage : option Z) :
  let r := RiskManager.calc_futures_size_from_risk cfg equity price stop_distance_pct
             risk_per_trade leverage in
  r = (0, 0) \/
  (0 < equity /\ 0 < price /\ 0 < stop_distance_pct
   /\ 0 < default (RISK_PER_TRADE cfg) risk_per_trade
   /\ (0 < default (FUTURES_LEVERAGE_DEFAULT cfg) leverage)%Z
   /\ 0 < r.2 /\ r.1 == r.2 * price /\ MIN_NOTIONAL_USDT cfg <= r.1
   /\ (0 < QTY_STEP cfg -> exists k : Z, r.2 == inject_Z k * QTY_STEP cfg)).
Proof.
  unfold RiskManager.calc_futures_size_from_risk.
  set (rpt := default (RISK_PER_TRADE cfg) risk_per_trade).
  set (lev := default (FUTURES_LEVERAGE_DEFAULT cfg) leverage).
  destruct ((equity <=? 0) || (price <=? 0) || (stop_distance_pct <=? 0)
            || (rpt <=? 0) || (lev <=? 0)%Z) eqn:Hg; [by left|].
  apply orb_false_elim in Hg as [Hg Hl]. apply orb_false_elim in Hg as [Hg Hr].
  apply orb_false_elim in Hg as [Hg Hs]. apply orb_false_elim in Hg as [He Hp].
  match goal with |- context [RiskManager.calc_size cfg ?n price] =>
    destruct (calc_size_grid cfg n price) as [Hz | (_ & _ & Hq & Hc & Hm & Hk)] end;
    [by left|right].
  repeat split; try assumption; try (by apply Qleb_gt).
  by apply Z.leb_gt.
Qed.

End Quantisation.

Section RiskBudget.

Variable cfg : Config.




End RiskBudget.


(** ** The broker: quantities and retries *)

Section Broker.

Import LiveFuturesBroker.

Lemma py_int_floor (x : Q) : 0 <= x -> py_int x = Qfloor x.
Proof.
  intros Hx. destruct x as [n d]. unfold py_int, Qfloor. cbn [Qnum Qden].
  apply Z.quot_div_nonneg; [|lia].
  unfold Qle in Hx. cbn in Hx. lia.
Qed.

(** X4.  The two quantisers of the code agree: on a quantity that is not
    negative the broker's [_adjust_qty], which cuts with [int], returns what
    [round_down] of [utils.py], which cuts with [math.floor], returns for
    the step of the symbol (the quantity itself when the step is not
    positive). *)
Theorem adjust_qty_is_round_down (info : gmap string SymbolInfo) (sym : string)
    (i : SymbolInfo) (qty : Q) :
  info !! sym = Some i -> 0 <= qty ->
  _adjust_qty info sym qty = round_down qty (step_size i).
Proof.
  intros Hi Hq. unfold _adjust_qty, round_down. rewrite Hi.
  destruct (step_size i <=? 0) eqn:Hs; [reflexivity|].
  apply Qleb_gt in Hs. rewrite py_int_floor; [reflexivity|].
  apply Qle_shift_div_l; lra.
Qed.


End Broker.

Lemma adjust_qty_is_round_down_witness :
  LiveFuturesBroker._adjust_qty sample_symbols_info "BTCUSDT" (12345 # 10000)
  = round_down (12345 # 10000) (1 # 1000).
Proof.
  apply (adjust_qty_is_round_down sample_symbols_info "BTCUSDT"
           {| LiveFuturesBroker.min_qty := 1 # 1000;
              LiveFuturesBroker.step_size := 1 # 1000;
              LiveFuturesBroker.min_notional := 5 |} (12345 # 10000));
    [reflexivity | discriminate].
Defined.

Section Retry.

Import LiveFuturesBroker.

Context {A : Type}.
Variable max_retries : Z.
Variables base_delay max_delay : Q.
Variable func : Z -> option A.
Variable random : Z -> Q.

(** The loop from any point on: it ends within the attempts that are left. *)
Lemma call_loop_ends (fuel : nat) :
  forall (a : Z) (s : list Q),
    (Z.max 1 (max_retries - a) <= Z.of_nat fuel)%Z ->
    exists c,
      _call_loop max_retries base_delay max_delay func random fuel a s = Some c
      /\ (a + 1 <= attempt c <= Z.max (a + 1) max_retries)%Z
      /\ result c = func (attempt c)
      /\ (forall k, (a < k < attempt c)%Z -> func k = None)
      /\ (result c = None -> attempt c = Z.max (a + 1) max_retries)
      /\ Z.of_nat (length (slept c)) = (Z.of_nat (length s) + (attempt c - a - 1))%Z.
Proof.
  induction fuel as [|fuel IH]; intros a s Hf; [lia|].
  cbn [_call_loop].
  destruct (func (a + 1)%Z) as [res|] eqn:Hres.
  { eexists. split; [reflexivity|]. cbn [attempt result slept].
    split; [lia|]. split; [by rewrite Hres|]. split; [intros k Hk; lia|].
    split; [discriminate | lia]. }
  destruct (max_retries <=? a + 1)%Z eqn:Hm.
  { apply Z.leb_le in Hm.
    eexists. split; [reflexivity|]. cbn [attempt result slept].
    split; [lia|]. split; [by rewrite Hres|]. split; [intros k Hk; lia|].
    split; [intros _; lia | lia]. }
  apply Z.leb_gt in Hm.
  match goal with |- context [_call_loop _ _ _ _ _ fuel ?a' ?s'] =>
    destruct (IH a' s') as (c & Hc & Hat & Hr & Hfail & Hnone & Hlen) end; [lia|].
  exists c. split; [exact Hc|]. split; [lia|]. split; [exact Hr|].
  split.
  - intros k Hk. destruct (decide (k = a + 1)%Z) as [-> | Hne]; [exact Hres|].
    apply Hfail. lia.
  - split; [intros Hn; specialize (Hnone Hn); lia|].
    rewrite Hlen, length_app. cbn [length]. lia.
Qed.

(** X6.  [_call] ends: with enough rounds for max(1, max_retries) attempts
    it returns the value of the first attempt that does not raise, having
    made no attempt after it, or re-raises after exactly max(1, max_retries)
    failed attempts; it sleeps once between two attempts. *)
Theorem call_returns_first_success (fuel : nat) :
  (Z.max 1 max_retries <= Z.of_nat fuel)%Z ->
  exists c,
    _call max_retries base_delay max_delay func random fuel = Some c
    /\ (1 <= attempt c <= Z.max 1 max_retries)%Z
    /\ result c = func (attempt c)
    /\ (forall k, (1 <= k < attempt c)%Z -> func k = None)
    /\ (result c = None -> attempt c = Z.max 1 max_retries)
    /\ Z.of_nat (length (slept c)) = (attempt c - 1)%Z.
Proof.
  intros Hf. unfold _call.
  destruct (call_loop_ends fuel 0 []) as (c & Hc & Hat & Hr & Hfail & Hnone & Hlen).
  { rewrite Z.sub_0_r. exact Hf. }
  exists c. cbn [length] in Hlen.
  split; [exact Hc|]. split; [lia|]. split; [exact Hr|].
  split; [intros k Hk; apply Hfail; lia|]. split; [intros Hn; rewrite (Hnone Hn); lia | lia].
Qed.

Hypothesis base_delay_nonneg : 0 <= base_delay.
Hypothesis max_delay_nonneg : 0 <= max_delay.
Hypothesis random_unit : forall k, 0 <= random k /\ random k < 1.

Lemma backoff_nonneg (k : nat) : 0 <= backoff base_delay max_delay k.
Proof.
  unfold backoff. apply Q.min_glb; [|assumption].
  apply Qmult_le_0_compat; [assumption|].
  change 0 with (inject_Z 0). rewrite <- Zle_Qle. apply Z.pow_nonneg. lia.
Qed.

Lemma call_loop_backoff (fuel : nat) :
  forall (a : nat) (s : list Q) (c : Called),
    length s = a ->
    (forall k x, s !! k = Some x ->
       backoff base_delay max_delay k <= x
       /\ x <= backoff base_delay max_delay k * (12 # 10)) ->
    _call_loop max_retries base_delay max_delay func random fuel (Z.of_nat a) s = Some c ->
    forall k x, slept c !! k = Some x ->
      backoff base_delay max_delay k <= x
      /\ x <= backoff base_delay max_delay k * (12 # 10).
Proof.
  induction fuel as [|fuel IH]; intros a s c Hlen Hs; [discriminate|].
  cbn [_call_loop].
  destruct (func (Z.of_nat a + 1)%Z) as [res|]; [intros [= <-]; exact Hs|].
  destruct (max_retries <=? Z.of_nat a + 1)%Z; [intros [= <-]; exact Hs|].
  replace (Z.of_nat a + 1)%Z with (Z.of_nat (S a)) by lia.
  apply IH; [rewrite length_app; cbn [length]; lia|].
  intros k x Hk. apply lookup_app_Some in Hk as [Hk | [Hge Hk]]; [by apply Hs|].
  apply list_lookup_singleton_Some in Hk as [Hk <-].
  assert (k = a) as -> by lia.
  replace (Z.of_nat (S a) - 1)%Z with (Z.of_nat a) by lia.
  fold (backoff base_delay max_delay a).
  assert (Hb := backoff_nonneg a).
  destruct (random_unit (Z.of_nat (S a))) as [Hr0 Hr1].
  split; nra.
Qed.

(** X7.  The pauses of [_call] back off exponentially under a cap: with
    delays that are not negative and jitter draws between 0 and 1, as
    [random.random()] gives them, the pause after the failure number k + 1
    lies between min(base_delay · 2^k, max_delay)
    and 1.2 times that, so no pause is longer than 1.2 · max_delay. *)
Theorem call_backoff_bounded (fuel : nat) (c : Called) :
  _call max_retries base_delay max_delay func random fuel = Some c ->
  forall k x, slept c !! k = Some x ->
    backoff base_delay max_delay k <= x
    /\ x <= backoff base_delay max_delay k * (12 # 10)
    /\ x <= max_delay * (12 # 10).
Proof.
  intros Hc k x Hk.
  destruct (call_loop_backoff fuel 0 [] c eq_refl) with (k := k) (x := x)
    as [H1 H2]; try assumption.
  { intros k' x' H. by rewrite lookup_nil in H. }
  split; [exact H1|]. split; [exact H2|].
  assert (Hm : backoff base_delay max_delay k <= max_delay) by apply Q.le_min_r. nra.
Qed.

End Retry.

Lemma call_returns_first_success_witness :
  exists c,
    LiveFuturesBroker._call 5 1 8 flaky (fun _ => 1 # 2) 5 = Some c
    /\ (1 <= LiveFuturesBroker.attempt c <= Z.max 1 5)%Z
    /\ LiveFuturesBroker.result c = flaky (LiveFuturesBroker.attempt c)
    /\ (forall k, (1 <= k < LiveFuturesBroker.attempt c)%Z -> flaky k = None)
    /\ (LiveFuturesBroker.result c = None -> LiveFuturesBroker.attempt c = Z.max 1 5)
    /\ Z.of_nat (length (LiveFuturesBroker.slept c)) = (LiveFuturesBroker.attempt c - 1)%Z.
Proof.
  apply (call_returns_first_success 5 1 8 flaky (fun _ => 1 # 2) 5). vm_compute.
  discriminate.
Defined.

Lemma call_backoff_bounded_witness :
  exists c,
    LiveFuturesBroker._call 5 1 8 flaky (fun _ => 1 # 2) 5 = Some c
    /\ forall k x, LiveFuturesBroker.slept c !! k = Some x ->
         backoff 1 8 k <= x /\ x <= backoff 1 8 k * (12 # 10) /\ x <= 8 * (12 # 10).
Proof.
  eexists. split; [vm_compute; reflexivity|].
  apply (call_backoff_bounded 5 1 8 flaky (fun _ => 1 # 2)) with (fuel := 5%nat);
    [discriminate | discriminate | intros k; split; [discriminate | reflexivity]
    | vm_compute; reflexivity].
Defined.

(** ** The backtest ledger *)

Section Ledger.

Variable cfg : Config.

(** X8.  Partial closes cost nothing extra in the ledger: closing a
    fraction of a position and then the rest at the same price leaves the
    balance that closing the whole position at that price leaves, the fees
    being proportional to the quantity closed. *)
Theorem partial_then_full_close (balance price fraction : Q) (pos : PositionState) :
  0 < qty pos -> 0 < fraction -> fraction < 1 ->
  let r := Backtester._close_fraction cfg balance pos price fraction in
  Backtester._close_position cfg r.1 r.2 price
  == Backtester._close_position cfg balance pos price.
Proof.
  intros Hq Hf0 Hf1. unfold Backtester._close_fraction.
  rewrite (proj2 (Qleb_gt _ _) Hf0), (proj2 (Qleb_gt _ _) Hf1),
    (proj2 (Qleb_gt _ _) Hq).
  assert (Hc : 0 < qty pos * fraction) by nra.
  rewrite (proj2 (Qleb_gt _ _) Hc).
  assert (Hrem : 0 < qty pos - qty pos * fraction) by nra.
  rewrite (proj2 (Qltb_ge _ _) (Qlt_le_weak _ _ Hrem)).
  cbn [orb fst snd]. unfold Backtester._close_position, is_long. pos_simpl.
  rewrite (proj2 (Qleb_gt _ _) Hrem), (proj2 (Qleb_gt _ _) Hq).
  destruct (String.eqb (side pos) "long"); ring.
Qed.

Lemma same_identity_refl (p : PositionState) : same_identity p p.
Proof. repeat split. Qed.

Lemma same_identity_trans (p1 p2 p3 : PositionState) :
  same_identity p1 p2 -> same_identity p2 p3 -> same_identity p1 p3.
Proof.
  intros (H1 & H2 & H3 & H4 & H5) (H1' & H2' & H3' & H4' & H5').
  repeat split; congruence.
Qed.

(** A partial close in the ledger: the record is left alone, or shrunk to
    what is not closed. *)
Lemma backtest_close_fraction_shape (balance price fraction : Q) (pos : PositionState) :
  let r := Backtester._close_fraction cfg balance pos price fraction in
  ((qty pos <= 0 \/ fraction <= 0 \/ 1 <= fraction) /\ r = (balance, pos))
  \/ (0 < qty pos /\ 0 < fraction /\ fraction < 1
      /\ exists q', r.2 = set_notional (entry_price pos * q') (set_qty q' pos)
           /\ q' == qty pos - qty pos * fraction
           /\ r.1 - balance
              == net_pnl (side pos) (entry_price pos) price (qty pos * fraction)
                   (FUTURES_FEE_RATE cfg)).
Proof.
  unfold Backtester._close_fraction.
  destruct ((fraction <=? 0) || (1 <=? fraction) || (qty pos <=? 0)) eqn:Hg.
  { left. split; [|reflexivity].
    apply orb_prop in Hg as [Hg | Hg]; [apply orb_prop in Hg as [Hg | Hg]|];
      apply Qleb_le in Hg; auto. }
  apply orb_false_elim in Hg as [Hg Hq]. apply orb_false_elim in Hg as [Hf0 Hf1].
  apply Qleb_gt in Hq, Hf0, Hf1.
  assert (Hc : 0 < qty pos * fraction) by nra.
  rewrite (proj2 (Qleb_gt _ _) Hc). right.
  assert (Hrem : 0 <= qty pos - qty pos * fraction) by nra.
  rewrite (proj2 (Qltb_ge _ _) Hrem). cbn [fst snd].
  split; [assumption|]. split; [assumption|]. split; [assumption|].
  eexists. split; [reflexivity|]. split; [reflexivity|].
  unfold net_pnl, is_long. destruct (String.eqb (side pos) "long"); ring.
Qed.

(** The first-target block of the ledger. *)
Lemma backtest_tp1_block_shape (balance price atr : Q) (pos : PositionState) :
  0 <= qty pos ->
  let r := Backtester.tp1_block cfg balance pos price atr in
  same_identity pos r.1.2 /\ 0 <= qty r.1.2 /\ qty r.1.2 <= qty pos
  /\ (r.2 = false -> r.1 = (balance, pos))
  /\ (r.2 = true ->
      tp1 r.1.2 = None /\ stop_loss r.1.2 = Some (entry_price pos)
      /\ (exists ts, trailing_stop r.1.2 = Some ts
            /\ if is_long pos then price - ATR_TS_MULT cfg * atr <= ts
               else ts <= price + ATR_TS_MULT cfg * atr)
      /\ (0 < qty pos ->
          qty r.1.2 == qty pos * (1 # 2)
          /\ notional r.1.2 == entry_price pos * qty r.1.2
          /\ r.1.1 - balance
             == net_pnl (side pos) (entry_price pos) price (qty pos * (1 # 2))
                  (FUTURES_FEE_RATE cfg))).
Proof.
  intros Hq0. unfold Backtester.tp1_block.
  assert (Hidle : forall b p, (b, p, false) = (balance, pos, false) -> True) by auto.
  destruct (tp1 pos) as [t|];
    [|cbn [fst snd]; split; [apply same_identity_refl|];
      split; [assumption|]; split; [lra|]; split; [auto | discriminate]].
  assert (Hcf := backtest_close_fraction_shape balance price (1 # 2) pos).
  cbv zeta in Hcf.
  assert (Hshape :
    forall p1 b1, Backtester._close_fraction cfg balance pos price (1 # 2) = (b1, p1) ->
      same_identity pos p1 /\ 0 <= qty p1 /\ qty p1 <= qty pos
      /\ entry_price p1 = entry_price pos
      /\ (0 < qty pos -> qty p1 == qty pos * (1 # 2)
                         /\ notional p1 == entry_price pos * qty p1
                         /\ b1 - balance == net_pnl (side pos) (entry_price pos) price
                                              (qty pos * (1 # 2)) (FUTURES_FEE_RATE cfg))).
  { intros p1 b1 E. rewrite E in Hcf. cbn [fst snd] in Hcf.
    destruct Hcf as [[Hno [= -> ->]] | (Hq & _ & _ & q' & -> & Hqq & Hb)].
    - split; [apply same_identity_refl|]. split; [assumption|]. split; [lra|].
      split; [reflexivity|]. intros Hq. exfalso.
      destruct Hno as [Hno | [Hno | Hno]]; lra.
    - pos_simpl. split; [repeat split|].
      split; [rewrite Hqq; lra|]. split; [rewrite Hqq; lra|].
      split; [reflexivity|]. intros _. split; [rewrite Hqq; ring|].
      split; [reflexivity | exact Hb]. }
  destruct (Backtester._close_fraction cfg balance pos price (1 # 2)) as [b1 p1].
  destruct (Hshape p1 b1 eq_refl) as (Hid & Hq1 & Hq2 & He & Hfill). clear Hshape Hcf.
  destruct (is_long pos) eqn:Hl; cbn [andb].
  - rewrite (is_long_not_short _ Hl). cbn [andb].
    destruct (t <=? price);
      [|cbn [fst snd]; split; [apply same_identity_refl|];
        split; [assumption|]; split; [lra|]; split; [auto | discriminate]].
    cbn [fst snd]. pos_simpl.
    assert (Hts : exists ts,
      trailing_stop
        match trailing_stop p1 with
        | Some ts => if ts <? price - ATR_TS_MULT cfg * atr
                     then set_trailing_stop (Some (price - ATR_TS_MULT cfg * atr))
                            (set_stop_loss (Some (entry_price p1)) p1)
                     else set_stop_loss (Some (entry_price p1)) p1
        | None => set_trailing_stop (Some (price - ATR_TS_MULT cfg * atr))
                    (set_stop_loss (Some (entry_price p1)) p1)
        end = Some ts /\ price - ATR_TS_MULT cfg * atr <= ts).
    { destruct (trailing_stop p1) as [ts|] eqn:Hts;
        [destruct (ts <? price - ATR_TS_MULT cfg * atr) eqn:Hlt|]; pos_simpl.
      - eexists. split; [reflexivity | lra].
      - exists ts. split; [exact Hts | by apply Qltb_ge].
      - eexists. split; [reflexivity | lra]. }
    destruct (trailing_stop p1) as [ts|];
      [destruct (ts <? price - ATR_TS_MULT cfg * atr)|]; pos_simpl;
      (split; [exact Hid|]); (split; [exact Hq1|]); (split; [exact Hq2|]);
      (split; [discriminate|]); intros _;
      (split; [reflexivity|]); (split; [by rewrite He|]); (split; [exact Hts | exact Hfill]).
  - destruct (is_short pos && (price <=? t));
      [|cbn [fst snd]; split; [apply same_identity_refl|];
        split; [assumption|]; split; [lra|]; split; [auto | discriminate]].
    cbn [fst snd]. pos_simpl.
    assert (Hts : exists ts,
      trailing_stop
        match trailing_stop p1 with
        | Some ts => if price + ATR_TS_MULT cfg * atr <? ts
                     then set_trailing_stop (Some (price + ATR_TS_MULT cfg * atr))
                            (set_stop_loss (Some (entry_price p1)) p1)
                     else set_stop_loss (Some (entry_price p1)) p1
        | None => set_trailing_stop (Some (price + ATR_TS_MULT cfg * atr))
                    (set_stop_loss (Some (entry_price p1)) p1)
        end = Some ts /\ ts <= price + ATR_TS_MULT cfg * atr).
    { destruct (trailing_stop p1) as [ts|] eqn:Hts;
        [destruct (price + ATR_TS_MULT cfg * atr <? ts) eqn:Hlt|]; pos_simpl.
      - eexists. split; [reflexivity | lra].
      - exists ts. split; [exact Hts | by apply Qltb_ge].
      - eexists. split; [reflexivity | lra]. }
    destruct (trailing_stop p1) as [ts|];
      [destruct (price + ATR_TS_MULT cfg * atr <? ts)|]; pos_simpl;
      (split; [exact Hid|]); (split; [exact Hq1|]); (split; [exact Hq2|]);
      (split; [discriminate|]); intros _;
      (split; [reflexivity|]); (split; [by rewrite He|]); (split; [exact Hts | exact Hfill]).
Qed.

(** The trailing block of the ledger touches the trailing stop only, and
    only to tighten it. *)
Lemma backtest_trailing_block_shape (price atr : Q) (pos : PositionState) :
  let r := Backtester.trailing_block cfg pos price atr in
  same_identity pos r.1 /\ qty r.1 = qty pos /\ notional r.1 = notional pos
  /\ stop_loss r.1 = stop_loss pos /\ tp1 r.1 = tp1 pos
  /\ (forall ts, trailing_stop pos = Some ts ->
        exists ts', trailing_stop r.1 = Some ts'
                    /\ if is_long pos then ts <= ts' else ts' <= ts).
Proof.
  unfold Backtester.trailing_block.
  destruct (trailing_stop pos) as [ts|] eqn:Hts;
    [|cbn [fst]; repeat split; discriminate].
  destruct (is_long pos) eqn:Hl.
  - destruct (ts <? price - ATR_TS_MULT cfg * atr) eqn:Hlt; cbn [fst]; pos_simpl;
      repeat split; intros ts0 [= <-].
    + eexists. split; [reflexivity|]. apply Qltb_lt in Hlt. lra.
    + exists ts. split; [assumption | lra].
  - destruct (price + ATR_TS_MULT cfg * atr <? ts) eqn:Hlt; cbn [fst]; pos_simpl;
      repeat split; intros ts0 [= <-].
    + eexists. split; [reflexivity|]. apply Qltb_lt in Hlt. lra.
    + exists ts. split; [assumption | lra].
Qed.

(** What one pass of the management block leaves of a position that stays
    open. *)
Lemma backtest_manage_position_shape (i : Z) (b : Bar) (balance : Q)
    (pos : PositionState) (balance' : Q) (pos' : PositionState)
    (ev : list Backtester.Exit) :
  0 <= qty pos ->
  Backtester.manage_position cfg i b balance pos = (balance', Some pos', ev) ->
  exists fired p1,
    Backtester.tp1_block cfg balance pos (bar_price b) (bar_atr b) = (balance', p1, fired)
    /\ pos' = (Backtester.trailing_block cfg p1 (bar_price b) (bar_atr b)).1
    /\ ev = if fired then [Backtester.TP1] else [].
Proof.
  intros Hq. unfold Backtester.manage_position.
  destruct (Backtester.stop_loss_hit pos (bar_price b)); [discriminate|].
  destruct (Backtester.tp1_block cfg balance pos (bar_price b) (bar_atr b))
    as [[b1 p1] fired].
  destruct (Backtester.trailing_block cfg p1 (bar_price b) (bar_atr b))
    as [p2 out] eqn:Etr.
  destruct out; [discriminate|].
  destruct (Backtester.time_stop_hit cfg i p2); [discriminate|].
  destruct (Backtester.reverse_hit p2 (bar_signal b)); [discriminate|].
  intros [= <- <- <-]. exists fired, p1. by rewrite Etr.
Qed.

(** X9.  The management block never adds to a position.  A position that
    stays open after a pass keeps its symbol, side, entry price, mode and
    opening time, and a quantity between 0 and the one before; the pass took
    no exit branch or the first target only; and when it took none, the
    balance, quantity, notional, stop loss and first target are untouched. *)
Theorem backtest_manage_never_adds (i : Z) (b : Bar) (balance : Q)
    (pos : PositionState) (balance' : Q) (pos' : PositionState)
    (ev : list Backtester.Exit) :
  0 <= qty pos ->
  Backtester.manage_position cfg i b balance pos = (balance', Some pos', ev) ->
  same_identity pos pos' /\ 0 <= qty pos' /\ qty pos' <= qty pos
  /\ (ev = [] \/ ev = [Backtester.TP1])
  /\ (ev = [] ->
      balance' = balance /\ qty pos' = qty pos /\ notional pos' = notional pos
      /\ stop_loss pos' = stop_loss pos /\ tp1 pos' = tp1 pos).
Proof.
  intros Hq H.
  destruct (backtest_manage_position_shape i b balance pos balance' pos' ev Hq H)
    as (fired & p1 & Htp & -> & ->).
  assert (H1 := backtest_tp1_block_shape balance (bar_price b) (bar_atr b) pos Hq).
  assert (H2 := backtest_trailing_block_shape (bar_price b) (bar_atr b) p1).
  cbv zeta in H1, H2. rewrite Htp in H1. cbn [fst snd] in H1.
  destruct H1 as (Hid1 & Hq1 & Hq1' & Hidle & _).
  destruct H2 as (Hid2 & Hq2 & Hn2 & Hs2 & Ht2 & _).
  split; [eapply same_identity_trans; eassumption|].
  rewrite Hq2, Hn2, Hs2, Ht2.
  split; [assumption|]. split; [assumption|].
  split; [destruct fired; auto|].
  destruct fired; [discriminate|]. intros _.
  specialize (Hidle eq_refl) as [= -> ->]. auto.
Qed.

(** X10.  What the first target does in the ledger, for a position that
    stays open: half of the quantity is closed at the bar's price and booked
    net of fees, the notional follows the quantity, the stop loss moves to
    the entry price, the first target is cleared, and a trailing stop is in
    place that is at least as tight as the bar's candidate
    price ∓ ATR × multiplier. *)
Theorem backtest_first_target_effect (i : Z) (b : Bar) (balance : Q)
    (pos : PositionState) (balance' : Q) (pos' : PositionState)
    (ev : list Backtester.Exit) :
  0 < qty pos ->
  Backtester.manage_position cfg i b balance pos = (balance', Some pos', ev) ->
  In Backtester.TP1 ev ->
  tp1 pos' = None /\ stop_loss pos' = Some (entry_price pos)
  /\ qty pos' == qty pos * (1 # 2)
  /\ notional pos' == entry_price pos * qty pos'
  /\ balance' - balance
     == net_pnl (side pos) (entry_price pos) (bar_price b) (qty pos * (1 # 2))
          (FUTURES_FEE_RATE cfg)
  /\ exists ts, trailing_stop pos' = Some ts
                /\ if is_long pos then bar_price b - ATR_TS_MULT cfg * bar_atr b <= ts
                   else ts <= bar_price b + ATR_TS_MULT cfg * bar_atr b.
Proof.
  intros Hq H Hin.
  destruct (backtest_manage_position_shape i b balance pos balance' pos' ev
              (Qlt_le_weak _ _ Hq) H) as (fired & p1 & Htp & -> & ->).
  destruct fired; [|destruct Hin].
  assert (H1 := backtest_tp1_block_shape balance (bar_price b) (bar_atr b) pos
                  (Qlt_le_weak _ _ Hq)).
  assert (H2 := backtest_trailing_block_shape (bar_price b) (bar_atr b) p1).
  cbv zeta in H1, H2. rewrite Htp in H1. cbn [fst snd] in H1.
  destruct H1 as (Hid1 & _ & _ & _ & Hfire).
  destruct (Hfire eq_refl) as (Ht & Hs & (ts & Hts & Hcand) & Hfill).
  destruct (Hfill Hq) as (Hq' & Hn' & Hb').
  destruct H2 as (Hid2 & Hq2 & Hn2 & Hs2 & Ht2 & Htr).
  rewrite Hq2, Hn2, Hs2, Ht2.
  repeat (split; [assumption|]).
  destruct (Htr ts Hts) as (ts' & Hts' & Hle).
  exists ts'. split; [exact Hts'|].
  assert (Hl : is_long p1 = is_long pos)
    by (apply is_long_same_side; apply Hid1).
  rewrite Hl in Hle. destruct (is_long pos); lra.
Qed.

End Ledger.

Lemma partial_then_full_close_witness :
  Backtester._close_position default_config
    (Backtester._close_fraction default_config 5000 sample_long 125 (1 # 2)).1
    (Backtester._close_fraction default_config 5000 sample_long 125 (1 # 2)).2 125
  == Backtester._close_position default_config 5000 sample_long 125.
Proof.
  apply (partial_then_full_close default_config 5000 125 (1 # 2) sample_long);
    reflexivity.
Defined.

Lemma backtest_manage_never_adds_witness :
  exists balance' pos' ev,
    Backtester.manage_position default_config 1 (quiet_bar 125) 5000 sample_long
    = (balance', Some pos', ev)
    /\ same_identity sample_long pos' /\ 0 <= qty pos' /\ qty pos' <= qty sample_long
    /\ (ev = [] \/ ev = [Backtester.TP1])
    /\ (ev = [] ->
        balance' = 5000 /\ qty pos' = qty sample_long
        /\ notional pos' = notional sample_long
        /\ stop_loss pos' = stop_loss sample_long /\ tp1 pos' = tp1 sample_long).
Proof.
  do 3 eexists. split; [vm_compute; reflexivity|].
  apply (backtest_manage_never_adds default_config 1 (quiet_bar 125) 5000 sample_long);
    [discriminate | vm_compute; reflexivity].
Defined.

Lemma backtest_first_target_effect_witness :
  exists balance' pos',
    tp1 pos' = None /\ stop_loss pos' = Some (entry_price sample_long)
    /\ qty pos' == qty sample_long * (1 # 2)
    /\ notional pos' == entry_price sample_long * qty pos'
    /\ balance' - 5000
       == net_pnl (side sample_long) (entry_price sample_long) 125
            (qty sample_long * (1 # 2)) (FUTURES_FEE_RATE default_config)
    /\ exists ts, trailing_stop pos' = Some ts
                  /\ if is_long sample_long
                     then 125 - ATR_TS_MULT default_config * 2 <= ts
                     else ts <= 125 + ATR_TS_MULT default_config * 2.
Proof.
  do 2 eexists.
  apply (backtest_first_target_effect default_config 1 (quiet_bar 125) 5000
           sample_long _ _ [Backtester.TP1]);
    [reflexivity | vm_compute; reflexivity | left; reflexivity].
Defined.

Section LedgerRun.

Variable cfg : Config.

Lemma backtest_eff_max_le_global : (Backtester.eff_max_positions cfg <= MAX_OPEN_POSITIONS cfg)%Z.
Proof. unfold Backtester.eff_max_positions. destruct (is_mtf_strategy cfg); lia. Qed.

(** The management loop opens nothing. *)
Lemma manage_all_size (i : Z) (bars : gmap string Bar) (symbols : list string) :
  forall (balance : Q) (positions : gmap string PositionState),
    (size (Backtester.manage_all cfg i bars symbols balance positions).2
     <= size positions)%nat.
Proof.
  unfold Backtester.manage_all.
  induction symbols as [|sym rest IH]; intros balance positions; cbn [foldl snd]; [lia|].
  destruct (positions !! sym) as [pos|] eqn:Hp; [|apply IH].
  destruct (bars !! sym) as [b|]; [|apply IH].
  destruct (bar_atr b <=? 0); [apply IH|].
  destruct (Backtester.manage_position cfg i b balance pos) as [[b' [p'|]] ev];
    (etransitivity; [apply IH|]).
  - rewrite map_size_insert_Some by eauto. lia.
  - rewrite map_size_delete_Some by eauto. lia.
Qed.

Lemma run_bar_within_global_cap (symbols : list string) (i : Z)
    (bars : gmap string Bar) (st : Backtester.Ledger) :
  (Z.of_nat (size (Backtester.ledger_positions (Backtester.run_bar cfg symbols i bars st)))
   <= Z.max (Z.of_nat (size (Backtester.ledger_positions st))) (MAX_OPEN_POSITIONS cfg))%Z.
Proof.
  unfold Backtester.run_bar.
  destruct (decide (bars = ∅)); [lia|].
  assert (Hm := manage_all_size i bars symbols (Backtester.balance st)
                  (Backtester.ledger_positions st)).
  destruct (Backtester.manage_all cfg i bars symbols (Backtester.balance st)
              (Backtester.ledger_positions st)) as [balance positions].
  cbn [snd] in Hm. cbn [Backtester.ledger_positions].
  match goal with |- context [Backtester.open_loop cfg i ?e bars symbols ?s] =>
    assert (Ho := open_loop_within_global_cap cfg i e bars symbols s) end.
  cbn [Backtester.positions Backtester.open_count Backtester.can_open_more] in Ho.
  etransitivity; [apply Ho|].
  - reflexivity.
  - intros H. apply Z.ltb_lt in H. assert (He := backtest_eff_max_le_global). lia.
  - lia.
Qed.

(** X11.  Over a whole backtest the number of open positions never
    exceeds the larger of MAX_OPEN_POSITIONS and the number the ledger
    started with: the management loop opens nothing and the entry loop stops
    at the global cap. *)
Theorem backtest_run_within_global_cap (symbols : list string)
    (frames : list (gmap string Bar)) :
  forall (i : Z) (st : Backtester.Ledger),
    (Z.of_nat (size (Backtester.ledger_positions
                       (Backtester.run_bars cfg symbols i frames st)))
     <= Z.max (Z.of_nat (size (Backtester.ledger_positions st)))
              (MAX_OPEN_POSITIONS cfg))%Z.
Proof.
  induction frames as [|bars rest IH]; intros i st; cbn [Backtester.run_bars]; [lia|].
  etransitivity; [apply IH|].
  assert (H := run_bar_within_global_cap symbols i bars st). lia.
Qed.

(** Closing a position costs its fees: the balance after the close is at
    most the balance plus the floating PnL. *)
Lemma close_position_le_floating (balance : Q) (pos : PositionState) (price : Q) :
  0 <= FUTURES_FEE_RATE cfg -> 0 <= qty pos -> 0 <= entry_price pos -> 0 <= price ->
  Backtester._close_position cfg balance pos price
  <= balance + Backtester.floating_pnl pos price
  /\ (FUTURES_FEE_RATE cfg == 0 ->
      Backtester._close_position cfg balance pos price
      == balance + Backtester.floating_pnl pos price).
Proof.
  intros Hf Hq He Hp. unfold Backtester._close_position, Backtester.floating_pnl.
  destruct (qty pos <=? 0) eqn:Hq0.
  - apply Qleb_le in Hq0. assert (Hz : qty pos == 0) by lra.
    destruct (is_long pos); rewrite Hz; split; intros; ring_simplify; lra.
  - assert (Hfee : 0 <= (entry_price pos * qty pos + price * qty pos) * FUTURES_FEE_RATE cfg).
    { apply Qmult_le_0_compat; [|assumption].
      assert (0 <= entry_price pos * qty pos) by (by apply Qmult_le_0_compat).
      assert (0 <= price * qty pos) by (by apply Qmult_le_0_compat). lra. }
    destruct (is_long pos); split; try lra; intros Hz; rewrite Hz; ring.
Qed.

Lemma close_all_fold (symbols : list string) (positions : gmap string PositionState)
    (bars : gmap string Bar) (curve : list Q) :
  0 <= FUTURES_FEE_RATE cfg ->
  (forall sym pos, positions !! sym = Some pos -> 0 <= qty pos /\ 0 <= entry_price pos) ->
  (forall sym b, bars !! sym = Some b -> 0 <= bar_price b) ->
  forall b1 b2,
    (b1 <= b2 ->
     Backtester.close_all cfg symbols (bar_price <$> bars)
       {| Backtester.balance := b1; Backtester.ledger_positions := positions;
          Backtester.equity_curve := curve |}
     <= Backtester.equity_of b2 symbols positions bars)
    /\ (FUTURES_FEE_RATE cfg == 0 -> b1 == b2 ->
        Backtester.close_all cfg symbols (bar_price <$> bars)
          {| Backtester.balance := b1; Backtester.ledger_positions := positions;
             Backtester.equity_curve := curve |}
        == Backtester.equity_of b2 symbols positions bars).
Proof.
  intros Hf Hpos Hbars. unfold Backtester.close_all, Backtester.equity_of.
  cbn [Backtester.balance Backtester.ledger_positions].
  induction symbols as [|sym rest IH]; intros b1 b2; cbn [foldl].
  { split; [auto | intros _; auto]. }
  rewrite lookup_fmap.
  destruct (positions !! sym) as [pos|] eqn:Hp; [|apply IH].
  destruct (bars !! sym) as [b|] eqn:Hb; cbn [fmap option_fmap option_map]; [|apply IH].
  destruct (Hpos _ _ Hp) as [Hq He]. specialize (Hbars _ _ Hb).
  destruct (close_position_le_floating b1 pos (bar_price b) Hf Hq He Hbars) as [Hle Heq].
  split.
  - intros H12. apply IH. lra.
  - intros Hz H12. apply IH; [assumption|]. rewrite (Heq Hz), H12. reflexivity.
Qed.

(** X13.  Liquidation never beats the mark-to-market equity.  With a fee
    rate, quantities, entry prices and last prices that are not negative,
    the balance after [run] closes everything at the last prices is at most
    the equity computed at those prices, and equal to it when the fee rate
    is zero. *)
Theorem liquidation_le_equity (symbols : list string) (st : Backtester.Ledger)
    (bars : gmap string Bar) :
  0 <= FUTURES_FEE_RATE cfg ->
  (forall sym pos, Backtester.ledger_positions st !! sym = Some pos ->
     0 <= qty pos /\ 0 <= entry_price pos) ->
  (forall sym b, bars !! sym = Some b -> 0 <= bar_price b) ->
  Backtester.close_all cfg symbols (bar_price <$> bars) st
  <= Backtester.equity_of (Backtester.balance st) symbols
       (Backtester.ledger_positions st) bars
  /\ (FUTURES_FEE_RATE cfg == 0 ->
      Backtester.close_all cfg symbols (bar_price <$> bars) st
      == Backtester.equity_of (Backtester.balance st) symbols
           (Backtester.ledger_positions st) bars).
Proof.
  intros Hf Hpos Hbars. destruct st as [bal positions curve].
  cbn [Backtester.balance Backtester.ledger_positions] in *.
  destruct (close_all_fold symbols positions bars curve Hf Hpos Hbars bal bal)
    as [Hle Heq].
  split; [apply Hle; lra | intros Hz; by apply Heq].
Qed.

(** X12.  The entry loop of the backtest never replaces an open position:
    a symbol that holds a position when the loop starts holds the very same
    position when it ends. *)
Theorem open_loop_keeps_open_positions (i : Z) (equity : Q) (bars : gmap string Bar)
    (symbols : list string) :
  forall (st : Backtester.Entries) (sym : string) (pos : PositionState),
    Backtester.positions st !! sym = Some pos ->
    Backtester.positions (Backtester.open_loop cfg i equity bars symbols st) !! sym
    = Some pos.
Proof.
  induction symbols as [|s rest IH]; intros st sym pos Hpos;
    cbn [Backtester.open_loop]; [exact Hpos|].
  destruct (Backtester.can_open_more st); cbn [negb]; [|exact Hpos].
  destruct (Backtester.positions st !! s) as [p|] eqn:Hs; [by apply IH|].
  destruct (bars !! s) as [b|]; [|by apply IH].
  destruct (Backtester.entry cfg i equity s b) as [new|]; [|by apply IH].
  apply IH. cbn [Backtester.positions].
  rewrite lookup_insert_ne; [exact Hpos|]. intros ->. congruence.
Qed.

End LedgerRun.

Lemma open_loop_keeps_open_positions_witness :
  Backtester.positions
    (Backtester.open_loop default_config 200 5000
       {["BTCUSDT" := buy_bar; "ETHUSDT" := buy_bar]} ["BTCUSDT"; "ETHUSDT"]
       {| Backtester.positions := {["BTCUSDT" := sample_long]};
          Backtester.open_count := 1; Backtester.can_open_more := true |})
  !! "BTCUSDT" = Some sample_long.
Proof.
  apply (open_loop_keeps_open_positions default_config 200 5000
           {["BTCUSDT" := buy_bar; "ETHUSDT" := buy_bar]} ["BTCUSDT"; "ETHUSDT"]).
  reflexivity.
Defined.

Lemma liquidation_le_equity_witness :
  Backtester.close_all default_config ["BTCUSDT"]
    (bar_price <$> {["BTCUSDT" := quiet_bar 110]}) holding_ledger
  <= Backtester.equity_of (Backtester.balance holding_ledger) ["BTCUSDT"]
       (Backtester.ledger_positions holding_ledger) {["BTCUSDT" := quiet_bar 110]}
  /\ (FUTURES_FEE_RATE default_config == 0 ->
      Backtester.close_all default_config ["BTCUSDT"]
        (bar_price <$> {["BTCUSDT" := quiet_bar 110]}) holding_ledger
      == Backtester.equity_of (Backtester.balance holding_ledger) ["BTCUSDT"]
           (Backtester.ledger_positions holding_ledger) {["BTCUSDT" := quiet_bar 110]}).
Proof.
  apply (liquidation_le_equity default_config ["BTCUSDT"] holding_ledger
           {["BTCUSDT" := quiet_bar 110]}).
  - discriminate.
  - intros sym pos H. cbn [holding_ledger Backtester.ledger_positions] in H.
    apply lookup_singleton_Some in H as [_ <-]. split; discriminate.
  - intros sym b H. apply lookup_singleton_Some in H as [_ <-]. discriminate.
Defined.

(** ** The report of a backtest *)

Section Drawdown.

Import BacktestReport.

Lemma decline_alt (a x : Q) : 0 < a -> decline a x == 100 - 100 * x / a.
Proof. intros Ha. unfold decline. field. lra. Qed.

Lemma decline_self (a : Q) : 0 < a -> decline a a == 0.
Proof. intros Ha. unfold decline. field. lra. Qed.

Lemma decline_nonneg (a x : Q) : 0 < a -> x <= a -> 0 <= decline a x.
Proof.
  intros Ha Hx. unfold decline.
  apply Qmult_le_0_compat; [|lra].
  apply Qle_shift_div_l; lra.
Qed.

Lemma decline_lt_100 (a x : Q) : 0 < a -> 0 < x -> decline a x < 100.
Proof.
  intros Ha Hx. rewrite decline_alt by assumption.
  assert (0 < 100 * x / a) by (apply Qlt_shift_div_l; lra). lra.
Qed.

Lemma decline_mono (a b x : Q) : 0 < a -> a <= b -> 0 <= x -> decline a x <= decline b x.
Proof.
  intros Ha Hab Hx. rewrite !decline_alt by lra.
  assert (H : 100 * x / b <= 100 * x / a).
  { apply Qle_shift_div_l; [lra|].
    assert (E : 100 * x / b * a == 100 * x * a / b) by (field; lra).
    rewrite E. apply Qle_shift_div_r; [lra|]. nra. }
  lra.
Qed.

(** The state of the loop after the points [pre]: [peak] is their largest
    value and [max_dd] their largest decline from an earlier point. *)
Lemma max_drawdown_loop_spec (rest : list Q) :
  forall (pre : list Q) (peak max_dd : Q),
    Forall (fun x => 0 < x) pre -> Forall (fun x => 0 < x) rest ->
    (exists k, pre !! k = Some peak) ->
    (forall k x, pre !! k = Some x -> x <= peak) ->
    0 <= max_dd -> max_dd < 100 ->
    (forall i j ei ej, (i <= j)%nat -> pre !! i = Some ei -> pre !! j = Some ej ->
       decline ei ej <= max_dd) ->
    (exists i j ei ej, (i <= j)%nat /\ pre !! i = Some ei /\ pre !! j = Some ej
                       /\ max_dd == decline ei ej) ->
    exists dd,
      _max_drawdown_loop peak max_dd rest = returns dd
      /\ 0 <= dd /\ dd < 100
      /\ (forall i j ei ej, (i <= j)%nat ->
            (pre ++ rest) !! i = Some ei -> (pre ++ rest) !! j = Some ej ->
            decline ei ej <= dd)
      /\ (exists i j ei ej, (i <= j)%nat /\ (pre ++ rest) !! i = Some ei
                            /\ (pre ++ rest) !! j = Some ej /\ dd == decline ei ej).
Proof.
  induction rest as [|x rest IH];
    intros pre peak max_dd Hpre Hrest [k Hk] Hmax Hd0 Hd100 Hbound Hatt.
  { cbn [_max_drawdown_loop]. rewrite app_nil_r. exists max_dd. auto. }
  apply Forall_cons in Hrest as [Hx Hrest].
  assert (Hpk : 0 < peak).
  { rewrite Forall_forall in Hpre. apply Hpre. eapply list_elem_of_lookup_2. exact Hk. }
  cbn [_max_drawdown_loop].
  set (peak' := if peak <? x then x else peak).
  assert (Hpk' : 0 < peak') by (unfold peak'; destruct (peak <? x); assumption).
  assert (Hge : peak <= peak' /\ x <= peak').
  { unfold peak'. destruct (peak <? x) eqn:E.
    - apply Qltb_lt in E. lra.
    - apply Qltb_ge in E. lra. }
  destruct Hge as [Hge1 Hge2].
  assert (Hnz : Qeq_bool peak' 0 = false).
  { apply not_true_is_false. intros E. apply Qeq_bool_iff in E. lra. }
  rewrite Hnz. fold (decline peak' x).
  set (max_dd' := if max_dd <? decline peak' x then decline peak' x else max_dd).
  assert (Hdd0 : 0 <= decline peak' x) by (by apply decline_nonneg).
  assert (Hdd100 : decline peak' x < 100) by (by apply decline_lt_100).
  assert (Hm' : max_dd <= max_dd' /\ decline peak' x <= max_dd').
  { unfold max_dd'. destruct (max_dd <? decline peak' x) eqn:E.
    - apply Qltb_lt in E. lra.
    - apply Qltb_ge in E. lra. }
  destruct Hm' as [Hm1 Hm2].
  assert (Hk' : exists k', (k' <= length pre)%nat /\ (pre ++ [x]) !! k' = Some peak').
  { unfold peak'. destruct (peak <? x).
    - exists (length pre). split; [lia|]. apply list_lookup_middle. reflexivity.
    - exists k. split; [apply Nat.lt_le_incl; eapply lookup_lt_Some; exact Hk|].
      by apply lookup_app_l_Some. }
  destruct Hk' as (k' & Hk'len & Hk').
  assert (Hmax' : forall n y, (pre ++ [x]) !! n = Some y -> y <= peak').
  { intros n y Hn. apply lookup_app_Some in Hn as [Hn | [_ Hn]].
    - specialize (Hmax _ _ Hn). lra.
    - apply list_lookup_singleton_Some in Hn as [_ <-]. exact Hge2. }
  destruct (IH (pre ++ [x]) peak' max_dd') as (dd & Hret & H0 & H100 & Hb & Ha).
  - apply Forall_app. split; [assumption|]. by apply Forall_singleton.
  - assumption.
  - eauto.
  - exact Hmax'.
  - unfold max_dd'. destruct (max_dd <? decline peak' x); assumption.
  - unfold max_dd'. destruct (max_dd <? decline peak' x); assumption.
  - intros i j ei ej Hij Hi Hj.
    apply lookup_app_Some in Hj as [Hj | [Hlen Hj]].
    + assert (Hi' : pre !! i = Some ei).
      { apply lookup_app_Some in Hi as [Hi | [Hlen' _]]; [exact Hi|].
        apply lookup_lt_Some in Hj. lia. }
      specialize (Hbound i j ei ej Hij Hi' Hj). lra.
    + apply list_lookup_singleton_Some in Hj as [_ <-].
      assert (Hei : 0 < ei).
      { assert (Hall : Forall (fun x => 0 < x) (pre ++ [x]))
          by (apply Forall_app; split; [assumption | by apply Forall_singleton]).
        rewrite Forall_forall in Hall. apply Hall.
        eapply list_elem_of_lookup_2. exact Hi. }
      eapply Qle_trans; [apply (decline_mono ei peak' x)|exact Hm2]; eauto; lra.
  - unfold max_dd'. destruct (max_dd <? decline peak' x).
    + exists k', (length pre), peak', x.
      split; [exact Hk'len|]. split; [exact Hk'|].
      split; [apply list_lookup_middle; reflexivity | reflexivity].
    + destruct Hatt as (i & j & ei & ej & Hij & Hi & Hj & E).
      exists i, j, ei, ej. split; [exact Hij|].
      split; [by apply lookup_app_l_Some|]. split; [by apply lookup_app_l_Some | exact E].
  - exists dd. rewrite <- app_assoc in Hb, Ha. cbn [app] in Hb, Ha. auto.
Qed.

(** X14.  On an equity curve of positive values [_max_drawdown] returns,
    without raising, the largest decline of the curve: a percentage in
    [0, 100) that is at least the fall (e_i − e_j) / e_i × 100 from any point
    to any later point, and that is the fall between two such points. *)
Theorem max_drawdown_is_largest_decline (equity : list Q) :
  equity <> [] -> Forall (fun x => 0 < x) equity ->
  exists dd,
    _max_drawdown equity = returns dd
    /\ 0 <= dd /\ dd < 100
    /\ (forall i j ei ej, (i <= j)%nat ->
          equity !! i = Some ei -> equity !! j = Some ej -> decline ei ej <= dd)
    /\ (exists i j ei ej, (i <= j)%nat /\ equity !! i = Some ei
                          /\ equity !! j = Some ej /\ dd == decline ei ej).
Proof.
  intros Hne Hall. destruct equity as [|x rest]; [congruence|].
  apply Forall_cons in Hall as [Hx Hrest].
  unfold _max_drawdown. cbn [_max_drawdown_loop].
  rewrite (proj2 (Qltb_ge x x)) by lra.
  assert (Hnz : Qeq_bool x 0 = false).
  { apply not_true_is_false. intros E. apply Qeq_bool_iff in E. lra. }
  rewrite Hnz. fold (decline x x).
  assert (Hs := decline_self x Hx).
  rewrite (proj2 (Qltb_ge 0 (decline x x))) by lra.
  apply (max_drawdown_loop_spec rest [x] x 0).
  - by apply Forall_singleton.
  - assumption.
  - by exists 0%nat.
  - intros k y Hk. apply list_lookup_singleton_Some in Hk as [_ <-]. lra.
  - lra.
  - lra.
  - intros i j ei ej _ Hi Hj.
    apply list_lookup_singleton_Some in Hi as [_ <-].
    apply list_lookup_singleton_Some in Hj as [_ <-]. lra.
  - exists 0%nat, 0%nat, x, x. repeat split; auto. by rewrite Hs.
Qed.

End Drawdown.

Lemma max_drawdown_is_largest_decline_witness :
  exists dd,
    BacktestReport._max_drawdown [100; 120; 90; 110] = BacktestReport.returns dd
    /\ 0 <= dd /\ dd < 100
    /\ (forall i j ei ej, (i <= j)%nat ->
          [100; 120; 90; 110] !! i = Some ei -> [100; 120; 90; 110] !! j = Some ej ->
          decline ei ej <= dd)
    /\ (exists i j ei ej, (i <= j)%nat /\ [100; 120; 90; 110] !! i = Some ei
                          /\ [100; 120; 90; 110] !! j = Some ej /\ dd == decline ei ej).
Proof.
  apply (max_drawdown_is_largest_decline [100; 120; 90; 110]); [discriminate|].
  repeat constructor.
Defined.

Section Report.

Import BacktestReport.

Variable cfg : Config.

Lemma equity_of_flat (balance : Q) (symbols : list string) (bars : gmap string Bar) :
  Backtester.equity_of balance symbols ∅ bars = balance.
Proof.
  unfold Backtester.equity_of.
  induction symbols as [|sym rest IH]; cbn [foldl]; [reflexivity|].
  by rewrite lookup_empty.
Qed.

Lemma run_bar_curve (symbols : list string) (i : Z) (bars : gmap string Bar)
    (st : Backtester.Ledger) :
  bars <> ∅ ->
  Backtester.equity_curve (Backtester.run_bar cfg symbols i bars st)
  = Backtester.equity_curve st
    ++ [Backtester.equity_of (Backtester.balance st) symbols
          (Backtester.ledger_positions st) bars].
Proof.
  intros Hne. unfold Backtester.run_bar.
  destruct (decide (bars = ∅)); [contradiction|].
  destruct (Backtester.manage_all cfg i bars symbols (Backtester.balance st)
              (Backtester.ledger_positions st)) as [balance positions].
  reflexivity.
Qed.

Lemma run_bars_curve (symbols : list string) (frames : list (gmap string Bar)) :
  forall (i : Z) (st : Backtester.Ledger),
    exists l, Backtester.equity_curve (Backtester.run_bars cfg symbols i frames st)
              = Backtester.equity_curve st ++ l.
Proof.
  induction frames as [|bars rest IH]; intros i st; cbn [Backtester.run_bars].
  { exists []. by rewrite app_nil_r. }
  destruct (IH (i + 1)%Z (Backtester.run_bar cfg symbols i bars st)) as [l Hl].
  rewrite Hl. unfold Backtester.run_bar.
  destruct (decide (bars = ∅)); [by exists l|].
  destruct (Backtester.manage_all cfg i bars symbols (Backtester.balance st)
              (Backtester.ledger_positions st)) as [balance positions].
  cbn [Backtester.equity_curve]. rewrite <- app_assoc. eauto.
Qed.

(** X15.  The report of [run] guards the ROI against an empty starting
    balance but not the drawdown: with INITIAL_BALANCE_USDT = 0 and at least
    two bars to go through, the equity curve starts at 0 and [run] ends in
    the ZeroDivisionError of [_max_drawdown] instead of returning. *)
Theorem run_raises_on_empty_balance (symbols : list string) (warmup : Z)
    (bars1 bars2 : gmap string Bar) (rest : list (gmap string Bar))
    (last_prices : gmap string Q) :
  symbols <> [] -> INITIAL_BALANCE_USDT cfg == 0 -> bars1 <> ∅ -> bars2 <> ∅ ->
  run cfg symbols warmup (bars1 :: bars2 :: rest) last_prices
  = raises ZeroDivisionError.
Proof.
  intros Hs Hz H1 H2. unfold run. destruct symbols as [|sym syms]; [congruence|].
  set (symbols := sym :: syms).
  set (st0 := {| Backtester.balance := INITIAL_BALANCE_USDT cfg;
                 Backtester.ledger_positions := ∅;
                 Backtester.equity_curve := [] |}).
  assert (Hcurve : exists e2 l,
    Backtester.equity_curve
      (Backtester.run_bars cfg symbols warmup (bars1 :: bars2 :: rest) st0)
    = INITIAL_BALANCE_USDT cfg :: e2 :: l).
  { cbn [Backtester.run_bars].
    set (st1 := Backtester.run_bar cfg symbols warmup bars1 st0).
    set (st2 := Backtester.run_bar cfg symbols (warmup + 1) bars2 st1).
    destruct (run_bars_curve symbols rest (warmup + 1 + 1)%Z st2) as [l Hl].
    rewrite Hl. subst st2. rewrite (run_bar_curve _ _ _ _ H2).
    subst st1. rewrite (run_bar_curve _ _ _ _ H1). subst st0.
    cbn [Backtester.equity_curve Backtester.balance Backtester.ledger_positions app].
    rewrite equity_of_flat. eauto. }
  destruct Hcurve as (e2 & l & ->).
  cbn [length Nat.ltb Nat.leb]. unfold _max_drawdown. cbn [_max_drawdown_loop].
  rewrite (proj2 (Qltb_ge _ _) (Qle_refl _)).
  rewrite (proj2 (Qeq_bool_iff _ _) Hz). reflexivity.
Qed.

End Report.

Lemma run_raises_on_empty_balance_witness :
  BacktestReport.run empty_balance_config ["BTCUSDT"] 200
    [{["BTCUSDT" := quiet_bar 100]}; {["BTCUSDT" := quiet_bar 101]}] ∅
  = BacktestReport.raises BacktestReport.ZeroDivisionError.
Proof.
  apply (run_raises_on_empty_balance empty_balance_config ["BTCUSDT"] 200
           {["BTCUSDT" := quiet_bar 100]} {["BTCUSDT" := quiet_bar 101]} [] ∅);
    [discriminate | reflexivity | apply insert_non_empty | apply insert_non_empty].
Defined.

(** ** The live runner: what a run keeps invariant *)

Ltac untouched_tac :=
  unfold untouched, guard_alerts in *; runner_simpl;
  rewrite ?List.filter_app, ?length_app;
  cbn [List.filter is_guard_alert length String.eqb Ascii.eqb Bool.eqb orb];
  repeat split; try reflexivity; try lia; try tauto.

Section LiveFrame.

Import LiveRunner.

Variable cfg : Config.

Lemma untouched_refl (r : Runner) : untouched r r.
Proof. repeat split. Qed.

Lemma untouched_trans (r1 r2 r3 : Runner) :
  untouched r1 r2 -> untouched r2 r3 -> untouched r1 r3.
Proof.
  intros (H1 & H2 & H3 & H4 & H5 & H6) (H1' & H2' & H3' & H4' & H5' & H6').
  repeat split; congruence.
Qed.

Lemma untouched_update (sym : string) (pos : option PositionState) (r : Runner) :
  untouched r (_update_position_state sym pos r).
Proof. destruct pos; untouched_tac. Qed.

Lemma untouched_assign (sym : string) (pos : PositionState) (r : Runner) :
  untouched r (assign sym pos r).
Proof. untouched_tac. Qed.

Lemma close_position_live_untouched (sym : string) (pos : PositionState) (price_ : Q)
    (reason : string) (r : Runner) :
  untouched r (_close_position_live sym pos price_ reason r).
Proof.
  unfold _close_position_live, create_market_order.
  destruct (broker r); cbn [negb]; [|untouched_tac].
  destruct (qty pos <=? 0); [untouched_tac|].
  destruct (exchange r) as [|[] rest]; untouched_tac.
Qed.

Lemma close_fraction_live_untouched (sym : string) (pos : PositionState)
    (price_ fraction : Q) (reason : string) (r : Runner) :
  untouched r (_close_fraction_live sym pos price_ fraction reason r).2.
Proof.
  unfold _close_fraction_live, create_market_order.
  destruct (broker r); cbn [negb]; [|untouched_tac].
  destruct ((qty pos <=? 0) || (fraction <=? 0) || (1 <=? fraction)); [untouched_tac|].
  destruct (qty pos * fraction <=? 0); [untouched_tac|].
  destruct (exchange r) as [|[] rest]; untouched_tac.
Qed.

Lemma tp1_block_untouched (sym : string) (c : Candle) (pos : PositionState) (r : Runner) :
  untouched r (tp1_block cfg sym c pos r).2.
Proof.
  unfold tp1_block.
  assert (H := close_fraction_live_untouched sym pos (price c) (1 # 2) "tp1" r).
  destruct (_close_fraction_live sym pos (price c) (1 # 2) "tp1" r) as [p0 r0].
  cbn [snd] in H.
  destruct (tp1 pos) as [t|]; [|apply untouched_refl].
  destruct (0 <? qty pos); [|apply untouched_refl].
  destruct (is_long pos && (t <=? price c));
    [cbn [snd]; eapply untouched_trans; [exact H | apply untouched_update]|].
  destruct (is_short pos && (price c <=? t));
    [cbn [snd]; eapply untouched_trans; [exact H | apply untouched_update]|].
  apply untouched_refl.
Qed.

Lemma trailing_block_untouched (sym : string) (c : Candle) (pos : PositionState)
    (r : Runner) :
  untouched r (trailing_block cfg sym c pos r).1.2.
Proof.
  unfold trailing_block.
  destruct (trailing_stop pos) as [ts|]; [|apply untouched_refl].
  destruct (0 <? qty pos); [|apply untouched_refl].
  destruct (is_long pos).
  - destruct (ts <? price c - ATR_TS_MULT cfg * atr c).
    + destruct (price c <=? price c - ATR_TS_MULT cfg * atr c); cbn [fst snd].
      * eapply untouched_trans; [apply untouched_assign
                                | apply close_position_live_untouched].
      * eapply untouched_trans; [apply untouched_assign | apply untouched_update].
    + destruct (price c <=? ts); cbn [fst snd];
        [apply close_position_live_untouched | apply untouched_update].
  - destruct (price c + ATR_TS_MULT cfg * atr c <? ts).
    + destruct (price c + ATR_TS_MULT cfg * atr c <=? price c); cbn [fst snd].
      * eapply untouched_trans; [apply untouched_assign
                                | apply close_position_live_untouched].
      * eapply untouched_trans; [apply untouched_assign | apply untouched_update].
    + destruct (ts <=? price c); cbn [fst snd];
        [apply close_position_live_untouched | apply untouched_update].
Qed.

Lemma manage_position_untouched (sym : string) (c : Candle) (pos : PositionState)
    (r : Runner) :
  untouched r (manage_position cfg sym c pos r).
Proof.
  unfold manage_position.
  destruct (stop_loss_hit pos (price c)); [apply close_position_live_untouched|].
  assert (H1 := tp1_block_untouched sym c pos r).
  destruct (tp1_block cfg sym c pos r) as [p1 r1]. cbn [snd] in H1.
  assert (H2 := trailing_block_untouched sym c p1 r1).
  destruct (trailing_block cfg sym c p1 r1) as [[p2 r2] done]. cbn [fst snd] in H2.
  assert (H12 := untouched_trans _ _ _ H1 H2).
  destruct done; [exact H12|].
  destruct (time_stop_hit cfg c p2);
    [eapply untouched_trans; [exact H12 | apply close_position_live_untouched]|].
  destruct (reverse_hit p2 (signal c));
    [eapply untouched_trans; [exact H12 | apply close_position_live_untouched]|].
  exact H12.
Qed.

End LiveFrame.

Section LiveGuards.

Import LiveRunner.

Variable cfg : Config.

Lemma open_position_keeps (sym : string) (c : Candle) (equity : Q) (r : Runner) :
  let r' := open_position cfg sym c equity r in
  broker r' = broker r /\ trading_disabled r' = trading_disabled r
  /\ equity_peak r' = equity_peak r /\ guard_alerts r' = guard_alerts r.
Proof.
  unfold open_position, create_market_order.
  destruct (signal c) as [sig|]; [|by repeat split].
  destruct (RiskManager.calc_futures_size_from_risk _ _ _ _ _ _) as [n q].
  case_ifs; try (by repeat split); runner_simpl; destruct (exchange r) as [|[] rest];
    untouched_tac.
Qed.

Lemma drawdown_guard_balance (equity : Q) (r : Runner) :
  let r' := drawdown_guard cfg equity r in
  broker r' = broker r /\ equity_peak r' = equity_peak r
  /\ alert_balance r' = alert_balance r.
Proof.
  unfold drawdown_guard, alert_balance.
  destruct ((0 <? HARD_MAX_DRAWDOWN_PCT cfg)
            && (HARD_MAX_DRAWDOWN_PCT cfg <=? drawdown_pct cfg equity r));
    [|by repeat split].
  destruct (trading_disabled r) eqn:Hd; untouched_tac.
Qed.

Lemma update_equity_peak_balance (equity : Q) (r : Runner) :
  let r' := update_equity_peak equity r in
  broker r' = broker r /\ alert_balance r' = alert_balance r.
Proof.
  unfold update_equity_peak, alert_balance.
  destruct (equity_peak r) as [cur|]; [destruct (cur <? equity)|]; untouched_tac.
Qed.

Lemma heartbeat_balance (syms : gset string) (r : Runner) :
  let r' := heartbeat cfg syms r in
  broker r' = broker r /\ equity_peak r' = equity_peak r
  /\ alert_balance r' = alert_balance r.
Proof.
  unfold heartbeat, alert_balance.
  destruct (decide (syms = _)); [by repeat split|].
  destruct (POSITION_MISMATCH_DISABLE cfg); cbn [andb]; [|by repeat split].
  destruct (trading_disabled r) eqn:Hd; cbn [negb]; [by rewrite Hd|].
  untouched_tac.
Qed.

Lemma untouched_balance (r r' : Runner) :
  untouched r r' -> alert_balance r' = alert_balance r.
Proof. intros (_ & Hd & _ & _ & _ & Ha). unfold alert_balance. by rewrite Hd, Ha. Qed.

(** A tick: the broker stays, the peak moves only by [update_equity_peak],
    and the flag and the alerts move together. *)
Lemma tick_guards (sym : string) (c : Candle) (r : Runner) :
  let r' := _run_strategy_if_ready cfg sym c r in
  broker r' = broker r
  /\ alert_balance r' = alert_balance r
  /\ equity_peak r'
     = if (price c <=? 0) || (atr c <=? 0) then equity_peak r
       else
         let equity := if broker r then default 0 (balance_usdt c) else 0 in
         if 0 <? equity then equity_peak (update_equity_peak equity r)
         else equity_peak r.
Proof.
  cbv zeta. rewrite run_strategy_if_ready_unfold.
  destruct ((price c <=? 0) || (atr c <=? 0)); [by repeat split|].
  set (equity := if broker r then default 0 (balance_usdt c) else 0).
  assert (Hg : broker (guarded cfg c r) = broker r
               /\ alert_balance (guarded cfg c r) = alert_balance r
               /\ equity_peak (guarded cfg c r)
                  = if 0 <? equity then equity_peak (update_equity_peak equity r)
                    else equity_peak r).
  { unfold guarded. fold equity.
    destruct (0 <? equity).
    - destruct (drawdown_guard_balance equity (update_equity_peak equity r))
        as (Hb & Hp & Ha).
      destruct (update_equity_peak_balance equity r) as (Hb' & Ha').
      repeat split; congruence.
    - destruct (drawdown_guard_balance equity r) as (Hb & Hp & Ha). auto. }
  destruct Hg as (Hb & Ha & Hp).
  destruct (positions (guarded cfg c r) !! sym) as [pos|].
  - assert (Hu := manage_position_untouched cfg sym c pos (guarded cfg c r)).
    rewrite (untouched_balance _ _ Hu).
    destruct Hu as (Hb' & _ & _ & _ & Hp' & _).
    repeat split; congruence.
  - destruct (open_position_keeps sym c equity (guarded cfg c r))
      as (Hb' & Hd' & Hp' & Ha').
    unfold alert_balance in *. cbv zeta in *.
    rewrite Hb', Hd', Hp', Ha'. auto.
Qed.

Lemma handle_guards (e : Event) (r : Runner) :
  broker (handle cfg e r) = broker r
  /\ alert_balance (handle cfg e r) = alert_balance r.
Proof.
  destruct e as [sym c | syms]; cbn [handle].
  - destruct (tick_guards sym c r) as (Hb & Ha & _). auto.
  - destruct (heartbeat_balance syms r) as (Hb & _ & Ha). auto.
Qed.

(** X21.  The guards alert exactly when the flag flips.  Over any run of
    candles and heartbeats the number of [notify_error] alerts of the
    drawdown guard (risk_guard) and the position check (position_mismatch),
    plus one while the trading-disabled flag is clear, stays what it was: an
    alert is sent when the flag goes from clear to set and at no other time,
    so a run sends at most one, and none once the flag is set. *)
Theorem live_alert_iff_flag_flips (events : list Event) (r : Runner) :
  let r' := run cfg events r in
  (guard_alerts r' + (if trading_disabled r' then 0 else 1)
   = guard_alerts r + (if trading_disabled r then 0 else 1))%nat.
Proof.
  cbv zeta. fold (alert_balance r). fold (alert_balance (run cfg events r)).
  unfold run. revert r.
  induction events as [|e rest IH]; intros r; cbn [foldl]; [reflexivity|].
  rewrite IH. apply handle_guards.
Qed.

(** The peak after [update_equity_peak]. *)
Lemma update_equity_peak_max (equity : Q) (r : Runner) :
  exists p', equity_peak (update_equity_peak equity r) = Some p'
             /\ equity <= p'
             /\ forall p, equity_peak r = Some p -> p <= p'.
Proof.
  unfold update_equity_peak.
  destruct (equity_peak r) as [cur|] eqn:Hp.
  - destruct (cur <? equity) eqn:Hlt; runner_simpl.
    + apply Qltb_lt in Hlt. exists equity. split; [reflexivity|].
      split; [lra|]. intros p [= <-]. lra.
    + apply Qltb_ge in Hlt. exists cur. split; [exact Hp|].
      split; [lra|]. intros p [= <-]. lra.
  - runner_simpl. exists equity. split; [reflexivity|]. split; [lra | discriminate].
Qed.

Lemma handle_peak_mono (e : Event) (r : Runner) (p : Q) :
  equity_peak r = Some p ->
  exists p', equity_peak (handle cfg e r) = Some p' /\ p <= p'.
Proof.
  intros Hp. destruct e as [sym c | syms]; cbn [handle].
  - destruct (tick_guards sym c r) as (_ & _ & ->).
    destruct ((price c <=? 0) || (atr c <=? 0)); [exists p; split; [assumption|lra]|].
    cbv zeta. destruct (0 <? _); [|exists p; split; [assumption|lra]].
    destruct (update_equity_peak_max (if broker r then default 0 (balance_usdt c) else 0) r)
      as (p' & Hp' & _ & Hm).
    exists p'. auto.
  - destruct (heartbeat_balance syms r) as (_ & -> & _). exists p. split; [assumption|lra].
Qed.

Lemma run_peak_mono (events : list Event) :
  forall (r : Runner) (p : Q),
    equity_peak r = Some p ->
    exists p', equity_peak (run cfg events r) = Some p' /\ p <= p'.
Proof.
  unfold run. induction events as [|e rest IH]; intros r p Hp; cbn [foldl].
  { exists p. split; [assumption | lra]. }
  destruct (handle_peak_mono e r p Hp) as (p1 & Hp1 & Hle1).
  destruct (IH _ _ Hp1) as (p2 & Hp2 & Hle2).
  exists p2. split; [assumption | lra].
Qed.

Lemma run_broker (events : list Event) :
  forall r : Runner, broker (run cfg events r) = broker r.
Proof.
  unfold run. induction events as [|e rest IH]; intros r; cbn [foldl]; [reflexivity|].
  rewrite IH. apply handle_guards.
Qed.

(** X22.  The stored equity peak is a running maximum.  Over any run it
    never falls, and with the broker up it ends at or above every positive
    balance that a processed candle (positive close and ATR) reported. *)
Theorem live_equity_peak_running_max (events : list Event) (r : Runner) :
  (forall p, equity_peak r = Some p ->
     exists p', equity_peak (run cfg events r) = Some p' /\ p <= p')
  /\ (broker r = true ->
      forall sym c e,
        In (kline_15m sym c) events ->
        0 < price c -> 0 < atr c -> balance_usdt c = Some e -> 0 < e ->
        exists p', equity_peak (run cfg events r) = Some p' /\ e <= p').
Proof.
  split; [apply run_peak_mono|].
  revert r. induction events as [|ev rest IH]; intros r Hb sym c e Hin Hp Ha Hbal He;
    [destruct Hin|].
  change (run cfg (ev :: rest) r) with (run cfg rest (handle cfg ev r)).
  destruct Hin as [-> | Hin].
  - cbn [handle].
    destruct (tick_guards sym c r) as (_ & _ & Hpk).
    rewrite (proj2 (Qleb_gt _ _) Hp), (proj2 (Qleb_gt _ _) Ha), Hb, Hbal in Hpk.
    cbn [orb default from_option] in Hpk. unfold id in Hpk. cbv zeta in Hpk.
    rewrite (proj2 (Qltb_lt _ _) He) in Hpk.
    destruct (update_equity_peak_max e r) as (p1 & Hp1 & Hle1 & _).
    rewrite Hp1 in Hpk.
    destruct (run_peak_mono rest _ _ Hpk) as (p2 & Hp2 & Hle2).
    exists p2. split; [assumption | lra].
  - apply (IH (handle cfg ev r)) with (sym := sym) (c := c); try assumption.
    rewrite (proj1 (handle_guards ev r)). exact Hb.
Qed.

End LiveGuards.

Ltac synced_tac :=
  unfold synced in *; runner_simpl; rewrite ?dom_insert_L, ?dom_delete_L;
  try congruence.

Section LiveSync.

Import LiveRunner.

Variable cfg : Config.

Lemma synced_update (sym : string) (pos : option PositionState) (r : Runner) :
  synced r -> synced (_update_position_state sym pos r).
Proof. intros H. destruct pos; synced_tac. Qed.

Lemma synced_assign (sym : string) (pos : PositionState) (r : Runner) :
  is_Some (positions r !! sym) -> synced r -> synced (assign sym pos r).
Proof.
  intros Hs H. synced_tac. rewrite <- H.
  apply elem_of_dom in Hs. apply set_eq. intros s.
  rewrite elem_of_union, elem_of_singleton. split; [|auto].
  intros [-> | Hin]; assumption.
Qed.

Lemma close_position_live_synced (sym : string) (pos : PositionState) (price_ : Q)
    (reason : string) (r : Runner) :
  synced r -> synced (_close_position_live sym pos price_ reason r).
Proof.
  intros H. unfold _close_position_live, create_market_order.
  destruct (broker r); cbn [negb]; [|synced_tac].
  destruct (qty pos <=? 0); [synced_tac|].
  destruct (exchange r) as [|[] rest]; synced_tac.
Qed.

Lemma close_fraction_live_synced (sym : string) (pos : PositionState)
    (price_ fraction : Q) (reason : string) (r : Runner) :
  synced r -> synced (_close_fraction_live sym pos price_ fraction reason r).2.
Proof.
  intros H. unfold _close_fraction_live, create_market_order.
  destruct (broker r); cbn [negb]; [|synced_tac].
  destruct ((qty pos <=? 0) || (fraction <=? 0) || (1 <=? fraction)); [synced_tac|].
  destruct (qty pos * fraction <=? 0); [synced_tac|].
  destruct (exchange r) as [|[] rest]; synced_tac.
Qed.

Lemma tp1_block_synced (sym : string) (c : Candle) (pos : PositionState) (r : Runner) :
  synced r -> synced (tp1_block cfg sym c pos r).2.
Proof.
  intros H. unfold tp1_block.
  assert (H1 := close_fraction_live_synced sym pos (price c) (1 # 2) "tp1" r H).
  destruct (_close_fraction_live sym pos (price c) (1 # 2) "tp1" r) as [p0 r0].
  cbn [snd] in H1.
  destruct (tp1 pos) as [t|]; [|exact H].
  destruct (0 <? qty pos); [|exact H].
  destruct (is_long pos && (t <=? price c)); [by apply synced_update|].
  destruct (is_short pos && (price c <=? t)); [by apply synced_update | exact H].
Qed.

Lemma trailing_block_synced (sym : string) (c : Candle) (pos : PositionState)
    (r : Runner) :
  is_Some (positions r !! sym) -> synced r ->
  synced (trailing_block cfg sym c pos r).1.2.
Proof.
  intros Hs H. unfold trailing_block.
  destruct (trailing_stop pos) as [ts|]; [|exact H].
  destruct (0 <? qty pos); [|exact H].
  destruct (is_long pos).
  - destruct (ts <? price c - ATR_TS_MULT cfg * atr c).
    + destruct (price c <=? price c - ATR_TS_MULT cfg * atr c); cbn [fst snd].
      * apply close_position_live_synced. by apply synced_assign.
      * apply synced_update. by apply synced_assign.
    + destruct (price c <=? ts); cbn [fst snd];
        [by apply close_position_live_synced | by apply synced_update].
  - destruct (price c + ATR_TS_MULT cfg * atr c <? ts).
    + destruct (price c + ATR_TS_MULT cfg * atr c <=? price c); cbn [fst snd].
      * apply close_position_live_synced. by apply synced_assign.
      * apply synced_update. by apply synced_assign.
    + destruct (ts <=? price c); cbn [fst snd];
        [by apply close_position_live_synced | by apply synced_update].
Qed.

Lemma manage_position_synced (sym : string) (c : Candle) (pos : PositionState)
    (r : Runner) :
  positions r !! sym = Some pos -> synced r ->
  synced (manage_position cfg sym c pos r).
Proof.
  intros Hpos H. unfold manage_position.
  destruct (stop_loss_hit pos (price c)); [by apply close_position_live_synced|].
  assert (H1 := tp1_block_synced sym c pos r H).
  destruct (live_tp1_block_effect cfg sym sym c pos r Hpos) as (_ & Hp1 & _).
  destruct (tp1_block cfg sym c pos r) as [p1 r1]. cbn [fst snd] in *.
  assert (Hs1 : is_Some (positions r1 !! sym))
    by (rewrite Hp1, lookup_insert_eq; eauto).
  assert (H2 := trailing_block_synced sym c p1 r1 Hs1 H1).
  destruct (trailing_block cfg sym c p1 r1) as [[p2 r2] done]. cbn [fst snd] in H2.
  destruct done; [exact H2|].
  destruct (time_stop_hit cfg c p2); [by apply close_position_live_synced|].
  destruct (reverse_hit p2 (signal c)); [by apply close_position_live_synced|].
  exact H2.
Qed.

Lemma open_position_synced (sym : string) (c : Candle) (equity : Q) (r : Runner) :
  synced r -> synced (open_position cfg sym c equity r).
Proof.
  intros H. unfold open_position, create_market_order.
  destruct (signal c) as [sig|]; [|exact H].
  destruct (RiskManager.calc_futures_size_from_risk _ _ _ _ _ _) as [n q].
  case_ifs; try exact H; runner_simpl; try (synced_tac; fail);
    destruct (exchange r) as [|[] rest]; synced_tac.
Qed.

Lemma guarded_state (c : Candle) (r : Runner) :
  positions (guarded cfg c r) = positions r
  /\ state_positions (guarded cfg c r) = state_positions r.
Proof.
  unfold guarded, drawdown_guard, update_equity_peak. case_ifs; runner_simpl; auto.
Qed.

Lemma tick_synced (sym : string) (c : Candle) (r : Runner) :
  synced r -> synced (_run_strategy_if_ready cfg sym c r).
Proof.
  intros H. rewrite run_strategy_if_ready_unfold.
  destruct ((price c <=? 0) || (atr c <=? 0)); [exact H|].
  assert (Hg : synced (guarded cfg c r)).
  { destruct (guarded_state c r) as [Hp Hs]. unfold synced. by rewrite Hp, Hs. }
  destruct (positions (guarded cfg c r) !! sym) as [pos|] eqn:Hpos.
  - by apply manage_position_synced.
  - by apply open_position_synced.
Qed.

Lemma heartbeat_synced (syms : gset string) (r : Runner) :
  synced r -> synced (heartbeat cfg syms r).
Proof. intros H. unfold heartbeat. case_ifs; synced_tac. Qed.

(** X20.  The cache and the state file never disagree on which symbols are
    held: if they hold positions for the same symbols before a run of
    candles and heartbeats, they do so after it, whatever the exchange
    answers to the orders. *)
Theorem live_cache_matches_state_file (events : list Event) (r : Runner) :
  synced r -> synced (run cfg events r).
Proof.
  unfold run. revert r.
  induction events as [|e rest IH]; intros r H; cbn [foldl]; [exact H|].
  apply IH. destruct e as [sym c | syms]; cbn [handle].
  - by apply tick_synced.
  - by apply heartbeat_synced.
Qed.

(** ** The cap on open positions *)

Lemma size_le_of_dom (m m' : gmap string PositionState) :
  (forall s, is_Some (m' !! s) -> is_Some (m !! s)) -> (size m' <= size m)%nat.
Proof.
  intros H. rewrite <- !size_dom. apply subseteq_size.
  intros s Hs. apply elem_of_dom. apply H. by apply elem_of_dom.
Qed.

Lemma open_position_size (sym : string) (c : Candle) (equity : Q) (r : Runner) :
  (Z.of_nat (size (positions (open_position cfg sym c equity r)))
   <= Z.max (Z.of_nat (size (positions r))) (eff_max_positions cfg))%Z.
Proof.
  unfold open_position, create_market_order.
  destruct (signal c) as [sig|]; [|lia].
  destruct (RiskManager.calc_futures_size_from_risk _ _ _ _ _ _) as [n q].
  destruct (trading_disabled r); [lia|].
  match goal with |- context [(eff_max_positions cfg <=? ?k)%Z] =>
    destruct (eff_max_positions cfg <=? k)%Z eqn:Hcap end.
  { case_ifs; runner_simpl; lia. }
  apply Z.leb_gt in Hcap.
  assert (Hcap' : (Z.of_nat (size (positions r)) < eff_max_positions cfg)%Z).
  { revert Hcap. case_ifs; runner_simpl; lia. }
  assert (Hins : forall pos,
    (Z.of_nat (size (<[sym := pos]> (positions r))) <= eff_max_positions cfg)%Z).
  { intros pos. rewrite map_size_insert. destruct (positions r !! sym); unfold id; lia. }
  case_ifs; runner_simpl; try lia;
    destruct (exchange r) as [|[] rest]; runner_simpl; try lia;
    (etransitivity; [apply Hins | lia]).
Qed.

Lemma tick_size (sym : string) (c : Candle) (r : Runner) :
  (Z.of_nat (size (positions (_run_strategy_if_ready cfg sym c r)))
   <= Z.max (Z.of_nat (size (positions r))) (eff_max_positions cfg))%Z.
Proof.
  rewrite run_strategy_if_ready_unfold.
  destruct ((price c <=? 0) || (atr c <=? 0)); [lia|].
  destruct (guarded_state c r) as [Hp _].
  destruct (positions (guarded cfg c r) !! sym) as [pos|] eqn:Hpos.
  - destruct (live_manage_position_effect cfg sym sym c pos _ Hpos) as (_ & Hf & _).
    assert (Hle : (size (positions (manage_position cfg sym c pos (guarded cfg c r)))
                   <= size (positions (guarded cfg c r)))%nat).
    { apply size_le_of_dom. intros s Hs.
      destruct (decide (s = sym)) as [-> | Hne]; [rewrite Hpos; eauto|].
      by rewrite <- (Hf s Hne). }
    rewrite Hp in Hle. lia.
  - rewrite <- Hp. apply open_position_size.
Qed.

(** X19.  The live runner keeps within the effective cap: over any run the
    number of cached positions never exceeds the larger of the effective cap
    (MAX_OPEN_POSITIONS, lowered to MTF_MAX_OPEN_POSITIONS for the MTF
    strategy) and the number the runner started with. *)
Theorem live_run_within_cap (events : list Event) (r : Runner) :
  (Z.of_nat (size (positions (run cfg events r)))
   <= Z.max (Z.of_nat (size (positions r))) (eff_max_positions cfg))%Z.
Proof.
  unfold run. revert r.
  induction events as [|e rest IH]; intros r; cbn [foldl]; [lia|].
  etransitivity; [apply IH|].
  assert (He : (Z.of_nat (size (positions (handle cfg e r)))
                <= Z.max (Z.of_nat (size (positions r))) (eff_max_positions cfg))%Z).
  { destruct e as [sym c | syms]; cbn [handle]; [apply tick_size|].
    destruct (heartbeat_effect cfg "" syms r) as (-> & _). lia. }
  lia.
Qed.

End LiveSync.

Lemma live_cache_matches_state_file_witness :
  synced (LiveRunner.run default_config
            [LiveRunner.kline_15m "BTCUSDT" buy_candle; LiveRunner.beat ∅]
            LiveRunner.started).
Proof.
  apply (live_cache_matches_state_file default_config
           [LiveRunner.kline_15m "BTCUSDT" buy_candle; LiveRunner.beat ∅]
           LiveRunner.started).
  reflexivity.
Defined.

(** ** The live runner: orders *)

Section LiveOrders.

Import LiveRunner.

Variable cfg : Config.

Lemma closing_order_same_side (sym : string) (p p' : PositionState) (o : Order) :
  side p' = side p -> closing_order sym p' o -> closing_order sym p o.
Proof. unfold closing_order, is_long. by intros ->. Qed.

Lemma close_position_live_orders (sym : string) (pos : PositionState) (price_ : Q)
    (reason : string) (r : Runner) :
  exists l,
    orders (_close_position_live sym pos price_ reason r) = orders r ++ l
    /\ (l = [] \/ exists o, l = [o] /\ closing_order sym pos o /\ order_qty o = qty pos).
Proof.
  unfold _close_position_live, create_market_order.
  destruct (broker r); cbn [negb];
    [|exists []; runner_simpl; rewrite app_nil_r; auto].
  destruct (qty pos <=? 0) eqn:Hq;
    [exists []; runner_simpl; rewrite app_nil_r; auto|].
  apply Qleb_gt in Hq.
  destruct (exchange r) as [|[] rest]; runner_simpl;
    try (exists []; rewrite app_nil_r; auto; fail);
    (eexists; split; [reflexivity|]; right; eexists; split; [reflexivity|];
     split; [|reflexivity]; repeat split; assumption).
Qed.

Lemma close_fraction_live_orders (sym : string) (pos : PositionState)
    (price_ fraction : Q) (reason : string) (r : Runner) :
  let res := _close_fraction_live sym pos price_ fraction reason r in
  side res.1 = side pos
  /\ exists l,
       orders res.2 = orders r ++ l
       /\ ((l = [] /\ res.1 = pos)
           \/ exists o, l = [o] /\ closing_order sym pos o
                        /\ order_qty o + qty res.1 == qty pos /\ 0 <= qty res.1).
Proof.
  unfold _close_fraction_live, create_market_order.
  destruct (broker r); cbn [negb];
    [|split; [reflexivity|]; exists []; runner_simpl; rewrite app_nil_r; auto].
  destruct ((qty pos <=? 0) || (fraction <=? 0) || (1 <=? fraction)) eqn:Hg;
    [split; [reflexivity|]; exists []; runner_simpl; rewrite app_nil_r; auto|].
  apply orb_false_elim in Hg as [Hg Hf1]. apply orb_false_elim in Hg as [Hq Hf0].
  apply Qleb_gt in Hq, Hf0, Hf1.
  destruct (qty pos * fraction <=? 0) eqn:Hc;
    [split; [reflexivity|]; exists []; runner_simpl; rewrite app_nil_r; auto|].
  apply Qleb_gt in Hc.
  assert (Hrem : 0 <= qty pos - qty pos * fraction) by nra.
  destruct (exchange r) as [|[] rest]; runner_simpl; pos_simpl;
    (split; [reflexivity|]);
    try (exists []; rewrite app_nil_r; auto; fail);
    (eexists; split; [reflexivity|]; right; eexists; split; [reflexivity|];
     rewrite (proj2 (Qltb_ge _ _) Hrem); cbn [order_qty];
     split; [repeat split; assumption|]; split; [ring | assumption]).
Qed.

Lemma tp1_block_orders (sym : string) (c : Candle) (pos : PositionState) (r : Runner) :
  let res := tp1_block cfg sym c pos r in
  side res.1 = side pos
  /\ exists l,
       orders res.2 = orders r ++ l
       /\ ((l = [] /\ qty res.1 = qty pos)
           \/ exists o, l = [o] /\ closing_order sym pos o
                        /\ order_qty o + qty res.1 == qty pos /\ 0 <= qty res.1).
Proof.
  unfold tp1_block.
  assert (Hidle : side pos = side pos
                  /\ exists l, orders r = orders r ++ l
                       /\ ((l = [] /\ qty pos = qty pos)
                           \/ exists o, l = [o] /\ closing_order sym pos o
                                        /\ order_qty o + qty pos == qty pos
                                        /\ 0 <= qty pos)).
  { split; [reflexivity|]. exists []. rewrite app_nil_r. auto. }
  destruct (tp1 pos) as [t|]; [|exact Hidle].
  destruct (0 <? qty pos); [|exact Hidle].
  assert (H := close_fraction_live_orders sym pos (price c) (1 # 2) "tp1" r).
  destruct (_close_fraction_live sym pos (price c) (1 # 2) "tp1" r) as [p0 r0].
  cbn [fst snd] in H. destruct H as (Hs & l & Ho & Hl).
  assert (Hfire : forall p',
    side p' = side p0 -> qty p' = qty p0 ->
    side p' = side pos
    /\ exists l, orders (_update_position_state sym (Some p') r0) = orders r ++ l
         /\ ((l = [] /\ qty p' = qty pos)
             \/ exists o, l = [o] /\ closing_order sym pos o
                          /\ order_qty o + qty p' == qty pos /\ 0 <= qty p')).
  { intros p' Hs' Hq'. split; [congruence|]. exists l. runner_simpl.
    split; [exact Ho|]. rewrite Hq'.
    destruct Hl as [[-> ->] | Hl]; [left; auto | right; exact Hl]. }
  destruct (is_long pos && (t <=? price c)).
  { cbn [fst snd]. apply Hfire;
      destruct (trailing_stop (set_stop_loss (Some (entry_price p0)) p0)) as [ts|];
      [destruct (ts <? _)| |destruct (ts <? _)|]; reflexivity. }
  destruct (is_short pos && (price c <=? t)); [|exact Hidle].
  cbn [fst snd]. apply Hfire;
    destruct (trailing_stop (set_stop_loss (Some (entry_price p0)) p0)) as [ts|];
    [destruct (_ <? ts)| |destruct (_ <? ts)|]; reflexivity.
Qed.

Lemma trailing_block_orders (sym : string) (c : Candle) (pos : PositionState)
    (r : Runner) :
  let res := trailing_block cfg sym c pos r in
  side res.1.1 = side pos /\ qty res.1.1 = qty pos
  /\ exists l,
       orders res.1.2 = orders r ++ l
       /\ (l = []
           \/ (res.2 = true
               /\ exists o, l = [o] /\ closing_order sym pos o /\ order_qty o = qty pos)).
Proof.
  unfold trailing_block.
  assert (Hidle : exists l, orders r = orders r ++ l
                    /\ (l = [] \/ (false = true /\ exists o, l = [o]
                                   /\ closing_order sym pos o /\ order_qty o = qty pos))).
  { exists []. rewrite app_nil_r. auto. }
  assert (Hclose : forall p' r',
    side p' = side pos -> qty p' = qty pos -> orders r' = orders r ->
    exists l, orders (_close_position_live sym p' (price c) "trailing_stop" r')
              = orders r ++ l
      /\ (l = [] \/ (true = true /\ exists o, l = [o]
                     /\ closing_order sym pos o /\ order_qty o = qty pos))).
  { intros p' r' Hs Hq Ho.
    destruct (close_position_live_orders sym p' (price c) "trailing_stop" r')
      as (l & Hl & Hc).
    exists l. rewrite Hl, Ho. split; [reflexivity|].
    destruct Hc as [-> | (o & -> & Hc & Hqo)]; [by left | right].
    split; [reflexivity|]. exists o. split; [reflexivity|].
    split; [by apply (closing_order_same_side sym pos p') | congruence]. }
  assert (Hkeep : forall p' r',
    orders r' = orders r ->
    exists l, orders (_update_position_state sym (Some p') r') = orders r ++ l
      /\ (l = [] \/ (false = true /\ exists o, l = [o]
                     /\ closing_order sym pos o /\ order_qty o = qty pos))).
  { intros p' r' Ho. exists []. runner_simpl. rewrite app_nil_r. auto. }
  destruct (trailing_stop pos) as [ts|]; [|cbn [fst snd]; auto].
  destruct (0 <? qty pos); [|cbn [fst snd]; auto].
  destruct (is_long pos).
  - destruct (ts <? price c - ATR_TS_MULT cfg * atr c).
    + destruct (price c <=? price c - ATR_TS_MULT cfg * atr c); cbn [fst snd];
        (split; [reflexivity|]); (split; [reflexivity|]);
        [apply Hclose | apply Hkeep]; reflexivity.
    + destruct (price c <=? ts); cbn [fst snd];
        (split; [reflexivity|]); (split; [reflexivity|]);
        [apply Hclose | apply Hkeep]; reflexivity.
  - destruct (price c + ATR_TS_MULT cfg * atr c <? ts).
    + destruct (price c + ATR_TS_MULT cfg * atr c <=? price c); cbn [fst snd];
        (split; [reflexivity|]); (split; [reflexivity|]);
        [apply Hclose | apply Hkeep]; reflexivity.
    + destruct (ts <=? price c); cbn [fst snd];
        (split; [reflexivity|]); (split; [reflexivity|]);
        [apply Hclose | apply Hkeep]; reflexivity.
Qed.

Lemma manage_position_orders (sym : string) (c : Candle) (pos : PositionState)
    (r : Runner) :
  exists l,
    orders (manage_position cfg sym c pos r) = orders r ++ l
    /\ Forall (closing_order sym pos) l /\ total_qty l <= Qmax 0 (qty pos).
Proof.
  unfold manage_position.
  assert (Hmax : qty pos <= Qmax 0 (qty pos)) by apply Q.le_max_r.
  assert (Hmax0 : 0 <= Qmax 0 (qty pos)) by apply Q.le_max_l.
  destruct (stop_loss_hit pos (price c)).
  { destruct (close_position_live_orders sym pos (price c) "stop_loss" r)
      as (l & Hl & [-> | (o & -> & Hc & Hq)]).
    - exists []. split; [exact Hl|]. split; [constructor | exact Hmax0].
    - exists [o]. split; [exact Hl|]. split; [repeat (constructor; [assumption|]); constructor|].
      cbn [total_qty foldr]. rewrite Hq. lra. }
  assert (H1 := tp1_block_orders sym c pos r).
  destruct (tp1_block cfg sym c pos r) as [p1 r1]. cbn [fst snd] in H1.
  destruct H1 as (Hs1 & l1 & Ho1 & Hl1).
  assert (H2 := trailing_block_orders sym c p1 r1).
  destruct (trailing_block cfg sym c p1 r1) as [[p2 r2] done]. cbn [fst snd] in H2.
  destruct H2 as (Hs2 & Hq2 & l2 & Ho2 & Hl2).
  match goal with |- exists l, orders ?e = _ /\ _ => set (r' := e) end.
  assert (Hlast : exists lc,
    orders r' = orders r1 ++ lc
    /\ (lc = [] \/ exists o, lc = [o] /\ closing_order sym pos o
                             /\ order_qty o = qty p1)).
  { assert (Hc : forall reason,
      l2 = [] ->
      exists lc, orders (_close_position_live sym p2 (price c) reason r2)
                 = orders r1 ++ lc
        /\ (lc = [] \/ exists o, lc = [o] /\ closing_order sym pos o
                                 /\ order_qty o = qty p1)).
    { intros reason ->. rewrite app_nil_r in Ho2.
      destruct (close_position_live_orders sym p2 (price c) reason r2)
        as (l & Hl & Hc).
      exists l. rewrite Hl, Ho2. split; [reflexivity|].
      destruct Hc as [-> | (o & -> & Hc & Hq)]; [by left | right].
      exists o. split; [reflexivity|]. split; [|congruence].
      apply (closing_order_same_side sym pos p2); [congruence | exact Hc]. }
    subst r'. destruct done.
    - exists l2. split; [exact Ho2|].
      destruct Hl2 as [-> | (_ & o & -> & Hco & Hq)]; [by left | right].
      exists o. split; [reflexivity|]. split; [|exact Hq].
      by apply (closing_order_same_side sym pos p1).
    - assert (Hnil : l2 = []) by (destruct Hl2 as [-> | [Hd _]]; [reflexivity | discriminate]).
      destruct (time_stop_hit cfg c p2); [by apply Hc|].
      destruct (reverse_hit p2 (signal c)); [by apply Hc|].
      exists []. rewrite app_nil_r, Ho2, Hnil, app_nil_r. auto. }
  destruct Hlast as (lc & Hoc & Hlc).
  exists (l1 ++ lc). split; [by rewrite Hoc, Ho1, app_assoc|].
  destruct Hl1 as [[-> Hq1] | (o1 & -> & Hc1 & Hq1 & Hq1')];
    destruct Hlc as [-> | (o & -> & Hc & Hq)]; cbn [app total_qty foldr].
  - split; [constructor | exact Hmax0].
  - split; [repeat (constructor; [assumption|]); constructor|]. rewrite Hq, Hq1. lra.
  - split; [repeat (constructor; [assumption|]); constructor|]. lra.
  - split; [repeat (constructor; [assumption|]); constructor|]. rewrite Hq. lra.
Qed.

(** X16.  A tick on a held symbol can only reduce the position.  Every
    order the tick gets accepted is a reduce-only order for that symbol, on
    the closing side (SELL for a long, BUY otherwise) and of positive
    quantity, and together the orders of the tick ask for no more than the
    quantity held. *)
Theorem live_exit_orders_reduce_only (sym : string) (c : Candle)
    (pos : PositionState) (r : Runner) :
  positions r !! sym = Some pos ->
  exists l,
    orders (_run_strategy_if_ready cfg sym c r) = orders r ++ l
    /\ Forall (closing_order sym pos) l /\ total_qty l <= Qmax 0 (qty pos).
Proof.
  intros Hpos. rewrite run_strategy_if_ready_unfold.
  destruct ((price c <=? 0) || (atr c <=? 0)).
  { exists []. rewrite app_nil_r. split; [reflexivity|].
    split; [constructor | apply Q.le_max_l]. }
  destruct (guarded_effect cfg c r) as (Hp & _ & Ho & _).
  rewrite Hp, Hpos, <- Ho. apply manage_position_orders.
Qed.

End LiveOrders.

Lemma live_exit_orders_reduce_only_witness :
  exists l,
    LiveRunner.orders
      (LiveRunner._run_strategy_if_ready default_config "BTCUSDT"
         (quiet_candle 125 1 (Some 5000)) (holding_sample []))
    = LiveRunner.orders (holding_sample []) ++ l
    /\ Forall (closing_order "BTCUSDT" sample_long) l
    /\ total_qty l <= Qmax 0 (qty sample_long).
Proof.
  apply (live_exit_orders_reduce_only default_config "BTCUSDT"
           (quiet_candle 125 1 (Some 5000)) sample_long (holding_sample [])).
  reflexivity.
Defined.

Section LiveEntry.

Import LiveRunner.

Variable cfg : Config.

(** X17.  An entry gets through every gate.  If [open_position] changes the
    cached positions or gets an order accepted, then there was a signal, the
    trading-disabled flag was clear, the broker was up, the equity was
    positive, the open positions were under the effective cap, fewer than
    MAX_TRADES_PER_HOUR entries were recorded in the last hour, the last
    entry in the symbol was at least MIN_REOPEN_INTERVAL_SEC ago and the
    sizer gave a positive pair; and then exactly one order went out, not
    reduce-only, for the sized quantity, and the new position, with its ATR
    stop and first target, is in the cache and in the state file. *)
Theorem live_entry_only_through_gates (sym : string) (c : Candle) (equity : Q)
    (r : Runner) :
  let r' := open_position cfg sym c equity r in
  positions r' <> positions r \/ orders r' <> orders r ->
  exists sig n q,
    signal c = Some sig
    /\ trading_disabled r = false /\ broker r = true /\ 0 < equity
    /\ (Z.of_nat (size (positions r)) < eff_max_positions cfg)%Z
    /\ ((0 < MAX_TRADES_PER_HOUR cfg)%Z ->
        (Z.of_nat (length (within_hour (now_ts c) (trade_timestamps r)))
         < MAX_TRADES_PER_HOUR cfg)%Z)
    /\ ((0 < MIN_REOPEN_INTERVAL_SEC cfg)%Z ->
        forall t, last_open_time r !! sym = Some t ->
          inject_Z (MIN_REOPEN_INTERVAL_SEC cfg) <= now_ts c - t)
    /\ RiskManager.calc_futures_size_from_risk cfg equity (price c)
         (ATR_SL_MULT cfg * atr c / price c * 100)
         (Some (RISK_PER_TRADE cfg)) (Some (FUTURES_LEVERAGE_DEFAULT cfg)) = (n, q)
    /\ 0 < n /\ 0 < q
    /\ let sd := match sig with buy => "long" | sell => "short" end in
       let pos := new_position cfg sym (bar_index c) (price c) (atr c) n q sd in
       orders r'
       = orders r ++ [{| order_symbol := sym;
                         order_side := if String.eqb sd "long" then "BUY" else "SELL";
                         order_qty := q; reduce_only := false |}]
       /\ positions r' = <[sym := pos]> (positions r)
       /\ state_positions r' = <[sym := pos]> (state_positions r)
       /\ last_open_time r' !! sym = Some (open_ts c).
Proof.
  cbv zeta. unfold open_position.
  assert (Hno : forall r0 : Runner,
    positions r0 = positions r -> orders r0 = orders r ->
    positions r0 <> positions r \/ orders r0 <> orders r -> False).
  { intros r0 Hp Ho [H | H]; contradiction. }
  destruct (signal c) as [sig|]; [|intros H; exfalso; by apply (Hno r)].
  destruct (trading_disabled r) eqn:Hd; [intros H; exfalso; by apply (Hno r)|].
  set (r1 := if (0 <? MAX_TRADES_PER_HOUR cfg)%Z
             then set_trade_timestamps
                    (filter (fun t => Is_true (now_ts c - t <? 3600)) (trade_timestamps r)) r
             else r).
  assert (Hr1 : positions r1 = positions r /\ orders r1 = orders r
                /\ broker r1 = broker r /\ exchange r1 = exchange r
                /\ state_positions r1 = state_positions r
                /\ last_open_time r1 = last_open_time r
                /\ ((0 < MAX_TRADES_PER_HOUR cfg)%Z ->
                    trade_timestamps r1
                    = filter (fun t => Is_true (now_ts c - t <? 3600)) (trade_timestamps r))).
  { unfold r1. destruct (0 <? MAX_TRADES_PER_HOUR cfg)%Z eqn:E; runner_simpl.
    - repeat split.
    - repeat split. intros H. apply Z.ltb_ge in E. lia. }
  destruct Hr1 as (Hp1 & Ho1 & Hb1 & Hx1 & Hs1 & Hl1 & Ht1).
  destruct ((0 <? MAX_TRADES_PER_HOUR cfg)%Z
            && (MAX_TRADES_PER_HOUR cfg <=? Z.of_nat (length (trade_timestamps r1)))%Z)
    eqn:Hrate; [intros H; exfalso; by apply (Hno r1)|].
  destruct ((0 <? MIN_REOPEN_INTERVAL_SEC cfg)%Z
            && match last_open_time r1 !! sym with
               | Some last_open => now_ts c - last_open <? inject_Z (MIN_REOPEN_INTERVAL_SEC cfg)
               | None => false
               end) eqn:Hsoon; [intros H; exfalso; by apply (Hno r1)|].
  destruct (eff_max_positions cfg <=? Z.of_nat (size (positions r1)))%Z eqn:Hcap;
    [intros H; exfalso; by apply (Hno r1)|].
  destruct (equity <=? 0) eqn:He; [intros H; exfalso; by apply (Hno r1)|].
  destruct (RiskManager.calc_futures_size_from_risk _ _ _ _ _ _) as [n q] eqn:Hsz.
  destruct ((n <=? 0) || (q <=? 0)) eqn:Hpos; [intros H; exfalso; by apply (Hno r1)|].
  destruct (broker r1) eqn:Hb; cbn [negb];
    [|intros H; exfalso; apply (Hno (logged (log_broker_missing sym) r1));
      runner_simpl; assumption].
  unfold create_market_order. rewrite Hx1.
  assert (Hgates :
    trading_disabled r = false /\ broker r = true /\ 0 < equity
    /\ (Z.of_nat (size (positions r)) < eff_max_positions cfg)%Z
    /\ ((0 < MAX_TRADES_PER_HOUR cfg)%Z ->
        (Z.of_nat (length (within_hour (now_ts c) (trade_timestamps r)))
         < MAX_TRADES_PER_HOUR cfg)%Z)
    /\ ((0 < MIN_REOPEN_INTERVAL_SEC cfg)%Z ->
        forall t, last_open_time r !! sym = Some t ->
          inject_Z (MIN_REOPEN_INTERVAL_SEC cfg) <= now_ts c - t)
    /\ 0 < n /\ 0 < q).
  { split; [exact Hd|]. split; [congruence|]. split; [by apply Qleb_gt|].
    split; [apply Z.leb_gt in Hcap; by rewrite Hp1 in Hcap|].
    apply orb_false_elim in Hpos as [Hn Hq].
    split; [|split; [|split; by apply Qleb_gt]].
    - intros Hm. unfold within_hour. rewrite <- (Ht1 Hm).
      rewrite (proj2 (Z.ltb_lt _ _) Hm) in Hrate. cbn [andb] in Hrate.
      by apply Z.leb_gt in Hrate.
    - intros Hm t Ht. rewrite (proj2 (Z.ltb_lt _ _) Hm), Hl1, Ht in Hsoon.
      cbn [andb] in Hsoon. by apply Qltb_ge in Hsoon. }
  destruct Hgates as (G1 & G2 & G3 & G4 & G5 & G6 & G7 & G8).
  destruct (exchange r) as [|[] rest]; runner_simpl.
  - intros _. exists sig, n, q. rewrite Ho1, Hp1, Hs1.
    repeat (split; [assumption || reflexivity|]). apply lookup_insert_eq.
  - intros _. exists sig, n, q. rewrite Ho1, Hp1, Hs1.
    repeat (split; [assumption || reflexivity|]). apply lookup_insert_eq.
  - intros H. exfalso. destruct H as [H | H]; congruence.
Qed.

End LiveEntry.

Lemma live_entry_only_through_gates_witness :
  exists sig n q,
    LiveRunner.signal buy_candle = Some sig
    /\ LiveRunner.trading_disabled LiveRunner.started = false
    /\ LiveRunner.broker LiveRunner.started = true /\ 0 < 5000
    /\ (Z.of_nat (size (LiveRunner.positions LiveRunner.started))
        < LiveRunner.eff_max_positions default_config)%Z
    /\ ((0 < MAX_TRADES_PER_HOUR default_config)%Z ->
        (Z.of_nat (length (within_hour (LiveRunner.now_ts buy_candle)
                             (LiveRunner.trade_timestamps LiveRunner.started)))
         < MAX_TRADES_PER_HOUR default_config)%Z)
    /\ ((0 < MIN_REOPEN_INTERVAL_SEC default_config)%Z ->
        forall t, LiveRunner.last_open_time LiveRunner.started !! "BTCUSDT" = Some t ->
          inject_Z (MIN_REOPEN_INTERVAL_SEC default_config)
          <= LiveRunner.now_ts buy_candle - t)
    /\ RiskManager.calc_futures_size_from_risk default_config 5000
         (LiveRunner.price buy_candle)
         (ATR_SL_MULT default_config * LiveRunner.atr buy_candle
          / LiveRunner.price buy_candle * 100)
         (Some (RISK_PER_TRADE default_config))
         (Some (FUTURES_LEVERAGE_DEFAULT default_config)) = (n, q)
    /\ 0 < n /\ 0 < q
    /\ let sd := match sig with buy => "long" | sell => "short" end in
       let pos := new_position default_config "BTCUSDT" (LiveRunner.bar_index buy_candle)
                    (LiveRunner.price buy_candle) (LiveRunner.atr buy_candle) n q sd in
       let r' := LiveRunner.open_position default_config "BTCUSDT" buy_candle 5000
                   LiveRunner.started in
       LiveRunner.orders r'
       = LiveRunner.orders LiveRunner.started
         ++ [{| LiveRunner.order_symbol := "BTCUSDT";
                LiveRunner.order_side := if String.eqb sd "long" then "BUY" else "SELL";
                LiveRunner.order_qty := q; LiveRunner.reduce_only := false |}]
       /\ LiveRunner.positions r' = <["BTCUSDT" := pos]> (LiveRunner.positions LiveRunner.started)
       /\ LiveRunner.state_positions r'
          = <["BTCUSDT" := pos]> (LiveRunner.state_positions LiveRunner.started)
       /\ LiveRunner.last_open_time r' !! "BTCUSDT" = Some (LiveRunner.open_ts buy_candle).
Proof.
  apply (live_entry_only_through_gates default_config "BTCUSDT" buy_candle 5000
           LiveRunner.started).
  right. vm_compute. discriminate.
Defined.

Section LiveFirstTarget.

Import LiveRunner.

Variable cfg : Config.

(** X18.  The first target of the live runner when the partial close is
    filled: with the broker up, a positive quantity and the price at or past
    the first target, one reduce-only order for half of the quantity goes
    out, and the record that the cache and the state file both hold
    afterwards has half the quantity, the notional that goes with it, its
    stop loss at the entry price, no first target any more and a trailing
    stop at least as tight as the candle's candidate. *)
Theorem live_first_target_fill (sym : string) (c : Candle) (pos : PositionState)
    (t : Q) (r : Runner) :
  broker r = true -> head (exchange r) <> Some false ->
  0 < qty pos -> tp1 pos = Some t ->
  (if is_long pos then t <= price c else is_short pos = true /\ price c <= t) ->
  let res := tp1_block cfg sym c pos r in
  qty res.1 == qty pos * (1 # 2)
  /\ notional res.1 == entry_price pos * qty res.1
  /\ stop_loss res.1 = Some (entry_price pos) /\ tp1 res.1 = None
  /\ (exists ts, trailing_stop res.1 = Some ts
        /\ if is_long pos then price c - ATR_TS_MULT cfg * atr c <= ts
           else ts <= price c + ATR_TS_MULT cfg * atr c)
  /\ positions res.2 !! sym = Some res.1
  /\ state_positions res.2 !! sym = Some res.1
  /\ orders res.2
     = orders r ++ [{| order_symbol := sym;
                       order_side := if is_long pos then "SELL" else "BUY";
                       order_qty := qty pos * (1 # 2); reduce_only := true |}].
Proof.
  intros Hb Hx Hq Ht Hhit. cbv zeta. unfold tp1_block. rewrite Ht.
  rewrite (proj2 (Qltb_lt _ _) Hq).
  assert (Hcf : exists r0,
    _close_fraction_live sym pos (price c) (1 # 2) "tp1" r
    = (set_notional (entry_price pos * (qty pos - qty pos * (1 # 2)))
         (set_qty (qty pos - qty pos * (1 # 2)) pos), r0)
    /\ orders r0
       = orders r ++ [{| order_symbol := sym;
                         order_side := if is_long pos then "SELL" else "BUY";
                         order_qty := qty pos * (1 # 2); reduce_only := true |}]).
  { unfold _close_fraction_live, create_market_order. rewrite Hb.
    rewrite (proj2 (Qleb_gt _ _) Hq). cbn [negb orb].
    change ((1 # 2) <=? 0) with false. change (1 <=? (1 # 2)) with false. cbn [orb].
    assert (Hc : 0 < qty pos * (1 # 2)) by lra.
    rewrite (proj2 (Qleb_gt _ _) Hc).
    assert (Hrem : 0 <= qty pos - qty pos * (1 # 2)) by lra.
    rewrite (proj2 (Qltb_ge _ _) Hrem).
    destruct (exchange r) as [|[] rest]; cbn in Hx; try congruence;
      runner_simpl; eexists; split; reflexivity. }
  destruct Hcf as (r0 & -> & Ho).
  set (p0 := set_notional _ _).
  assert (Hfire : forall p' : PositionState,
    qty p' = qty p0 -> notional p' = notional p0 ->
    stop_loss p' = Some (entry_price pos) -> tp1 p' = None ->
    (exists ts, trailing_stop p' = Some ts
       /\ if is_long pos then price c - ATR_TS_MULT cfg * atr c <= ts
          else ts <= price c + ATR_TS_MULT cfg * atr c) ->
    let res := (p', _update_position_state sym (Some p') r0) in
    qty res.1 == qty pos * (1 # 2)
    /\ notional res.1 == entry_price pos * qty res.1
    /\ stop_loss res.1 = Some (entry_price pos) /\ tp1 res.1 = None
    /\ (exists ts, trailing_stop res.1 = Some ts
          /\ if is_long pos then price c - ATR_TS_MULT cfg * atr c <= ts
             else ts <= price c + ATR_TS_MULT cfg * atr c)
    /\ positions res.2 !! sym = Some res.1
    /\ state_positions res.2 !! sym = Some res.1
    /\ orders res.2
       = orders r ++ [{| order_symbol := sym;
                         order_side := if is_long pos then "SELL" else "BUY";
                         order_qty := qty pos * (1 # 2); reduce_only := true |}]).
  { intros p' Hq' Hn' Hs' Ht' Hts'. cbv zeta. cbn [fst snd]. runner_simpl.
    rewrite Hq', Hn'. subst p0. pos_simpl.
    split; [ring|]. split; [reflexivity|]. split; [exact Hs'|]. split; [exact Ht'|].
    split; [exact Hts'|]. rewrite !lookup_insert_eq. auto. }
  destruct (is_long pos) eqn:Hl; cbn [andb].
  - rewrite (proj2 (Qleb_le _ _) Hhit).
    apply Hfire;
      [subst p0; pos_simpl; destruct (trailing_stop pos) as [ts|];
       [destruct (ts <? price c - ATR_TS_MULT cfg * atr c)|]; reflexivity ..|].
    subst p0. pos_simpl.
    destruct (trailing_stop pos) as [ts|] eqn:Hts;
      [destruct (ts <? price c - ATR_TS_MULT cfg * atr c) eqn:Hlt|]; pos_simpl.
    + eexists. split; [reflexivity | lra].
    + exists ts. split; [exact Hts | by apply Qltb_ge].
    + eexists. split; [reflexivity | lra].
  - destruct Hhit as [Hs Hhit]. rewrite Hs, (proj2 (Qleb_le _ _) Hhit). cbn [andb].
    apply Hfire;
      [subst p0; pos_simpl; destruct (trailing_stop pos) as [ts|];
       [destruct (price c + ATR_TS_MULT cfg * atr c <? ts)|]; reflexivity ..|].
    subst p0. pos_simpl.
    destruct (trailing_stop pos) as [ts|] eqn:Hts;
      [destruct (price c + ATR_TS_MULT cfg * atr c <? ts) eqn:Hlt|]; pos_simpl.
    + eexists. split; [reflexivity | lra].
    + exists ts. split; [exact Hts | by apply Qltb_ge].
    + eexists. split; [reflexivity | lra].
Qed.

End LiveFirstTarget.

Lemma live_first_target_fill_witness :
  let res := LiveRunner.tp1_block default_config "BTCUSDT"
               (quiet_candle 125 1 (Some 5000)) sample_long (holding_sample []) in
  qty res.1 == qty sample_long * (1 # 2)
  /\ notional res.1 == entry_price sample_long * qty res.1
  /\ stop_loss res.1 = Some (entry_price sample_long) /\ tp1 res.1 = None
  /\ (exists ts, trailing_stop res.1 = Some ts
        /\ if is_long sample_long
           then LiveRunner.price (quiet_candle 125 1 (Some 5000))
                - ATR_TS_MULT default_config
                  * LiveRunner.atr (quiet_candle 125 1 (Some 5000)) <= ts
           else ts <= LiveRunner.price (quiet_candle 125 1 (Some 5000))
                      + ATR_TS_MULT default_config
                        * LiveRunner.atr (quiet_candle 125 1 (Some 5000)))
  /\ LiveRunner.positions res.2 !! "BTCUSDT" = Some res.1
  /\ LiveRunner.state_positions res.2 !! "BTCUSDT" = Some res.1
  /\ LiveRunner.orders res.2
     = LiveRunner.orders (holding_sample [])
       ++ [{| LiveRunner.order_symbol := "BTCUSDT";
              LiveRunner.order_side := if is_long sample_long then "SELL" else "BUY";
              LiveRunner.order_qty := qty sample_long * (1 # 2);
              LiveRunner.reduce_only := true |}].
Proof.
  apply (live_first_target_fill default_config "BTCUSDT"
           (quiet_candle 125 1 (Some 5000)) sample_long 120 (holding_sample []));
    [reflexivity | discriminate | reflexivity | reflexivity | vm_compute; discriminate].
Defined.

(** ** The strategy: what a signal guarantees *)

Section SignalFilters.

Import MTFBreakoutStrategy.

Variable cfg : Params.

Ltac bind_inv H :=
  repeat match type of H with
         | mbind _ ?m = Some _ =>
             let E := fresh "E" in
             destruct m eqn:E; cbn [mbind option_bind] in H; [|discriminate H]
         | (let '(_, _) := ?p in _) = Some _ =>
             let E := fresh "E" in destruct p eqn:E
         end.

(** Everything a frame went through when [setup] answers. *)
Lemma setup_filters (df : DataFrame) (s : Setup) :
  setup cfg df = Some s ->
  exists last c atr_h adx_h,
    iloc (rows df) (-1) = Some last
    /\ close last = Some c /\ last_close s = c
    /\ HTF_ATR last = Some atr_h /\ HTF_ADX last = Some adx_h
    /\ (100 <= len df)%Z
    /\ (forall col, col ∈ needed_columns -> col ∈ columns df)
    /\ (is_Some (HTF_EMA20 last) /\ is_Some (HTF_EMA50 last)
        /\ is_Some (HTF_EMA200 last) /\ is_Some (HTF_RSI last)
        /\ is_Some (HTF_SMA_TREND last))
    /\ 0 < c /\ 0 < atr_h
    /\ ANTI_CHOP_MIN_ATR_PCT cfg <= atr_h / c
    /\ BREAKOUT_ADX_MIN cfg <= adx_h
    /\ ~ (HTF_VOLATILE_ATR_PCT cfg < atr_h / c
          /\ drift_over df (HTF_DRIFT_LOOKBACK_BARS cfg) < HTF_VOLATILE_DRIFT_PCT cfg
          /\ adx_h < HTF_VOLATILE_ADX_MAX cfg)
    /\ (MTF_DISABLE_VOLATILE_FLAT cfg = true -> atr_h / c <= MTF_ATR_SUPER_HIGH_PCT cfg)
    /\ drift_min_eff cfg adx_h (atr_h / c)
       <= drift_over df (MTF_DRIFT_LOOKBACK_BARS cfg)
    /\ let lookback :=
         lookback_ltf cfg (atr_h / c) (drift_over df (MTF_DRIFT_LOOKBACK_BARS cfg)) in
       (lookback + 2 <= len df)%Z
       /\ long_trigger s
          = fmul (series_max (high <$> slice (rows df) (- lookback - 1) (-1)))
              (Some (1 + BREAKOUT_BUFFER_PCT cfg))
       /\ short_trigger s
          = fmul (series_min (low <$> slice (rows df) (- lookback - 1) (-1)))
              (Some (1 - BREAKOUT_BUFFER_PCT cfg)).
Proof.
  unfold setup. intros H. bind_inv H.
  injection H as <-. cbn [regime last_close rsi_ltf long_trigger short_trigger
                          rsi_long_min rsi_long_max rsi_short_min rsi_short_max].
  unfold get in *.
  repeat match goal with
         | H : (if bool_decide ?P then _ else _) = Some _ |- _ =>
             destruct (bool_decide_reflect P); [|discriminate H]
         end.
  simplify_eq.
  repeat match goal with
         | H : reject_if _ = Some _ |- _ => apply reject_if_inv in H
         end.
  match goal with H : negb (forallb _ _) = false |- _ =>
    apply negb_false_iff in H; rewrite forallb_forall in H; rename H into Hcols end.
  do 4 eexists. split; [reflexivity|]. split; [eassumption|]. split; [reflexivity|].
  split; [eassumption|]. split; [eassumption|].
  split; [by apply Z.ltb_ge|].
  split.
  { intros col Hcol. unfold needed_columns in Hcol.
    assert (Hh : forall x,
      In x ["HTF_EMA20"; "HTF_EMA50"; "HTF_EMA200"; "HTF_ATR"; "HTF_ADX";
            "HTF_RSI"; "HTF_SMA_TREND"] -> x ∈ columns df)
      by (intros x Hx; specialize (Hcols x Hx); by apply bool_decide_eq_true in Hcols).
    repeat (apply elem_of_cons in Hcol as [-> | Hcol];
            [first [assumption | apply Hh; cbn; tauto]|]).
    by apply elem_of_nil in Hcol. }
  split; [repeat split; eauto|].
  repeat match goal with
         | H : _ || _ = false |- _ => apply orb_false_elim in H as [? ?]
         end.
  repeat match goal with
         | H : (_ <=? _) = false |- _ => apply Qleb_gt in H
         | H : (_ <? _) = false |- _ => apply Qltb_ge in H
         end.
  split; [assumption|]. split; [assumption|]. split; [assumption|].
  split; [assumption|].
  split.
  { intros (Hv1 & Hv2 & Hv3).
    match goal with H : _ && _ && _ = false |- _ =>
      rewrite (proj2 (Qltb_lt _ _) Hv1), (proj2 (Qltb_lt _ _) Hv2),
        (proj2 (Qltb_lt _ _) Hv3) in H; discriminate H end. }
  split.
  { intros Hflat.
    match goal with H : MTF_DISABLE_VOLATILE_FLAT cfg && _ = false |- _ =>
      rewrite Hflat in H; cbn [andb] in H; by apply Qltb_ge in H end. }
  split; [assumption|].
  cbv zeta. split; [by apply Z.ltb_ge|]. split; reflexivity.
Qed.

Lemma signal_inv (df : DataFrame) (sig : Signal) :
  signal cfg df = Some sig ->
  exists s, setup cfg df = Some s /\ emit s = Some sig.
Proof.
  unfold signal. destruct (setup cfg df) as [s|]; [|discriminate].
  cbn [mbind option_bind]. eauto.
Qed.

(** X23.  No signal on incomplete data.  When [signal] answers buy or sell
    the frame has at least 100 rows and every column the strategy reads, and
    in its last row the close and the higher-timeframe EMA20, EMA50, EMA200,
    ATR, ADX, RSI and SMA trend are all present (not NaN). *)
Theorem signal_needs_complete_data (df : DataFrame) (sig : Signal) :
  signal cfg df = Some sig ->
  (100 <= len df)%Z
  /\ (forall col, col ∈ needed_columns -> col ∈ columns df)
  /\ exists last,
       iloc (rows df) (-1) = Some last
       /\ is_Some (close last)
       /\ is_Some (HTF_EMA20 last) /\ is_Some (HTF_EMA50 last)
       /\ is_Some (HTF_EMA200 last) /\ is_Some (HTF_ATR last)
       /\ is_Some (HTF_ADX last) /\ is_Some (HTF_RSI last)
       /\ is_Some (HTF_SMA_TREND last).
Proof.
  intros H. destruct (signal_inv df sig H) as (s & Hs & _).
  destruct (setup_filters df s Hs)
    as (last & c & atr_h & adx_h & Hl & Hc & _ & Ha & Hx & Hlen & Hcols
        & (H20 & H50 & H200 & Hr & Ht) & _).
  split; [exact Hlen|]. split; [exact Hcols|].
  exists last. rewrite Hc, Ha, Hx. repeat split; eauto.
Qed.

(** X24.  A signal has passed every market filter.  When [signal] answers,
    the last close and the higher-timeframe ATR are positive, the ATR share
    of the price is at least ANTI_CHOP_MIN_ATR_PCT, the ADX is at least
    BREAKOUT_ADX_MIN, the frame is not in the volatile regime without drift
    (high ATR share, low drift and low ADX together), the ATR share is not
    above the super-high level when MTF_DISABLE_VOLATILE_FLAT is on, and the
    drift over the MTF lookback reaches the effective minimum. *)
Theorem signal_passes_trend_filters (df : DataFrame) (sig : Signal) :
  signal cfg df = Some sig ->
  exists last c atr_h adx_h,
    iloc (rows df) (-1) = Some last
    /\ close last = Some c /\ HTF_ATR last = Some atr_h /\ HTF_ADX last = Some adx_h
    /\ 0 < c /\ 0 < atr_h
    /\ ANTI_CHOP_MIN_ATR_PCT cfg <= atr_h / c
    /\ BREAKOUT_ADX_MIN cfg <= adx_h
    /\ ~ (HTF_VOLATILE_ATR_PCT cfg < atr_h / c
          /\ drift_over df (HTF_DRIFT_LOOKBACK_BARS cfg) < HTF_VOLATILE_DRIFT_PCT cfg
          /\ adx_h < HTF_VOLATILE_ADX_MAX cfg)
    /\ (MTF_DISABLE_VOLATILE_FLAT cfg = true -> atr_h / c <= MTF_ATR_SUPER_HIGH_PCT cfg)
    /\ drift_min_eff cfg adx_h (atr_h / c)
       <= drift_over df (MTF_DRIFT_LOOKBACK_BARS cfg).
Proof.
  intros H. destruct (signal_inv df sig H) as (s & Hs & _).
  destruct (setup_filters df s Hs)
    as (last & c & atr_h & adx_h & Hl & Hc & _ & Ha & Hx & _ & _ & _
        & Hc0 & Ha0 & Hchop & Hadx & Hvol & Hflat & Hdrift & _).
  exists last, c, atr_h, adx_h. repeat (split; [assumption|]). assumption.
Qed.

(** The dynamic lookback stays inside its configured bounds. *)
Lemma lookback_ltf_bounds (atr_pct_h drift : Q) :
  (0 <= MTF_LOOKBACK_MIN cfg)%Z ->
  (MTF_LOOKBACK_MIN cfg <= MTF_LTF_LOOKBACK cfg)%Z ->
  (MTF_LTF_LOOKBACK cfg <= MTF_LOOKBACK_MAX cfg)%Z ->
  (MTF_LOOKBACK_MIN cfg <= lookback_ltf cfg atr_pct_h drift <= MTF_LOOKBACK_MAX cfg)%Z.
Proof.
  intros H0 Hmin Hmax. unfold lookback_ltf.
  assert (Hscale : forall (z : Z) (n d : positive),
    py_int (inject_Z z * (Zpos n # d)) = Z.quot (z * Zpos n) (Zpos d)).
  { intros z n d. unfold py_int. cbn [Qnum Qden Qmult inject_Z].
    f_equal. }
  rewrite !Hscale.
  set (base := MTF_LTF_LOOKBACK cfg) in *.
  set (lo := MTF_LOOKBACK_MIN cfg) in *.
  set (hi := MTF_LOOKBACK_MAX cfg) in *.
  assert (Hstep : forall z, (lo <= z <= hi)%Z ->
    (lo <= Z.min hi (Z.quot (z * 12) 10) <= hi)%Z
    /\ (lo <= Z.max lo (Z.quot (z * 85) 100) <= hi)%Z).
  { intros z Hz.
    assert (z <= Z.quot (z * 12) 10)%Z
      by (apply Z.quot_le_lower_bound; lia).
    assert (Z.quot (z * 85) 100 <= z)%Z
      by (apply Z.quot_le_upper_bound; lia).
    lia. }
  assert (Hfirst :
    (lo <= (if (atr_pct_h <? MTF_ATR_LOW_VOL_PCT cfg)%Q
            then Z.min hi (Z.quot (base * 13) 10)
            else if (MTF_ATR_HIGH_VOL_PCT cfg <? atr_pct_h)%Q
                 then Z.max lo (Z.quot (base * 7) 10)
                 else base) <= hi)%Z).
  { assert (base <= Z.quot (base * 13) 10)%Z
      by (apply Z.quot_le_lower_bound; lia).
    assert (Z.quot (base * 7) 10 <= base)%Z
      by (apply Z.quot_le_upper_bound; lia).
    destruct (atr_pct_h <? MTF_ATR_LOW_VOL_PCT cfg); [lia|].
    destruct (MTF_ATR_HIGH_VOL_PCT cfg <? atr_pct_h); lia. }
  match type of Hfirst with (_ <= ?z <= _)%Z => destruct (Hstep z Hfirst) as [Hup Hdown] end.
  destruct ((MTF_DRIFT_MIN_PCT cfg <? drift) && (drift <? MTF_DRIFT_STRONG_TREND_PCT cfg));
    [exact Hup|].
  destruct (MTF_DRIFT_STRONG_TREND_PCT cfg <=? drift); [exact Hdown | exact Hfirst].
Qed.

(** Python's [l[-k-1:-1]] on a list of at least [k + 2] items: the [k] items
    before the last one. *)
Lemma slice_window {A : Type} (l : list A) (k : Z) :
  (0 <= k)%Z -> (k + 2 <= Z.of_nat (length l))%Z ->
  exists pre last,
    l = pre ++ slice l (- k - 1) (-1) ++ [last]
    /\ length (slice l (- k - 1) (-1)) = Z.to_nat k
    /\ iloc l (-1) = Some last.
Proof.
  intros Hk Hlen. unfold slice, iloc.
  set (n := length l) in *.
  assert (E1 : (- k - 1 <? 0)%Z = true) by (apply Z.ltb_lt; lia).
  assert (E2 : (-1 <? 0)%Z = true) by reflexivity.
  rewrite E1, E2.
  replace (Z.max 0 (Z.of_nat n + -1) - Z.max 0 (Z.of_nat n + (- k - 1)))%Z with k by lia.
  set (a := Z.to_nat (Z.max 0 (Z.of_nat n + (- k - 1)))).
  set (kk := Z.to_nat k).
  assert (Ha : (a + kk + 1 = n)%nat) by lia.
  assert (Hd : length (drop (a + kk) l) = 1%nat) by (rewrite length_drop; lia).
  destruct (drop (a + kk) l) as [|last [|x rest]] eqn:Hdrop; try discriminate.
  assert (Hl : l = take a l ++ take kk (drop a l) ++ [last]).
  { rewrite <- Hdrop, <- drop_drop, take_drop, take_drop. reflexivity. }
  exists (take a l), last. split; [exact Hl|].
  split; [rewrite length_take, length_drop; lia|].
  assert (E3 : ((Z.of_nat n + -1 <? 0) || (Z.of_nat n <=? Z.of_nat n + -1))%Z = false).
  { apply orb_false_intro; [apply Z.ltb_ge | apply Z.leb_gt]; lia. }
  rewrite E3. rewrite Hl at 1. rewrite app_assoc.
  apply list_lookup_middle. rewrite length_app, length_take, length_take, length_drop. lia.
Qed.

Lemma series_max_ge (l : list float) :
  forall (acc : float) (m : Q),
    foldl (fun acc x =>
             match acc, x with
             | Some a, Some b => Some (Qmax a b)
             | None, _ => x
             | _, None => acc
             end) acc l = Some m ->
    (forall a, acc = Some a -> a <= m) /\ (forall h, Some h ∈ l -> h <= m).
Proof.
  induction l as [|x l IH]; intros acc m H; cbn [foldl] in H.
  { split; [intros a Ha; rewrite Ha in H; injection H as ->; lra|].
    intros h Hh. by apply elem_of_nil in Hh. }
  destruct (IH _ _ H) as [Hacc Hl]. split.
  - intros a ->. destruct x as [b|].
    + specialize (Hacc _ eq_refl). assert (Hm := Q.le_max_l a b). lra.
    + by apply Hacc.
  - intros h Hh. apply elem_of_cons in Hh as [<- | Hh]; [|by apply Hl].
    destruct acc as [a|].
    + specialize (Hacc _ eq_refl). assert (Hm := Q.le_max_r a h). lra.
    + by apply Hacc.
Qed.

Lemma series_min_le (l : list float) :
  forall (acc : float) (m : Q),
    foldl (fun acc x =>
             match acc, x with
             | Some a, Some b => Some (Qmin a b)
             | None, _ => x
             | _, None => acc
             end) acc l = Some m ->
    (forall a, acc = Some a -> m <= a) /\ (forall h, Some h ∈ l -> m <= h).
Proof.
  induction l as [|x l IH]; intros acc m H; cbn [foldl] in H.
  { split; [intros a Ha; rewrite Ha in H; injection H as ->; lra|].
    intros h Hh. by apply elem_of_nil in Hh. }
  destruct (IH _ _ H) as [Hacc Hl]. split.
  - intros a ->. destruct x as [b|].
    + specialize (Hacc _ eq_refl). assert (Hm := Q.le_min_l a b). lra.
    + by apply Hacc.
  - intros h Hh. apply elem_of_cons in Hh as [<- | Hh]; [|by apply Hl].
    destruct acc as [a|].
    + specialize (Hacc _ eq_refl). assert (Hm := Q.le_min_r a h). lra.
    + by apply Hacc.
Qed.

(** X25.  A signal is a breakout of the whole window.  With a buffer
    between 0 and 1 and the lookback bounds in order, when [signal] answers
    the rows split into earlier rows, a window and the last row; the window
    has between MTF_LOOKBACK_MIN and MTF_LOOKBACK_MAX rows, and the last
    close is strictly above every high of the window for a buy, strictly
    below every low of the window for a sell. *)
Theorem signal_breaks_range (df : DataFrame) (sig : Signal) :
  0 <= BREAKOUT_BUFFER_PCT cfg -> BREAKOUT_BUFFER_PCT cfg <= 1 ->
  (0 <= MTF_LOOKBACK_MIN cfg)%Z ->
  (MTF_LOOKBACK_MIN cfg <= MTF_LTF_LOOKBACK cfg)%Z ->
  (MTF_LTF_LOOKBACK cfg <= MTF_LOOKBACK_MAX cfg)%Z ->
  signal cfg df = Some sig ->
  exists pre window last c,
    rows df = pre ++ window ++ [last] /\ close last = Some c
    /\ (MTF_LOOKBACK_MIN cfg <= Z.of_nat (length window) <= MTF_LOOKBACK_MAX cfg)%Z
    /\ match sig with
       | buy => forall row h, row ∈ window -> high row = Some h -> h < c
       | sell => forall row l, row ∈ window -> low row = Some l -> c < l
       end.
Proof.
  intros Hb0 Hb1 Hl0 Hlmin Hlmax H.
  destruct (signal_inv df sig H) as (s & Hs & Hemit).
  destruct (setup_filters df s Hs)
    as (last & c & atr_h & adx_h & Hlast & Hc & Hsc & _ & _ & _ & _ & _
        & Hc0 & _ & _ & _ & _ & _ & _ & Hlook).
  cbv zeta in Hlook.
  set (lookback := lookback_ltf cfg (atr_h / c)
                     (drift_over df (MTF_DRIFT_LOOKBACK_BARS cfg))) in *.
  destruct Hlook as (Hlen & Hlong & Hshort).
  assert (Hbounds := lookback_ltf_bounds (atr_h / c)
                       (drift_over df (MTF_DRIFT_LOOKBACK_BARS cfg)) Hl0 Hlmin Hlmax).
  fold lookback in Hbounds.
  destruct (slice_window (rows df) lookback) as (pre & last' & Hrows & Hwlen & Hlast');
    [lia | exact Hlen |].
  assert (last' = last) as -> by congruence.
  exists pre, (slice (rows df) (- lookback - 1) (-1)), last, c.
  split; [exact Hrows|]. split; [exact Hc|]. split; [rewrite Hwlen; lia|].
  set (window := slice (rows df) (- lookback - 1) (-1)) in *.
  unfold emit in Hemit. destruct (regime s).
  - destruct (long_ok s) eqn:Hok; [|discriminate]. injection Hemit as <-.
    unfold long_ok in Hok. apply andb_prop in Hok as [Hok _].
    apply andb_prop in Hok as [Hok _].
    rewrite Hlong, Hsc in Hok. unfold flt, fmul in Hok.
    destruct (series_max (high <$> window)) as [m|] eqn:Hm; [|discriminate].
    apply Qltb_lt in Hok.
    intros row h Hrow Hh.
    assert (Hin : Some h ∈ high <$> window).
    { rewrite <- Hh. apply list_elem_of_fmap_2. exact Hrow. }
    destruct (series_max_ge _ _ _ Hm) as [_ Hge]. specialize (Hge h Hin).
    destruct (Qlt_le_dec m 0) as [Hneg | Hpos]; [lra|]. nra.
  - destruct (short_ok s) eqn:Hok; [|discriminate]. injection Hemit as <-.
    unfold short_ok in Hok. apply andb_prop in Hok as [Hok _].
    apply andb_prop in Hok as [Hok _].
    rewrite Hshort, Hsc in Hok. unfold flt, fmul in Hok.
    destruct (series_min (low <$> window)) as [m|] eqn:Hm; [|discriminate].
    apply Qltb_lt in Hok.
    intros row l Hrow Hl.
    assert (Hin : Some l ∈ low <$> window).
    { rewrite <- Hl. apply list_elem_of_fmap_2. exact Hrow. }
    destruct (series_min_le _ _ _ Hm) as [_ Hle]. specialize (Hle l Hin).
    destruct (Qlt_le_dec m 0) as [Hneg | Hpos]; nra.
Qed.

End SignalFilters.

Lemma signal_needs_complete_data_witness :
  (100 <= MTFBreakoutStrategy.len breakout_frame)%Z
  /\ (forall col, col ∈ needed_columns
                  -> col ∈ MTFBreakoutStrategy.columns breakout_frame)
  /\ exists last,
       MTFBreakoutStrategy.iloc (MTFBreakoutStrategy.rows breakout_frame) (-1)
       = Some last
       /\ is_Some (MTFBreakoutStrategy.close last)
       /\ is_Some (MTFBreakoutStrategy.HTF_EMA20 last)
       /\ is_Some (MTFBreakoutStrategy.HTF_EMA50 last)
       /\ is_Some (MTFBreakoutStrategy.HTF_EMA200 last)
       /\ is_Some (MTFBreakoutStrategy.HTF_ATR last)
       /\ is_Some (MTFBreakoutStrategy.HTF_ADX last)
       /\ is_Some (MTFBreakoutStrategy.HTF_RSI last)
       /\ is_Some (MTFBreakoutStrategy.HTF_SMA_TREND last).
Proof.
  apply (signal_needs_complete_data MTFBreakoutStrategy.default_params
           breakout_frame buy).
  vm_compute. reflexivity.
Defined.

Lemma signal_passes_trend_filters_witness :
  exists last c atr_h adx_h,
    MTFBreakoutStrategy.iloc (MTFBreakoutStrategy.rows breakout_frame) (-1)
    = Some last
    /\ MTFBreakoutStrategy.close last = Some c
    /\ MTFBreakoutStrategy.HTF_ATR last = Some atr_h
    /\ MTFBreakoutStrategy.HTF_ADX last = Some adx_h
    /\ 0 < c /\ 0 < atr_h
    /\ MTFBreakoutStrategy.ANTI_CHOP_MIN_ATR_PCT MTFBreakoutStrategy.default_params
       <= atr_h / c
    /\ MTFBreakoutStrategy.BREAKOUT_ADX_MIN MTFBreakoutStrategy.default_params
       <= adx_h
    /\ ~ (MTFBreakoutStrategy.HTF_VOLATILE_ATR_PCT MTFBreakoutStrategy.default_params
          < atr_h / c
          /\ MTFBreakoutStrategy.drift_over breakout_frame
               (MTFBreakoutStrategy.HTF_DRIFT_LOOKBACK_BARS
                  MTFBreakoutStrategy.default_params)
             < MTFBreakoutStrategy.HTF_VOLATILE_DRIFT_PCT
                 MTFBreakoutStrategy.default_params
          /\ adx_h < MTFBreakoutStrategy.HTF_VOLATILE_ADX_MAX
                       MTFBreakoutStrategy.default_params)
    /\ (MTFBreakoutStrategy.MTF_DISABLE_VOLATILE_FLAT
          MTFBreakoutStrategy.default_params = true
        -> atr_h / c <= MTFBreakoutStrategy.MTF_ATR_SUPER_HIGH_PCT
                          MTFBreakoutStrategy.default_params)
    /\ MTFBreakoutStrategy.drift_min_eff MTFBreakoutStrategy.default_params
         adx_h (atr_h / c)
       <= MTFBreakoutStrategy.drift_over breakout_frame
            (MTFBreakoutStrategy.MTF_DRIFT_LOOKBACK_BARS
               MTFBreakoutStrategy.default_params).
Proof.
  apply (signal_passes_trend_filters MTFBreakoutStrategy.default_params
           breakout_frame buy).
  vm_compute. reflexivity.
Defined.

Lemma signal_breaks_range_witness :
  exists pre window last c,
    MTFBreakoutStrategy.rows breakout_frame = pre ++ window ++ [last]
    /\ MTFBreakoutStrategy.close last = Some c
    /\ (MTFBreakoutStrategy.MTF_LOOKBACK_MIN MTFBreakoutStrategy.default_params
        <= Z.of_nat (length window)
        <= MTFBreakoutStrategy.MTF_LOOKBACK_MAX MTFBreakoutStrategy.default_params)%Z
    /\ forall row h, row ∈ window -> MTFBreakoutStrategy.high row = Some h -> h < c.
Proof.
  apply (signal_breaks_range MTFBreakoutStrategy.default_params
           breakout_frame buy);
    [vm_compute; discriminate | vm_compute; discriminate
    | vm_compute; discriminate | vm_compute; discriminate
    | vm_compute; discriminate | vm_compute; reflexivity].
Defined.

(** ** The state file *)

Section StateFile.

Import Persistence.

Variable parse_float : string -> option pyfloat.
Variable parse_int : string -> option Z.

(** What [from_dict] answers has its numbers converted, and the three
    required keys were there. *)
Lemma from_dict_typed (now : Q) (d : gmap string pyval) (p : Object) :
  from_dict parse_float parse_int now d = ok p ->
  is_float (entry_price p) /\ is_float (qty p) /\ is_float (notional p)
  /\ is_int (pyramid_level p)
  /\ is_Some (d !! "symbol") /\ is_Some (d !! "entry_price")
  /\ is_Some (d !! "qty").
Proof.
  unfold from_dict, bind, getitem.
  destruct (d !! "symbol") as [s|]; [|discriminate].
  destruct (d !! "entry_price") as [ep|]; [|discriminate].
  destruct (py_float parse_float ep) as [e|] eqn:He; [|discriminate].
  destruct (d !! "qty") as [q|]; [|discriminate].
  destruct (py_float parse_float q) as [qf|]; [|discriminate].
  destruct (py_float parse_float (get d "notional" _)) as [n|]; [|discriminate].
  destruct (py_int_of parse_int (get d "pyramid_level" _)) as [l|]; [|discriminate].
  intros [= <-]. cbn [entry_price qty notional pyramid_level symbol].
  unfold is_float, is_int. repeat split; eauto.
Qed.

(** A record with converted numbers comes back from its own dict. *)
Lemma from_dict_to_dict_typed (now : Q) (p : Object) :
  is_float (entry_price p) -> is_float (qty p) -> is_float (notional p) ->
  is_int (pyramid_level p) ->
  from_dict parse_float parse_int now (to_dict p) = ok p.
Proof.
  intros [e He] [q Hq] [n Hn] [l Hl].
  destruct p as [sy ep qt nt sd md ot sl t1 t2 pk ts lv]. cbn in *. subst.
  vm_compute. reflexivity.
Qed.

(** X26.  Loading is stable.  Whatever dict [from_dict] accepts, with
    numbers given as floats, ints, bools or strings, present or defaulted
    keys, the record it answers has float entry price, quantity and notional
    and an int pyramid level, and saving that record with [to_dict] and
    loading it again, at any later time, gives the same record: nothing
    drifts over restarts.  The dict had the keys symbol, entry_price and
    qty. *)
Theorem from_dict_stable (now now' : Q) (d : gmap string pyval) (p : Object) :
  from_dict parse_float parse_int now d = ok p ->
  from_dict parse_float parse_int now' (to_dict p) = ok p
  /\ is_float (entry_price p) /\ is_float (qty p) /\ is_float (notional p)
  /\ is_int (pyramid_level p)
  /\ is_Some (d !! "symbol") /\ is_Some (d !! "entry_price") /\ is_Some (d !! "qty").
Proof.
  intros H.
  destruct (from_dict_typed now d p H) as (He & Hq & Hn & Hl & Hkeys).
  split; [by apply from_dict_to_dict_typed|].
  repeat (split; [assumption|]). exact Hkeys.
Qed.

(** X27.  A state file of an old version.  A dict that has only symbol,
    entry_price and qty, the numbers in any form [float()] accepts, loads as
    a short futures position opened now, with notional entry price times
    quantity, no stop loss, no targets, no peak, no trailing stop and
    pyramid level 0. *)
Theorem from_dict_legacy_defaults (now : Q) (d : gmap string pyval)
    (s ve vq : pyval) (e q : pyfloat) :
  d !! "symbol" = Some s ->
  d !! "entry_price" = Some ve -> py_float parse_float ve = ok e ->
  d !! "qty" = Some vq -> py_float parse_float vq = ok q ->
  (forall k, k ∈ optional_keys -> d !! k = None) ->
  from_dict parse_float parse_int now d
  = ok {| symbol := s; entry_price := PyFloat e; qty := PyFloat q;
          notional := PyFloat (float_mul e q);
          side := PyStr "short"; mode := PyStr "futures";
          open_time := of_float now;
          stop_loss := PyNone; tp1 := PyNone; tp2 := PyNone;
          peak_price := PyNone; trailing_stop := PyNone;
          pyramid_level := PyInt 0 |}.
Proof.
  intros Hs Hve He Hvq Hq Hopt.
  assert (Hk : forall k, k ∈ optional_keys -> forall dflt, get d k dflt = dflt).
  { intros k Hk dflt. unfold get. by rewrite (Hopt k Hk). }
  unfold from_dict, getitem, bind. rewrite Hs, Hve, He, Hvq, Hq.
  rewrite !Hk by (unfold optional_keys; set_solver).
  reflexivity.
Qed.

Section Manager.

Variable now : string -> Q.

(** X28.  The state manager gives back what it was given.  After
    [set_position] of a record with converted numbers, [get_positions]
    answers that record for the symbol and what it answered before for every
    other symbol; and [del_position] removes the symbol from what
    [get_positions] answers and nothing else. *)
Theorem state_file_round_trip (sym : string) (p : Object)
    (positions : gmap string (gmap string pyval)) :
  is_float (entry_price p) -> is_float (qty p) -> is_float (notional p) ->
  is_int (pyramid_level p) ->
  StateManager.get_positions parse_float parse_int now
    (StateManager.set_position sym p positions)
  = <[sym := p]> (StateManager.get_positions parse_float parse_int now positions)
  /\ (forall positions',
       StateManager.get_positions parse_float parse_int now
         (StateManager.del_position sym positions')
       = delete sym (StateManager.get_positions parse_float parse_int now positions')).
Proof.
  intros He Hq Hn Hl.
  unfold StateManager.get_positions, StateManager.set_position,
    StateManager.del_position.
  split.
  - apply map_imap_insert_Some. by rewrite from_dict_to_dict_typed.
  - intros positions'. apply map_imap_delete.
Qed.

(** X29.  One bad entry does not lose the others.  If the stored dict of a
    symbol makes [from_dict] raise, [get_positions] leaves that symbol out
    and answers every other symbol as it would without the entry. *)
Theorem get_positions_skips_bad_entry (sym : string) (d : gmap string pyval)
    (e : exn) (positions : gmap string (gmap string pyval)) :
  from_dict parse_float parse_int (now sym) d = raised e ->
  StateManager.get_positions parse_float parse_int now (<[sym := d]> positions)
  = delete sym (StateManager.get_positions parse_float parse_int now positions).
Proof.
  intros H. unfold StateManager.get_positions.
  apply map_imap_insert_None. by rewrite H.
Qed.

End Manager.

End StateFile.

Lemma from_dict_stable_witness :
  Persistence.from_dict (fun _ => None) (fun _ => None) 9
    (Persistence.to_dict (legacy_position 7))
  = Persistence.ok (legacy_position 7)
  /\ Persistence.is_float (Persistence.entry_price (legacy_position 7))
  /\ Persistence.is_float (Persistence.qty (legacy_position 7))
  /\ Persistence.is_float (Persistence.notional (legacy_position 7))
  /\ Persistence.is_int (Persistence.pyramid_level (legacy_position 7))
  /\ is_Some (legacy_dict !! "symbol") /\ is_Some (legacy_dict !! "entry_price")
  /\ is_Some (legacy_dict !! "qty").
Proof.
  apply (from_dict_stable (fun _ => None) (fun _ => None) 7 9 legacy_dict
           (legacy_position 7)).
  vm_compute. reflexivity.
Defined.

Lemma from_dict_legacy_defaults_witness :
  Persistence.from_dict (fun _ => None) (fun _ => None) 7 legacy_dict
  = Persistence.ok (legacy_position 7).
Proof.
  apply (from_dict_legacy_defaults (fun _ => None) (fun _ => None) 7 legacy_dict
           (Persistence.PyStr "BTCUSDT") (Persistence.PyInt 100)
           (Persistence.PyInt 2) (Persistence.finite 100) (Persistence.finite 2));
    [reflexivity | reflexivity | reflexivity | reflexivity | reflexivity |].
  intros k Hk. unfold optional_keys in Hk.
  repeat (apply elem_of_cons in Hk as [-> | Hk]; [reflexivity|]).
  by apply elem_of_nil in Hk.
Defined.

Lemma state_file_round_trip_witness :
  StateManager.get_positions (fun _ => None) (fun _ => None) (fun _ => 0)
    (StateManager.set_position "BTCUSDT" (position_object sample_long) ∅)
  = <[ "BTCUSDT" := position_object sample_long ]>
      (StateManager.get_positions (fun _ => None) (fun _ => None) (fun _ => 0) ∅)
  /\ (forall positions',
       StateManager.get_positions (fun _ => None) (fun _ => None) (fun _ => 0)
         (StateManager.del_position "BTCUSDT" positions')
       = delete "BTCUSDT"
           (StateManager.get_positions (fun _ => None) (fun _ => None)
              (fun _ => 0) positions')).
Proof.
  apply (state_file_round_trip (fun _ => None) (fun _ => None) (fun _ => 0)
           "BTCUSDT" (position_object sample_long) ∅); eexists; reflexivity.
Defined.

Lemma get_positions_skips_bad_entry_witness :
  StateManager.get_positions (fun _ => None) (fun _ => None) (fun _ => 0)
    (<[ "ETHUSDT" := ∅ ]> {[ "BTCUSDT" := legacy_dict ]})
  = delete "ETHUSDT"
      (StateManager.get_positions (fun _ => None) (fun _ => None) (fun _ => 0)
         {[ "BTCUSDT" := legacy_dict ]}).
Proof.
  apply (get_positions_skips_bad_entry (fun _ => None) (fun _ => None)
           (fun _ => 0) "ETHUSDT" ∅ Persistence.KeyError
           {[ "BTCUSDT" := legacy_dict ]}).
  reflexivity.
Defined.
